(** * xds_dovs: identity-verification bridge

    A shallow embedding of the parts of [db_access.py], [log_to_db.py],
    [dashboard_app.py] and [xds_main.py] that the specification makes
    claims about, and the proofs that settle those claims.

    Conventions.
    - A Python [str] is a [list ascii]; every [ascii] is one character,
      read as its code point (0 to 255).  [None] is [None] of an [option].
    - The SQLite table [verifications] is a list of rows in insertion
      order together with the AUTOINCREMENT counter.
    - Files are a finite map from the path text to the file.  The file
      of the database is one of them: the deletions, which remove files
      that rows name, lose the table when they remove that one.
    - Code that raises or mutates runs in a state-and-exception monad over
      the [World]. *)

From Stdlib Require Import List Ascii String ZArith Lia Bool Permutation.
From Stdlib Require Import DecimalString DecimalNat.
From stdpp Require Import base countable strings gmap.
Import ListNotations.

#[local] Open Scope list_scope.
#[local] Open Scope bool_scope.

(* ===================================================================== *)
(** * Python strings *)
(* ===================================================================== *)

Module PyStr.

Abbreviation str := (list ascii).

(** A literal: the characters of a Rocq string. *)
Definition py (s : string) : str := list_ascii_of_string s.

Definition ceq (a b : ascii) : bool := Ascii.eqb a b.

Fixpoint str_eqb (a b : str) : bool :=
  match a, b with
  | [], [] => true
  | x :: a', y :: b' => ceq x y && str_eqb a' b'
  | _, _ => false
  end.

(** [==] on values that are a [str] or [None]. *)
Definition opt_eqb (a b : option str) : bool :=
  match a, b with
  | None, None => true
  | Some x, Some y => str_eqb x y
  | _, _ => false
  end.

(** Truth value of a [str] or [None]: false for [None] and for [""]. *)
Definition truthy (a : option str) : bool :=
  match a with
  | Some (_ :: _) => true
  | _ => false
  end.

(** [a or b] on such values. *)
Definition py_or (a b : option str) : option str :=
  if truthy a then a else b.

(** [str.isspace] of one character, for code points below 256: TAB to CR,
    FS to US, SPACE, NEL (0x85) and NBSP (0xA0). *)
Definition isspace (c : ascii) : bool :=
  let n := nat_of_ascii c in
  ((9 <=? n) && (n <=? 13)) || ((28 <=? n) && (n <=? 32))
  || (n =? 133) || (n =? 160).

Fixpoint drop_while (f : ascii -> bool) (s : str) : str :=
  match s with
  | [] => []
  | c :: t => if f c then drop_while f t else s
  end.

(** [s.lstrip()], [s.rstrip()], [s.strip()]. *)
Definition lstrip (s : str) : str := drop_while isspace s.
Definition rstrip (s : str) : str := rev (drop_while isspace (rev s)).
Definition strip (s : str) : str := rstrip (lstrip s).

(** [s.lstrip(chars)]: leading characters that occur in [chars] go. *)
Definition lstrip_chars (chars s : str) : str :=
  drop_while (fun c => existsb (ceq c) chars) s.

(** [s.replace(old, new)] for one-character [old] and [new]. *)
Definition replace_char (old new : ascii) (s : str) : str :=
  map (fun c => if ceq c old then new else c) s.

(** [s.startswith(p)] and [s.endswith(p)]. *)
Fixpoint startswith (p s : str) : bool :=
  match p, s with
  | [], _ => true
  | x :: p', y :: s' => ceq x y && startswith p' s'
  | _ :: _, [] => false
  end.

Definition endswith (p s : str) : bool := startswith (rev p) (rev s).

(** [needle in s]. *)
Fixpoint contains (needle s : str) : bool :=
  startswith needle s ||
  match s with
  | [] => false
  | _ :: t => contains needle t
  end.

(** [s.split(sep)] for a non-empty [sep]: the pieces between the
    non-overlapping occurrences of [sep], found from the left.  [skip]
    counts the characters of an occurrence still to be passed over and
    [cur] holds the current piece, reversed. *)
Fixpoint split_go (sep : str) (skip : nat) (cur : str) (s : str) : list str :=
  match s with
  | [] => [rev cur]
  | c :: t =>
      match skip with
      | S k => split_go sep k cur t
      | O =>
          if startswith sep s
          then rev cur :: split_go sep (length sep - 1) [] t
          else split_go sep 0 (c :: cur) t
      end
  end.

Definition split (sep s : str) : list str := split_go sep 0 [] s.

(** [sep.join(pieces)]. *)
Fixpoint join (sep : str) (pieces : list str) : str :=
  match pieces with
  | [] => []
  | x :: rest =>
      match rest with
      | [] => x
      | _ :: _ => x ++ sep ++ join sep rest
      end
  end.

(** [posixpath.basename]: what follows the last slash
    ([p[p.rfind("/") + 1:]]). *)
Fixpoint until_slash (r : str) : str :=
  match r with
  | [] => []
  | c :: t => if ceq c "/"%char then [] else c :: until_slash t
  end.

Definition basename (p : str) : str := rev (until_slash (rev p)).

(** No character to drop at the front. *)
Definition settled (f : ascii -> bool) (s : str) : bool :=
  match s with
  | [] => true
  | c :: _ => negb (f c)
  end.

End PyStr.

Import PyStr.

(* ===================================================================== *)
(** * Exceptions, state and the interpreter's monad *)
(* ===================================================================== *)

Module Py.

(** The exceptions the modelled code can meet.  All of them derive from
    [Exception], so [except Exception] catches every one. *)
Inductive exn : Type :=
  | FileNotFoundError
  | OSError
  | AttributeError
  | TypeError
  | ValueError
  | OperationalError.

Inductive result (A : Type) : Type :=
  | Ok (a : A)
  | Raise (e : exn).
Arguments Ok {A} a.
Arguments Raise {A} e.

(** A computation over a state [S]: it ends in a value or an exception,
    and the effects it had before an exception stay. *)
Definition St (S A : Type) : Type := S -> result A * S.

Definition ret {S A} (a : A) : St S A := fun s => (Ok a, s).

Definition raise {S A} (e : exn) : St S A := fun s => (Raise e, s).

Definition bind {S A B} (m : St S A) (k : A -> St S B) : St S B :=
  fun s =>
    match m s with
    | (Ok a, s') => k a s'
    | (Raise e, s') => (Raise e, s')
    end.

(** [try: body / except Exception as e: handler e]. *)
Definition try_except {S A} (body : St S A) (handler : exn -> St S A) : St S A :=
  fun s =>
    match body s with
    | (Ok a, s') => (Ok a, s')
    | (Raise e, s') => handler e s'
    end.

Definition get {S} : St S S := fun s => (Ok s, s).
Definition modify {S} (f : S -> S) : St S unit := fun s => (Ok tt, f s).

Declare Scope py_scope.
Delimit Scope py_scope with py.
Notation "'let*' x := m 'in' k" := (bind m (fun x => k))
  (at level 10, x name, m at level 100, k at level 200, only parsing) : py_scope.
Notation "m ;; k" := (bind m (fun _ => k))
  (at level 100, k at level 200, right associativity, only parsing) : py_scope.

#[local] Open Scope py_scope.

(** [for x in l: body x]. *)
Fixpoint for_each {S X} (l : list X) (body : X -> St S unit) : St S unit :=
  match l with
  | [] => ret tt
  | x :: t => body x ;; for_each t body
  end.

(** [if c: body] with no [else]. *)
Definition when {S} (c : bool) (body : St S unit) : St S unit :=
  if c then body else ret tt.

End Py.

Import Py.
#[local] Open Scope py_scope.

(* ===================================================================== *)
(** * The datastore, the files and the console *)
(* ===================================================================== *)

Module Store.

(** One row of the table [verifications]: the surrogate key and nine TEXT
    columns, each a string or NULL. *)
Record Row : Type := {
  id : Z;
  timestamp : option str;
  client_id : option str;
  status : option str;
  details : option str;
  name : option str;
  id_number : option str;
  email : option str;
  id_photo : option str;
  selfie_photo : option str
}.

(** The table: its rows in insertion order, and the largest key ever
    handed out (SQLite's [sqlite_sequence] entry for AUTOINCREMENT). *)
Record Table : Type := {
  rows : list Row;
  seq : Z
}.

(** A file as the code can observe it: the text [read()] returns when the
    file can be opened and decoded (line ends already translated), whether
    [open(path, "w")] succeeds, and whether [os.remove] succeeds.  A
    directory is a file that can be neither read, written nor removed. *)
Record File : Type := {
  text : option str;
  writable : bool;
  removable : bool
}.

(** What [print] wrote, one entry per call. *)
Inductive Msg : Type :=
  | AttemptingToDelete (id_number : str)
  | RemovedFile (f : str)
  | FailedToRemove (f : str) (e : exn)
  | RowsDeleted (n : nat)
  | RemovedBlocks (n : nat)
  | AuditLogCleanupFailed (e : exn)
  | RetrofillComplete (n : nat).

(** The state the code runs against.  A path names a file by its text, as
    seen from the working directory of the process. *)
Record World : Type := {
  table : Table;
  fs : gmap str File;
  stdout : list Msg
}.

Definition with_table (t : Table) (w : World) : World :=
  {| table := t; fs := fs w; stdout := stdout w |}.
Definition with_fs (f : gmap str File) (w : World) : World :=
  {| table := table w; fs := f; stdout := stdout w |}.

Definition print (m : Msg) : St World unit :=
  modify (fun w => {| table := table w; fs := fs w; stdout := stdout w ++ [m] |}).

(** [os.path.exists]. *)
Definition os_path_exists (p : str) : St World bool :=
  let* w := get in ret (match fs w !! p with Some _ => true | None => false end).

(** [os.remove]. *)
Definition os_remove (p : str) : St World unit :=
  let* w := get in
  match fs w !! p with
  | None => raise FileNotFoundError
  | Some f =>
      if removable f then modify (with_fs (delete p (fs w)))
      else raise OSError
  end.

(** [open(p, "r", encoding="utf-8").read()]. *)
Definition read_text (p : str) : St World str :=
  let* w := get in
  match fs w !! p with
  | None => raise FileNotFoundError
  | Some f =>
      match text f with
      | Some s => ret s
      | None => raise OSError
      end
  end.

(** Where the program is installed: the directory of [db_access.py],
    and what the process may do around it: [can_create p] says that a
    file [p] that is not there can be made, its directory being there
    and open to writing. *)
Class Deployment : Type := {
  BASE_DIR : str;
  can_create : str -> bool
}.

(** [open(p, "w", encoding="utf-8").write(s)].  A refused write leaves the
    file as it was; a file that is not there is made when it can be, and
    can then be read, written and removed; when it cannot be made the
    open ends in an [OSError] ([FileNotFoundError] for a missing
    directory, [PermissionError] for a closed one). *)
Definition write_text {site : Deployment} (p s : str) : St World unit :=
  let* w := get in
  match fs w !! p with
  | None =>
      if can_create p
      then modify (with_fs (<[p := {| text := Some s; writable := true; removable := true |}]> (fs w)))
      else raise OSError
  | Some f =>
      if writable f
      then modify (with_fs (<[p := {| text := Some s; writable := true; removable := removable f |}]> (fs w)))
      else raise OSError
  end.

(** [posixpath.join] of two components. *)
Definition os_path_join (a b : str) : str :=
  if startswith (py "/") b then b
  else match a with
       | [] => b
       | _ => if endswith (py "/") a then a ++ b else a ++ py "/" ++ b
       end.

(** The SQL engine's part that the code relies on and does not define:
    the order [ORDER BY datetime(timestamp) DESC, id DESC] puts rows in.
    It rearranges the rows and does nothing else. *)
Class SqlEngine : Type := {
  order_by_datetime_desc_id_desc : list Row -> list Row;
  order_permutes : forall l, Permutation (order_by_datetime_desc_id_desc l) l
}.

(** SQL [TRIM(x)]: spaces (0x20), and only spaces, go from both ends. *)
Definition is_sp (c : ascii) : bool := ceq c " "%char.
Definition sql_trim (s : str) : str :=
  rev (drop_while is_sp (rev (drop_while is_sp s))).

(** SQL [column = ?]: NULL on either side compares as not equal. *)
Definition sql_eq (column param : option str) : bool :=
  match column, param with
  | Some a, Some b => str_eqb a b
  | _, _ => false
  end.

Fixpoint max_rowid (l : list Row) : Z :=
  match l with
  | [] => 0
  | r :: t => Z.max (id r) (max_rowid t)
  end.

(** The key AUTOINCREMENT gives the next row: one above the largest key
    ever handed out.  SQLite's keys are signed 64-bit numbers and the
    insert is refused when the largest is [2^63 - 1]; the keys here are
    the keys of a table that has not come to that end. *)
Definition next_rowid (t : Table) : Z := Z.max (seq t) (max_rowid (rows t)) + 1.

End Store.

Import Store.

(* ===================================================================== *)
(** * db_access.py *)
(* ===================================================================== *)

Module db_access.

Definition newline : ascii := "010"%char.

(** [LOG_FILE = os.path.join(BASE_DIR, "dov_audit_log.txt")]. *)
Definition LOG_FILE {site : Deployment} : str :=
  os_path_join BASE_DIR (py "dov_audit_log.txt").

(** [normalize_path]: lines 10-17. *)
Definition normalize_path (path : option str) : option str :=
  if negb (truthy path) then None
  else
    match path with
    | None => None
    | Some s =>
        let p := strip (replace_char "\"%char "/"%char s) in
        if startswith (py "uploads/") p || startswith (py "/uploads/") p
        then Some (lstrip_chars (py "/") p)
        else Some (py "uploads/" ++ basename p)
    end.

(** The delimiter the pruning splits on: ["=" * 50 + "\n\n"]. *)
Definition BLOCK_END : str := repeat "="%char 50 ++ [newline; newline].

(** The loop of lines 29-36 over one block: the kept blocks (in order)
    and the number removed so far. *)
Definition prune_step (needle : str) (acc : list str * nat) (b : str)
  : list str * nat :=
  let '(kept, removed) := acc in
  if negb (truthy (Some (strip b))) then (kept, removed)
  else if contains needle b then (kept, S removed)
  else (kept ++ [b], removed).

(** The loop of lines 37-41 over one kept block. *)
Definition rejoin_step (new_content b : str) : str :=
  let b := if negb (endswith [newline] b) then b ++ [newline] else b in
  new_content ++ b ++ BLOCK_END.

(** Line 22: [log_path or LOG_FILE]. *)
Definition path_or_default {site : Deployment} (log_path : option str) : str :=
  match py_or log_path (Some LOG_FILE) with
  | Some p => p
  | None => LOG_FILE
  end.

(** [_delete_audit_blocks_by_id_number]: lines 20-47. *)
Definition _delete_audit_blocks_by_id_number {site : Deployment}
    (id_number : str) (log_path : option str) : St World nat :=
  let path := path_or_default log_path in
  let* there := os_path_exists path in
  if negb there then ret 0
  else
    try_except
      (let* content := read_text path in
       let blocks := split BLOCK_END content in
       let '(kept, removed) :=
         fold_left (prune_step (py "ID Number: " ++ id_number)) blocks ([], 0) in
       let new_content := fold_left rejoin_step kept [] in
       write_text path new_content ;;
       ret removed)
      (fun e => print (AuditLogCleanupFailed e) ;; ret 0).

(** [insert_verification]: lines 123-139. *)
Definition insert_verification
    (timestamp client_id status details name id_number email
     id_photo selfie_photo : option str) : St World Z :=
  let* w := get in
  let new_id := next_rowid (table w) in
  let r := {| id := new_id;
              timestamp := timestamp; client_id := client_id;
              status := status; details := details; name := name;
              id_number := id_number; email := email;
              id_photo := normalize_path id_photo;
              selfie_photo := normalize_path selfie_photo |} in
  modify (with_table {| rows := rows (table w) ++ [r]; seq := new_id |}) ;;
  ret new_id.

(** What [fetch_all_verifications] returns for one row: the row's dict
    with the two photo entries replaced and [date_str] added. *)
Record Verification : Type := {
  fields : Row;
  date_str : option str
}.

Definition with_photos (idp selfie : option str) (r : Row) : Row :=
  {| id := id r;
     timestamp := timestamp r; client_id := client_id r;
     status := status r; details := details r; name := name r;
     id_number := id_number r; email := email r;
     id_photo := idp; selfie_photo := selfie |}.

(** Lines 155-159: what the loop makes of one fetched row. *)
Definition fetched (r : Row) : Verification :=
  {| fields := with_photos (normalize_path (id_photo r))
                           (normalize_path (selfie_photo r)) r;
     date_str := timestamp r |}.

(** [fetch_all_verifications]: lines 142-160. *)
Definition fetch_all_verifications {engine : SqlEngine} : St World (list Verification) :=
  let* w := get in
  let rows := order_by_datetime_desc_id_desc (rows (table w)) in
  ret (map fetched rows).

(** Lines 173-178 and 197-202: remove one linked file, best effort. *)
Definition remove_linked_file (f : option str) : St World unit :=
  match f with
  | Some p =>
      let* there := (if truthy f then os_path_exists p else ret false) in
      when there
        (try_except
           (os_remove p ;; print (RemovedFile p))
           (fun e => print (FailedToRemove p e)))
  | None => ret tt
  end.

(** [DB_FILE = os.path.join(BASE_DIR, "verifications.db")]: line 6. *)
Definition DB_FILE {site : Deployment} : str :=
  os_path_join BASE_DIR (py "verifications.db").

(** What is left of the table when the file of the database is lost, or
    was not there: no row, and no table either until the schema checks
    run again. *)
Definition LOST : Table := {| rows := []; seq := 0 |}.

(** [sqlite3.connect(DB_FILE)] and the [SELECT] that follows it, in the
    two deletions.  A file at [DB_FILE] is the database that holds the
    table.  Where there is none, [connect] makes an empty file if it
    can, and either the [SELECT] (no such table) or the [connect]
    itself (unable to open database file) ends in
    [sqlite3.OperationalError]. *)
Definition connect_and_select {site : Deployment} : St World unit :=
  let* there := os_path_exists DB_FILE in
  if there then ret tt
  else
    when (can_create DB_FILE)
      (modify (fun w => with_fs (<[DB_FILE := {| text := Some [];
                                                 writable := true;
                                                 removable := true |}]> (fs w)) w)) ;;
    modify (with_table LOST) ;;
    raise OperationalError.

(** [DELETE FROM verifications WHERE ...] with [cur.rowcount].  The
    statement writes, and SQLite does not write to a database whose file
    was unlinked after the connection opened it: it ends in
    [OperationalError] ("attempt to write a readonly database"), and the
    rows are gone with the file.  (The file can only be gone here
    because a row that was selected names it, so there is a row to
    delete.) *)
Definition sql_delete {site : Deployment} (goes : Row -> bool) : St World nat :=
  let* there := os_path_exists DB_FILE in
  if there
  then
    let* w := get in
    modify (with_table {| rows := List.filter (fun r => negb (goes r))
                                         (rows (table w));
                          seq := seq (table w) |}) ;;
    ret (length (List.filter goes (rows (table w))))
  else
    modify (with_table LOST) ;;
    raise OperationalError.


(** [WHERE TRIM(id_number) = ?] with the parameter [id_number.strip()]. *)
Definition id_number_matches (id_number : str) (r : Row) : bool :=
  sql_eq (option_map sql_trim (Store.id_number r)) (Some (strip id_number)).

(** [delete_by_id_number]: lines 185-212.  The removal of a linked file
    is in a [try]; the [DELETE] after it is not. *)
Definition delete_by_id_number {site : Deployment} (id_number : str) : St World bool :=
  print (AttemptingToDelete id_number) ;;
  connect_and_select ;;
  let* w := get in
  let rows := List.filter (id_number_matches id_number) (rows (table w)) in
  for_each rows
    (fun r => for_each [id_photo r; selfie_photo r] remove_linked_file) ;;
  let* deleted_count := sql_delete (id_number_matches id_number) in
  print (RowsDeleted deleted_count) ;;
  let* removed_blocks := _delete_audit_blocks_by_id_number id_number None in
  print (RemovedBlocks removed_blocks) ;;
  ret ((0 <? deleted_count) || (0 <? removed_blocks)).

End db_access.

(* ===================================================================== *)
(** * log_to_db.py *)
(* ===================================================================== *)

Module log_to_db.

Import db_access.

(** [LOG_FILE = "dov_audit_log.txt"], relative to the working directory. *)
Definition LOG_FILE : str := py "dov_audit_log.txt".

(** The delimiter the reconciliation splits on. *)
Definition SESSION_MARK : str := py "--- Verification Session ---".

(** The keys of the [session] dict. *)
Inductive Key : Type :=
  | k_timestamp | k_client_id | k_status | k_details | k_name
  | k_id_number | k_email | k_id_photo | k_selfie_photo.

Definition key_eqb (a b : Key) : bool :=
  match a, b with
  | k_timestamp, k_timestamp | k_client_id, k_client_id
  | k_status, k_status | k_details, k_details | k_name, k_name
  | k_id_number, k_id_number | k_email, k_email
  | k_id_photo, k_id_photo | k_selfie_photo, k_selfie_photo => true
  | _, _ => false
  end.

(** The [session] dict: every key is always present. *)
Definition Session : Type := Key -> option str.

Definition empty_session : Session := fun _ => None.

(** [session[k] = v]. *)
Definition set_key (k : Key) (v : str) (s : Session) : Session :=
  fun k' => if key_eqb k k' then Some v else s k'.

(** The line prefixes of lines 37-54, in the order they are tried. *)
Definition PREFIXES : list (str * Key) :=
  [ (py "Timestamp:", k_timestamp);
    (py "ClientID:", k_client_id);
    (py "Verification Status:", k_status);
    (py "Details:", k_details);
    (py "Name:", k_name);
    (py "ID Number:", k_id_number);
    (py "Email:", k_email);
    (py "ConsumerIDPhoto:", k_id_photo);
    (py "ConsumerCapturedPhoto:", k_selfie_photo) ].

(** [line.split(prefix)[1].strip()]; the line starts with the prefix, so
    the split has a second piece. *)
Definition value_after (prefix line : str) : str :=
  strip (nth 1 (split prefix line) []).

(** The [if]/[elif] chain on one stripped line. *)
Fixpoint parse_line (prefixes : list (str * Key)) (line : str) (s : Session)
  : Session :=
  match prefixes with
  | [] => s
  | (prefix, k) :: rest =>
      if startswith prefix line then set_key k (value_after prefix line) s
      else parse_line rest line s
  end.

(** [parse_session_block]: lines 21-56. *)
Definition parse_session_block (block : str) : Session :=
  fold_left (fun s line => parse_line PREFIXES (strip line) s)
            (split [newline] block) empty_session.

(** [insert_into_db]: lines 58-70. *)
Definition insert_into_db (session : Session) : St World unit :=
  insert_verification
    (session k_timestamp) (session k_client_id) (session k_status)
    (session k_details) (session k_name) (session k_id_number)
    (session k_email) (session k_id_photo) (session k_selfie_photo) ;;
  ret tt.

(** Line 81 and line 108: the block is a session. *)
Definition is_session_block (block : str) : bool :=
  contains (py "Timestamp:") block && contains (py "ClientID:") block.

(** Lines 84 and 111: the record is the session's. *)
Definition same_session (log : Verification) (session : Session) : bool :=
  opt_eqb (timestamp (fields log)) (session k_timestamp)
  && opt_eqb (client_id (fields log)) (session k_client_id).

(** Lines 90-94: [UPDATE verifications SET id_photo=?, selfie_photo=?
    WHERE timestamp=? AND client_id=?]. *)
Definition update_photos (new_id_photo new_selfie_photo ts cid : option str)
  : St World unit :=
  let* w := get in
  modify (with_table
            {| rows := map (fun r =>
                              if sql_eq (timestamp r) ts && sql_eq (client_id r) cid
                              then with_photos new_id_photo new_selfie_photo r
                              else r)
                           (rows (table w));
               seq := seq (table w) |}).

(** Lines 84-97: one record against one session; the result says whether
    [updated_count] goes up. *)
Definition retrofill_one (session : Session) (log : Verification) : St World nat :=
  if same_session log session then
    let new_id_photo := py_or (id_photo (fields log)) (session k_id_photo) in
    let new_selfie_photo := py_or (selfie_photo (fields log)) (session k_selfie_photo) in
    if negb (opt_eqb new_id_photo (id_photo (fields log)))
       || negb (opt_eqb new_selfie_photo (selfie_photo (fields log)))
    then
      update_photos new_id_photo new_selfie_photo
                    (timestamp (fields log)) (client_id (fields log)) ;;
      ret 1
    else ret 0
  else ret 0.

(** A loop that adds up what each round returns. *)
Fixpoint sum_each {X} (l : list X) (body : X -> St World nat) : St World nat :=
  match l with
  | [] => ret 0
  | x :: t =>
      let* n := body x in
      let* m := sum_each t body in
      ret (n + m)
  end.

(** Lines 81-97: one block against every record read at line 75. *)
Definition retrofill_block (logs : list Verification) (block : str) : St World nat :=
  if is_session_block block
  then sum_each logs (retrofill_one (parse_session_block block))
  else ret 0.

(** [retrofill_photos]: lines 73-99. *)
Definition retrofill_photos {engine : SqlEngine} : St World unit :=
  let* logs := fetch_all_verifications in
  let* content := read_text LOG_FILE in
  let blocks := split SESSION_MARK content in
  let* updated_count := sum_each blocks (retrofill_block logs) in
  print (RetrofillComplete updated_count).

(** Lines 108-114: one round of the loop of [process_log_file]. *)
Definition reconcile_block {engine : SqlEngine} (block : str) : St World unit :=
  when (is_session_block block)
    (let session := parse_session_block block in
     let* logs := fetch_all_verifications in
     let exists_ := existsb (fun log => same_session log session) logs in
     when (negb exists_) (insert_into_db session)).

(** [process_log_file]: lines 102-114. *)
Definition process_log_file {engine : SqlEngine} : St World unit :=
  let* content := read_text LOG_FILE in
  let blocks := split SESSION_MARK content in
  for_each blocks reconcile_block.

End log_to_db.

(* ===================================================================== *)
(** * The parts of Python's library that dashboard_app.py calls *)
(* ===================================================================== *)

Module PyLib.

(** [str.lower] of one character, for code points below 256: the ASCII
    capitals, and the Latin-1 capitals 0xC0-0xDE except the
    multiplication sign 0xD7. *)
Definition lower_char (c : ascii) : ascii :=
  let n := nat_of_ascii c in
  if ((65 <=? n) && (n <=? 90))
     || ((192 <=? n) && (n <=? 222) && negb (n =? 215))
  then ascii_of_nat (n + 32)
  else c.

Definition lower (s : str) : str := map lower_char s.

(** The value of an ASCII digit. *)
Definition digit (c : ascii) : option nat :=
  let n := nat_of_ascii c in
  if (48 <=? n) && (n <=? 57) then Some (n - 48) else None.

(** [str.isdigit]: not empty, and every character an ASCII digit or one
    of the superscripts two, three and one (0xB2, 0xB3, 0xB9). *)
Definition isdigit_char (c : ascii) : bool :=
  let n := nat_of_ascii c in
  match digit c with
  | Some _ => true
  | None => (n =? 178) || (n =? 179) || (n =? 185)
  end.

Definition isdigit (s : str) : bool :=
  match s with
  | [] => false
  | _ => forallb isdigit_char s
  end.

(** [int(s)] for an [s] that passed [isdigit]: the superscripts are
    digits to [isdigit] and a [ValueError] to [int].  (CPython's limit on
    the number of digits is not modelled.) *)
Definition int_of_digits {S} (s : str) : St S nat :=
  match NilEmpty.uint_of_string (string_of_list_ascii s) with
  | Some d => ret (Nat.of_uint d)
  | None => raise ValueError
  end.

(** [str(n)] for a natural number. *)
Definition str_of_nat (n : nat) : str :=
  list_ascii_of_string (NilEmpty.string_of_uint (Nat.to_uint n)).

(** [a < b] on strings: by code point, then by length. *)
Fixpoint str_ltb (a b : str) : bool :=
  match a, b with
  | _, [] => false
  | [], _ :: _ => true
  | x :: a', y :: b' =>
      (nat_of_ascii x <? nat_of_ascii y)
      || ((nat_of_ascii x =? nat_of_ascii y) && str_ltb a' b')
  end.

(** [max(items, default=d)] on items that are a [str] or [None]: any
    comparison with [None] is a [TypeError]; the first of equal maxima
    stays. *)
Fixpoint max_from {S} (best : option str) (items : list (option str))
  : St S (option str) :=
  match items with
  | [] => ret best
  | item :: rest =>
      match item, best with
      | Some i, Some b => max_from (if str_ltb b i then item else best) rest
      | _, _ => raise TypeError
      end
  end.

Definition py_max {S} (items : list (option str)) (default : str)
  : St S (option str) :=
  match items with
  | [] => ret (Some default)
  | first :: rest => max_from first rest
  end.

(** [[x for x in l if keep x]] where [keep] may raise. *)
Fixpoint filter_st {S X} (keep : X -> St S bool) (l : list X) : St S (list X) :=
  match l with
  | [] => ret []
  | x :: t =>
      let* k := keep x in
      let* t' := filter_st keep t in
      ret (if k then x :: t' else t')
  end.

(** ** [datetime.strptime]

    [_strptime] turns the format into a regular expression, takes the
    first match in the order backtracking tries them, and refuses data
    with text left after the match.  A piece of the expression is
    modelled by the list of its matches at the start of the data, in
    that order, each with the text that follows. *)

Definition Matches (A : Type) : Type := str -> list (A * str).

Definition alt {A} (p q : Matches A) : Matches A := fun s => p s ++ q s.

Definition seq_ {A B} (p : Matches A) (q : A -> Matches B) : Matches B :=
  fun s => flat_map (fun '(a, rest) => q a rest) (p s).

Definition yield {A} (a : A) : Matches A := fun s => [(a, s)].

(** One literal character. *)
Definition lit (c : ascii) : Matches unit :=
  fun s => match s with
           | x :: t => if ceq x c then [(tt, t)] else []
           | [] => []
           end.

(** [\d] with a condition on the digit. *)
Definition d1 (ok : nat -> bool) : Matches nat :=
  fun s => match s with
           | x :: t => match digit x with
                       | Some v => if ok v then [(v, t)] else []
                       | None => []
                       end
           | [] => []
           end.

(** Two digits, with a condition on each; the value is the number read. *)
Definition d2 (ok1 ok2 : nat -> bool) : Matches nat :=
  seq_ (d1 ok1) (fun a => seq_ (d1 ok2) (fun b => yield (10 * a + b))).

Definition any_digit (_ : nat) : bool := true.
Definition between (lo hi v : nat) : bool := (lo <=? v) && (v <=? hi).

(** [\s+]: one or more white-space characters, the longest run first. *)
Fixpoint spaces (s : str) : list (unit * str) :=
  match s with
  | c :: t => if isspace c then spaces t ++ [(tt, t)] else []
  | [] => []
  end.

(** [%Y]: [\d\d\d\d]. *)
Definition re_Y : Matches nat :=
  seq_ (d2 any_digit any_digit) (fun hi =>
  seq_ (d2 any_digit any_digit) (fun lo => yield (100 * hi + lo))).

(** [%m]: [1[0-2]|0[1-9]|[1-9]]. *)
Definition re_m : Matches nat :=
  alt (d2 (Nat.eqb 1) (between 0 2))
      (alt (d2 (Nat.eqb 0) (between 1 9)) (d1 (between 1 9))).

(** [%d]: [3[01]|[12]\d|0[1-9]|[1-9]| [1-9]]. *)
Definition re_d : Matches nat :=
  alt (d2 (Nat.eqb 3) (between 0 1))
      (alt (d2 (between 1 2) any_digit)
           (alt (d2 (Nat.eqb 0) (between 1 9))
                (alt (d1 (between 1 9))
                     (seq_ (lit " "%char) (fun _ => d1 (between 1 9)))))).

(** [%H]: [2[0-3]|[0-1]\d|\d]. *)
Definition re_H : Matches nat :=
  alt (d2 (Nat.eqb 2) (between 0 3))
      (alt (d2 (between 0 1) any_digit) (d1 any_digit)).

(** [%M]: [[0-5]\d|\d]. *)
Definition re_M : Matches nat :=
  alt (d2 (between 0 5) any_digit) (d1 any_digit).

(** [%S]: [6[0-1]|[0-5]\d|\d]. *)
Definition re_S : Matches nat :=
  alt (d2 (Nat.eqb 6) (between 0 1))
      (alt (d2 (between 0 5) any_digit) (d1 any_digit)).

Record datetime : Type := {
  year : nat; month : nat; day : nat;
  hour : nat; minute : nat; second : nat
}.

Definition is_leap (y : nat) : bool :=
  ((y mod 4 =? 0) && negb (y mod 100 =? 0)) || (y mod 400 =? 0).

Definition days_in_month (y m : nat) : nat :=
  match m with
  | 2 => if is_leap y then 29 else 28
  | 4 | 6 | 9 | 11 => 30
  | _ => 31
  end.

(** [datetime.MAXYEAR], 9999. *)
Definition MAXYEAR : nat := 99 * 101.

(** The checks of the [datetime] constructor. *)
Definition valid (t : datetime) : bool :=
  between 1 MAXYEAR (year t) && between 1 12 (month t)
  && between 1 (days_in_month (year t) (month t)) (day t)
  && (hour t <=? 23) && (minute t <=? 59) && (second t <=? 59).

(** The expression of ["%Y-%m-%d %H:%M:%S"]. *)
Definition re_datetime : Matches datetime :=
  seq_ re_Y (fun y => seq_ (lit "-"%char) (fun _ =>
  seq_ re_m (fun m => seq_ (lit "-"%char) (fun _ =>
  seq_ re_d (fun d => seq_ spaces (fun _ =>
  seq_ re_H (fun h => seq_ (lit ":"%char) (fun _ =>
  seq_ re_M (fun mi => seq_ (lit ":"%char) (fun _ =>
  seq_ re_S (fun sec =>
  yield {| year := y; month := m; day := d;
           hour := h; minute := mi; second := sec |}))))))))))).

(** The expression of ["%Y-%m-%d"]. *)
Definition re_date : Matches datetime :=
  seq_ re_Y (fun y => seq_ (lit "-"%char) (fun _ =>
  seq_ re_m (fun m => seq_ (lit "-"%char) (fun _ =>
  seq_ re_d (fun d =>
  yield {| year := y; month := m; day := d;
           hour := 0; minute := 0; second := 0 |}))))).

(** [datetime.strptime(data, format)] for a format whose expression is
    [re]: [TypeError] on [None], [ValueError] when nothing matches, when
    text remains, or when the fields are no date and time. *)
Definition strptime_result (re : Matches datetime) (data : option str)
  : result datetime :=
  match data with
  | None => Raise TypeError
  | Some s =>
      match re s with
      | (t, []) :: _ => if valid t then Ok t else Raise ValueError
      | _ => Raise ValueError
      end
  end.

Definition strptime {S} (re : Matches datetime) (data : option str)
  : St S datetime :=
  fun s => (strptime_result re data, s).

(** [a <= b] on [datetime] values. *)
Definition dt_key (t : datetime) : list nat :=
  [year t; month t; day t; hour t; minute t; second t].

Fixpoint lex_leb (a b : list nat) : bool :=
  match a, b with
  | x :: a', y :: b' => (x <? y) || ((x =? y) && lex_leb a' b')
  | _, _ => true
  end.

Definition dt_leb (a b : datetime) : bool := lex_leb (dt_key a) (dt_key b).

End PyLib.

(* ===================================================================== *)
(** * dashboard_app.py *)
(* ===================================================================== *)

Module dashboard_app.

Import db_access PyLib.

(** [_to_uploads_url]: lines 32-37. *)
Definition _to_uploads_url (path_value : option str) : str :=
  match path_value with
  | Some (c :: s) =>
      let p := replace_char "\"%char "/"%char (strip (c :: s)) in
      if negb (startswith (py "/") p) then py "/" ++ p else p
  | _ => []
  end.

(** Lines 77-79: the photo entries of one record become URLs. *)
Definition with_urls (v : Verification) : Verification :=
  {| fields := with_photos (Some (_to_uploads_url (id_photo (fields v))))
                           (Some (_to_uploads_url (selfie_photo (fields v))))
                           (fields v);
     date_str := date_str v |}.

(** [request.args.get(key, default)]. *)
Definition args_get (args : gmap str str) (key : string) (default : string) : str :=
  match args !! py key with
  | Some v => v
  | None => py default
  end.

(** [v.get(key, "").lower()]: the key is always there, so the default
    never applies, and a NULL is [None], which has no [lower]. *)
Definition lower_of {S} (value : option str) : St S str :=
  match value with
  | Some s => ret (lower s)
  | None => raise AttributeError
  end.

Definition FORMAT : Matches datetime := re_datetime.

(** What [index] hands to the template, as far as the filters and the
    statistics go. *)
Record Page : Type := {
  logs : list Verification;
  total : nat;
  success : nat;
  failed : nat;
  last_date : option str
}.

(** [sum(1 for v in logs if v.get("status", "").lower() == word)]. *)
Definition count_status {S} (word : string) (logs : list Verification) : St S nat :=
  let* hits := filter_st (fun v => let* s := lower_of (status (fields v)) in
                                   ret (str_eqb s (py word))) logs in
  ret (length hits).

(** [index]: lines 54-111.  [args] is the query string, [now_year] is
    [datetime.now().year].  The chart series of lines 113-122 catches its
    own exceptions and changes nothing above; it is left out, and so is
    the rendering. *)
Definition index {engine : SqlEngine} (args : gmap str str) (now_year : nat) : St World Page :=
  let status := args_get args "status" "all" in
  let name := strip (args_get args "name" "") in
  let id_number := strip (args_get args "id_number" "") in
  let month := args_get args "month" "0" in
  let year := match args !! py "year" with
              | Some v => v
              | None => str_of_nat now_year
              end in
  let date_from := args_get args "date_from" "" in
  let date_to := args_get args "date_to" "" in
  let* filter_month := (if isdigit month then int_of_digits month else ret 0) in
  let* filter_year := (if isdigit year then int_of_digits year else ret now_year) in
  let* logs := fetch_all_verifications in
  let logs := map with_urls logs in
  let* logs :=
    (if negb (str_eqb (lower status) (py "all"))
     then filter_st (fun v => let* s := lower_of (Store.status (fields v)) in
                              ret (str_eqb s (lower status))) logs
     else ret logs) in
  let* logs :=
    (if truthy (Some name)
     then filter_st (fun v => let* n := lower_of (Store.name (fields v)) in
                              ret (contains (lower name) n)) logs
     else ret logs) in
  let* logs :=
    (if truthy (Some id_number)
     then ret (List.filter (fun v => opt_eqb (Store.id_number (fields v)) (Some id_number)) logs)
     else ret logs) in
  let* logs :=
    (if negb (filter_month =? 0)
     then filter_st (fun v => let* t := strptime FORMAT (timestamp (fields v)) in
                              ret (PyLib.month t =? filter_month)) logs
     else ret logs) in
  let* logs :=
    (if negb (filter_year =? 0)
     then filter_st (fun v => let* t := strptime FORMAT (timestamp (fields v)) in
                              ret (PyLib.year t =? filter_year)) logs
     else ret logs) in
  let* logs :=
    (if truthy (Some date_from)
     then try_except
            (let* df := strptime re_date (Some date_from) in
             filter_st (fun v => let* t := strptime FORMAT (timestamp (fields v)) in
                                 ret (dt_leb df t)) logs)
            (fun _ => ret logs)
     else ret logs) in
  let* logs :=
    (if truthy (Some date_to)
     then try_except
            (let* dt := strptime re_date (Some date_to) in
             filter_st (fun v => let* t := strptime FORMAT (timestamp (fields v)) in
                                 ret (dt_leb t dt)) logs)
            (fun _ => ret logs)
     else ret logs) in
  let total := length logs in
  let* success := count_status "success" logs in
  let* failed := count_status "failed" logs in
  let* last_date := py_max (map (fun v => timestamp (fields v)) logs) (py "N/A") in
  ret {| logs := logs; total := total; success := success;
         failed := failed; last_date := last_date |}.

End dashboard_app.

(* ===================================================================== *)
(** * xds_main.py *)
(* ===================================================================== *)

Module xds_main.

(** What one call of [get_dov_result] comes to: an exception (network,
    HTTP status, XML), or the text of the result element, which is
    [None] for an empty element and [""] for a missing one. *)
Inductive Reply : Type :=
  | Fails (e : exn)
  | Returns (result : option str).

(** The verification service as the polling loop sees it: the reply to
    each call in turn, the number of calls made, and the sleeps taken. *)
Record Service : Type := {
  reply : str -> str -> nat -> Reply;
  calls : nat;
  slept : list Z
}.

(** [get_dov_result]: lines 326-342, by its outcome. *)
Definition get_dov_result (ticket enquiry_id : str) : St Service (option str) :=
  fun s =>
    let s' := {| reply := reply s; calls := S (calls s); slept := slept s |} in
    match reply s ticket enquiry_id (calls s) with
    | Fails e => (Raise e, s')
    | Returns r => (Ok r, s')
    end.

(** [time.sleep]: a negative length is a [ValueError]. *)
Definition time_sleep (secs : Z) : St Service unit :=
  if (secs <? 0)%Z then raise ValueError
  else modify (fun s => {| reply := reply s; calls := calls s;
                           slept := slept s ++ [secs] |}).

(** The text returned at line 386.  Its first character is U+26D4, which
    is no [ascii]; it stands here as the three bytes of its UTF-8 form. *)
Definition TIMED_OUT : str :=
  ["226"%char; "155"%char; "148"%char]
  ++ py " DOV Result polling timed out after multiple attempts.".

(** Line 381: [dov_result and "<NoResult>" not in dov_result]. *)
Definition is_result (dov_result : option str) : bool :=
  truthy dov_result
  && match dov_result with
     | Some s => negb (contains (py "<NoResult>") s)
     | None => false
     end.

(** The loop of lines 375-385, with [attempts] rounds to go. *)
Fixpoint poll_loop (attempts : nat) (ticket enquiry_id : str) (interval : Z)
  : St Service str :=
  match attempts with
  | O => ret TIMED_OUT
  | S attempts' =>
      let* dov_result :=
        try_except (get_dov_result ticket enquiry_id) (fun _ => ret (Some [])) in
      if is_result dov_result
      then ret (match dov_result with Some s => s | None => [] end)
      else time_sleep interval ;; poll_loop attempts' ticket enquiry_id interval
  end.

(** [poll_dov_result]: lines 373-386. *)
Definition poll_dov_result (ticket enquiry_id : str) (max_attempts interval : Z)
  : St Service str :=
  poll_loop (Z.to_nat max_attempts) ticket enquiry_id interval.

End xds_main.

(* ===================================================================== *)
(** * xds_main.py: the audit log *)
(* ===================================================================== *)

Module xds_main_log.

Import db_access.

(** [LOG_FILE = os.path.join(BASE_DIR, "dov_audit_log.txt")]: line 30.
    The module lies in the directory [db_access.py] lies in. *)
Definition LOG_FILE {site : Deployment} : str :=
  os_path_join BASE_DIR (py "dov_audit_log.txt").

(** What [read()] makes of a text that was written: a carriage return,
    alone or before a line feed, reads as one line feed. *)
Fixpoint universal_newlines (s : str) : str :=
  match s with
  | [] => []
  | c :: rest =>
      if ceq c "013"%char
      then newline :: match rest with
                      | [] => []
                      | d :: rest' =>
                          if ceq d newline then universal_newlines rest'
                          else universal_newlines rest
                      end
      else c :: universal_newlines rest
  end.

(** [with open(p, "a", encoding="utf-8") as f: f.write(s)].  A file that
    is not there is made when it can be; when it cannot, the open ends in
    an [OSError], and so does a refused open, which leaves the file as it
    was.  Text goes after what the file holds, whether or not the process
    could read that, and is kept as a later [read()] returns it.  What a
    file reads as does not tell whether it ends in a carriage return of
    its own: it is taken not to, so that a line feed written first is a
    line end of its own. *)
Definition append_text {site : Deployment} (p s : str) : St World unit :=
  let* w := get in
  match fs w !! p with
  | None =>
      if can_create p
      then modify (with_fs (<[p := {| text := Some (universal_newlines s);
                                      writable := true;
                                      removable := true |}]> (fs w)))
      else raise OSError
  | Some f =>
      if writable f
      then modify (with_fs (<[p := {| text := option_map
                                        (fun old => old ++ universal_newlines s)
                                        (text f);
                                      writable := true;
                                      removable := removable f |}]> (fs w)))
      else raise OSError
  end.

(** [ensure_audit_log]: lines 114-123.  What [logger.exception] records
    is not part of the state.  The log that is there is opened for
    appending and nothing is written. *)
Definition ensure_audit_log {site : Deployment} : St World unit :=
  try_except
    (let* there := os_path_exists LOG_FILE in
     if negb there then write_text LOG_FILE []
     else append_text LOG_FILE [])
    (fun _ => ret tt).

(** A dict with text keys and text values, as [summarize_consumer_info]
    builds it: its items in insertion order. *)
Definition Summary : Type := list (str * str).

(** [d.get(key)]. *)
Definition dict_get (d : Summary) (key : string) : option str :=
  option_map snd (find (fun kv => str_eqb (fst kv) (py key)) d).

(** Line 205: [log.write(f"  {k}: {v}\n")]. *)
Definition item_line (kv : str * str) : str :=
  py "  " ++ fst kv ++ py ": " ++ snd kv ++ [newline].

(** Lines 200-205: what is written for [summary_dict], which is [None]
    here when the argument is no dict. *)
Definition summary_lines (summary_dict : option Summary) : str :=
  match summary_dict with
  | Some d =>
      let id_no := py_or (py_or (dict_get d "ID Number") (dict_get d "id_number"))
                         (Some []) in
      (if truthy id_no
       then py "ID Number: " ++ match id_no with Some t => t | None => [] end
            ++ [newline]
       else [])
      ++ concat (map item_line d)
  | None => []
  end.

(** Lines 195-206: the text written for one entry.  [timestamp] is what
    [datetime.now().strftime("%Y-%m-%d %H:%M:%S")] gives, and the other
    arguments are the texts the f-strings make of them. *)
Definition entry_written (timestamp enquiry_id enquiry_result_id : str)
    (summary_dict : option Summary) (status : str) : str :=
  py "Timestamp: " ++ timestamp ++ [newline]
  ++ py "Enquiry ID: " ++ enquiry_id ++ [newline]
  ++ py "Enquiry Result ID: " ++ enquiry_result_id ++ [newline]
  ++ py "Status: " ++ status ++ [newline]
  ++ summary_lines summary_dict
  ++ py "--- Verification Session ---" ++ [newline].

(** The entry as the log then reads. *)
Definition entry (timestamp enquiry_id enquiry_result_id : str)
    (summary_dict : option Summary) (status : str) : str :=
  universal_newlines
    (entry_written timestamp enquiry_id enquiry_result_id summary_dict status).

(** [log_verification_result]: lines 191-208, at the time [timestamp].
    An open or a write that fails is logged and passed over. *)
Definition log_verification_result {site : Deployment} (timestamp : str)
    (enquiry_id enquiry_result_id : str) (summary_dict : option Summary)
    (status : str) (logfile : option str) : St World unit :=
  let logfile := match py_or logfile (Some LOG_FILE) with
                 | Some p => p
                 | None => LOG_FILE
                 end in
  try_except
    (append_text logfile
       (entry_written timestamp enquiry_id enquiry_result_id summary_dict status))
    (fun _ => ret tt).

End xds_main_log.

(* ===================================================================== *)
(** * dashboard_app.py: the files behind the photos *)
(* ===================================================================== *)

Module dashboard_uploads.

(** [UPLOAD_FOLDER]: line 15.  The module lies in the directory
    [db_access.py] lies in. *)
Definition UPLOAD_FOLDER {site : Deployment} : str :=
  os_path_join BASE_DIR (py "uploads").

(** [get_full_upload_path]: lines 23-29. *)
Definition get_full_upload_path {site : Deployment} (path_value : option str)
  : St World (option str) :=
  if negb (truthy path_value) then ret None
  else
    let filename := basename (match path_value with
                              | Some p => p
                              | None => []
                              end) in
    let full_path := os_path_join UPLOAD_FOLDER filename in
    let* there := os_path_exists full_path in
    ret (if there then Some full_path else None).

End dashboard_uploads.

(* ===================================================================== *)
(** * The schema checks of db_access.py, log_to_db.py, xds_main.py and
      db_setup.py *)
(* ===================================================================== *)

Module schema.

(** What [sqlite3] finds at [DB_FILE]: no file, a file that is no
    database, or a database, of which the checks look at one thing: the
    names of the columns of the table [verifications], in order, if the
    database has that table.  A file of no bytes is a database without
    tables. *)
Inductive Database : Type :=
  | NoFile
  | NotADatabase
  | Tables (verifications : option (list str)).

(** A computation on the database file.  [None] is a raised
    [sqlite3.DatabaseError] (of which [OperationalError] is a kind); what
    was done before it stays, since no statement here opens a
    transaction.  What the checks print or log is not part of the
    state. *)
Definition Sql (A : Type) : Type := Database -> option A * Database.

Definition sql_ret {A} (a : A) : Sql A := fun d => (Some a, d).

Definition and_then {A B} (m : Sql A) (k : A -> Sql B) : Sql B :=
  fun d => match m d with
           | (Some a, d') => k a d'
           | (None, d') => (None, d')
           end.

(** [try: body / except sqlite3.DatabaseError: handler]; the same for
    [except Exception]. *)
Definition or_else {A} (body handler : Sql A) : Sql A :=
  fun d => match body d with
           | (Some a, d') => (Some a, d')
           | (None, d') => handler d'
           end.

(** [os.path.exists(DB_FILE)]. *)
Definition db_file_exists : Sql bool :=
  fun d => (Some match d with NoFile => false | _ => true end, d).

(** [sqlite3.connect(DB_FILE)]: a file that is not there is made, with no
    bytes in it; a file that is no database is found out by the first
    statement, not here. *)
Definition connect : Sql unit :=
  fun d => (Some tt, match d with NoFile => Tables None | _ => d end).

(** [SELECT name FROM sqlite_master WHERE type='table' AND
    name='verifications'], then [cur.fetchone()] as a truth value. *)
Definition select_table : Sql bool :=
  fun d => match d with
           | Tables (Some _) => (Some true, d)
           | Tables None => (Some false, d)
           | _ => (None, d)
           end.

(** The columns of the [CREATE TABLE] statement. *)
Definition COLUMNS : list str :=
  map py [ "id"; "timestamp"; "client_id"; "status"; "details"; "name";
           "id_number"; "email"; "id_photo"; "selfie_photo" ]%string.

(** [CREATE TABLE IF NOT EXISTS verifications (...)]: a table of that
    name stays as it is, whatever its columns. *)
Definition create_table_if_not_exists : Sql unit :=
  fun d => match d with
           | Tables (Some _) => (Some tt, d)
           | Tables None => (Some tt, Tables (Some COLUMNS))
           | _ => (None, d)
           end.

(** [PRAGMA table_info(verifications)] and the names in its rows: no row
    for a table that is not there. *)
Definition table_info : Sql (list str) :=
  fun d => match d with
           | Tables (Some cols) => (Some cols, d)
           | Tables None => (Some [], d)
           | _ => (None, d)
           end.

(** SQLite compares the names of columns without regard to the case of
    the letters A to Z. *)
Definition sql_lower_char (c : ascii) : ascii :=
  let n := nat_of_ascii c in
  if (65 <=? n) && (n <=? 90) then ascii_of_nat (n + 32) else c.

Definition same_name (a b : str) : bool :=
  str_eqb (map sql_lower_char a) (map sql_lower_char b).

(** [ALTER TABLE verifications ADD COLUMN col TEXT]: refused when the
    table is not there and when it has a column of that name. *)
Definition alter_table_add_column (col : str) : Sql unit :=
  fun d => match d with
           | Tables (Some cols) =>
               if existsb (same_name col) cols then (None, d)
               else (Some tt, Tables (Some (cols ++ [col])))
           | _ => (None, d)
           end.

(** [col in existing_cols], on Python strings. *)
Definition py_in (col : str) (existing_cols : list str) : bool :=
  existsb (str_eqb col) existing_cols.

(** [ensure_database]: lines 50-86 of db_access.py and, with the logger
    for [print], lines 46-83 of xds_main.py. *)
Definition ensure_database : Sql unit :=
  and_then db_file_exists (fun there =>
  and_then
    (if negb there then sql_ret true
     else or_else
            (and_then connect (fun _ =>
             and_then select_table (fun found =>
             sql_ret (negb found))))
            (sql_ret true))
    (fun recreate =>
     if recreate
     then and_then connect (fun _ => create_table_if_not_exists)
     else sql_ret tt)).

(** [ensure_db_columns]: lines 89-105 of db_access.py.  The rows of the
    [PRAGMA] are tuples here, and [row[1]] is the name of a column. *)
Definition ensure_db_columns : Sql unit :=
  and_then connect (fun _ =>
  and_then table_info (fun existing_cols =>
  and_then (if negb (py_in (py "id_photo") existing_cols)
            then alter_table_add_column (py "id_photo")
            else sql_ret tt) (fun _ =>
  if negb (py_in (py "selfie_photo") existing_cols)
  then alter_table_add_column (py "selfie_photo")
  else sql_ret tt))).

(** Lines 109-110 of db_access.py: the checks run at import. *)
Definition import_checks : Sql unit :=
  and_then ensure_database (fun _ => ensure_db_columns).

(** [migrate_database_schema]: lines 86-111 of xds_main.py, with
    [db_path] at its default. *)
Definition migrate_database_schema : Sql unit :=
  or_else
    (and_then connect (fun _ =>
     and_then table_info (fun existing_cols =>
     and_then (if negb (py_in (py "id_photo") existing_cols)
               then alter_table_add_column (py "id_photo")
               else sql_ret tt) (fun _ =>
     if negb (py_in (py "selfie_photo") existing_cols)
     then alter_table_add_column (py "selfie_photo")
     else sql_ret tt))))
    (sql_ret tt).

(** [init_db]: lines 22-28 of db_setup.py, with [db_path] at its
    default. *)
Definition init_db : Sql unit :=
  and_then connect (fun _ => create_table_if_not_exists).

End schema.

(* ===================================================================== *)
(** * The schema check of log_to_db.py *)
(* ===================================================================== *)

Module log_to_db_checks.

Import schema.

(** How the check ends: it returns, or it raises one of two errors. *)
Inductive Outcome : Type :=
  | Returns
  | DatabaseError
  | KeyError.

(** [ensure_db_columns]: lines 6-19 of log_to_db.py.  It has the
    statements of the check of db_access.py, on the connection of
    [db_access.get_conn()] (lines 117-120), whose [dict_factory] (lines
    113-114) gives every row as a dict with the names of the result's
    columns as keys.  So [row[1]], on the first row the [PRAGMA] gives,
    is a [KeyError], the number 1 being no key of the dict; only when
    the [PRAGMA] gives no row is the list of names made, and it is
    empty. *)
Definition ensure_db_columns (d : Database) : Outcome * Database :=
  let '(_, d1) := connect d in
  match table_info d1 with
  | (None, d2) => (DatabaseError, d2)
  | (Some (_ :: _), d2) => (KeyError, d2)
  | (Some [], d2) =>
      let existing_cols : list str := [] in
      match and_then (if negb (py_in (py "id_photo") existing_cols)
                      then alter_table_add_column (py "id_photo")
                      else sql_ret tt) (fun _ =>
            if negb (py_in (py "selfie_photo") existing_cols)
            then alter_table_add_column (py "selfie_photo")
            else sql_ret tt) d2 with
      | (Some _, d3) => (Returns, d3)
      | (None, d3) => (DatabaseError, d3)
      end
  end.

End log_to_db_checks.

(* ===================================================================== *)
(** * xds_main.py: the stamp of a verification and the check of the last
      three months *)
(* ===================================================================== *)

Module xds_main_recent.

Import PyLib.

(** [DB_FILE = os.path.join(BASE_DIR, "verifications.db")]: line 29. *)
Definition DB_FILE {site : Deployment} : str :=
  os_path_join BASE_DIR (py "verifications.db").

(** ** [strftime] *)

Definition digit_char (n : nat) : ascii := ascii_of_nat (48 + n).

(** A number below 100 in two digits. *)
Definition two_digits (n : nat) : str :=
  [digit_char (n / 10); digit_char (n mod 10)].

(** [t.strftime("%Y-%m-%d %H:%M:%S")] as lines 195, 395 and 428 call it,
    for a year of four digits (the C library does not pad a shorter
    one). *)
Definition strftime (t : datetime) : str :=
  two_digits (year t / 100) ++ two_digits (year t mod 100) ++ py "-"
  ++ two_digits (month t) ++ py "-" ++ two_digits (day t) ++ py " "
  ++ two_digits (hour t) ++ py ":" ++ two_digits (minute t) ++ py ":"
  ++ two_digits (second t).

(** ** The three formats of lines 140-145 *)

(** A [datetime] with its microseconds. *)
Record moment : Type := {
  upto_second : datetime;
  microsecond : nat
}.

(** [%f]: [[0-9]{1,6}], the longest run first; the digits read are
    filled up with zeros to six.  [acc] is the value of the [len] digits
    read so far and [n] the number of digits that may follow. *)
Fixpoint re_f_from (n acc len : nat) (s : str) : list (nat * str) :=
  match n with
  | O => []
  | S n' =>
      match s with
      | x :: t =>
          match digit x with
          | Some v =>
              re_f_from n' (10 * acc + v) (S len) t
              ++ [((10 * acc + v) * 10 ^ (5 - len), t)]
          | None => []
          end
      | [] => []
      end
  end.

Definition re_f : Matches nat := re_f_from 6 0 0.

(** A letter of the format: the expression is compiled to match without
    regard to case. *)
Definition lit_ci (c : ascii) : Matches unit :=
  fun s => match s with
           | x :: t => if ceq (lower_char x) (lower_char c) then [(tt, t)] else []
           | [] => []
           end.

(** The expression of ["%Y-%m-%d %H:%M:%S"], which is [re_datetime]. *)
Definition re_seconds : Matches moment :=
  seq_ re_datetime (fun t => yield {| upto_second := t; microsecond := 0 |}).

(** The expression of ["%Y-%m-%d %H:%M:%S.%f"]. *)
Definition re_fraction : Matches moment :=
  seq_ re_datetime (fun t => seq_ (lit "."%char) (fun _ =>
  seq_ re_f (fun f => yield {| upto_second := t; microsecond := f |}))).

(** The expression of ["%Y-%m-%dT%H:%M:%S"]. *)
Definition re_iso : Matches moment :=
  seq_ re_Y (fun y => seq_ (lit "-"%char) (fun _ =>
  seq_ re_m (fun m => seq_ (lit "-"%char) (fun _ =>
  seq_ re_d (fun d => seq_ (lit_ci "T"%char) (fun _ =>
  seq_ re_H (fun h => seq_ (lit ":"%char) (fun _ =>
  seq_ re_M (fun mi => seq_ (lit ":"%char) (fun _ =>
  seq_ re_S (fun sec =>
  yield {| upto_second := {| year := y; month := m; day := d;
                             hour := h; minute := mi; second := sec |};
           microsecond := 0 |}))))))))))).

Definition FORMATS : list (Matches moment) := [re_seconds; re_fraction; re_iso].

(** [datetime.strptime(data, fmt)] with the microseconds kept. *)
Definition strptime_moment {S} (re : Matches moment) (data : option str)
  : St S moment :=
  fun s =>
    (match data with
     | None => Raise TypeError
     | Some text =>
         match re text with
         | (m, []) :: _ => if valid (upto_second m) then Ok m else Raise ValueError
         | _ => Raise ValueError
         end
     end, s).

(** [a <= b] on moments. *)
Definition moment_leb (a b : moment) : bool :=
  lex_leb (dt_key (upto_second a) ++ [microsecond a])
          (dt_key (upto_second b) ++ [microsecond b]).

(** ** The query of lines 132-136 *)

(** SQLite's order on the values of a TEXT column: NULL before every
    text, and texts by their bytes. *)
Definition sql_ltb (a b : option str) : bool :=
  match a, b with
  | None, Some _ => true
  | Some x, Some y => str_ltb x y
  | _, None => false
  end.

Fixpoint greatest (best : option str) (l : list (option str)) : option str :=
  match l with
  | [] => best
  | x :: rest => greatest (if sql_ltb best x then x else best) rest
  end.

(** [SELECT timestamp FROM verifications WHERE id_number = ? ORDER BY
    timestamp DESC LIMIT 1] and [fetchone()]: [None] when no row has the
    number, else the one-column row with the greatest timestamp. *)
Definition select_latest_timestamp (id_number : str) (t : Table)
  : option (option str) :=
  match map timestamp
            (List.filter (fun r => sql_eq (Store.id_number r) (Some id_number))
                         (rows t)) with
  | [] => None
  | x :: rest => Some (greatest x rest)
  end.

(** The loop of lines 140-145: the first format that reads the text
    decides; a format that does not is passed over. *)
Fixpoint try_formats (formats : list (Matches moment)) (data : option str)
    (cutoff : moment) : St World bool :=
  match formats with
  | [] => ret false
  | re :: rest =>
      try_except
        (let* last_verified := strptime_moment re data in
         ret (moment_leb cutoff last_verified))
        (fun _ => try_formats rest data cutoff)
  end.

(** [verified_within_last_3_months]: lines 126-146.  [cutoff] is
    [datetime.now() - timedelta(days=90)].  The table is what the file at
    [DB_FILE] holds; a query that fails is not modelled. *)
Definition verified_within_last_3_months {site : Deployment}
    (id_number : str) (cutoff : moment) : St World bool :=
  let* there := os_path_exists DB_FILE in
  if negb there then ret false
  else
    let* w := get in
    match select_latest_timestamp id_number (table w) with
    | Some ts => try_formats FORMATS ts cutoff
    | None => ret false
    end.

End xds_main_recent.

(* ===================================================================== *)
(** * The words of the specification *)
(* ===================================================================== *)

Module Notions.

Import db_access log_to_db.

(** A photo value in the relative "uploads/..." form: it is absent, or it
    starts with ["uploads/"] and [normalize_path] leaves it as it is. *)
Definition uploads_form (photo : option str) : Prop :=
  match photo with
  | None => True
  | Some p =>
      startswith (py "uploads/") p = true /\ normalize_path (Some p) = Some p
  end.

(** The (timestamp, client_id) pair of a row. *)
Definition pair_of (r : Row) : option str * option str :=
  (timestamp r, client_id r).


(** A block of the audit log mentions an ID number when it contains the
    text "ID Number: " followed by that number, as given. *)
Definition mentions (id_number block : str) : bool :=
  contains (py "ID Number: " ++ id_number) block.

(** A block with something other than white space in it. *)
Definition nonblank (block : str) : bool := truthy (Some (strip block)).

(** The blocks of the audit log as the pruning sees them. *)
Definition blocks_of (content : str) : list str := split BLOCK_END content.

(** The blocks the pruning keeps, and the number it removes. *)
Definition kept_blocks (id_number content : str) : list str :=
  List.filter (fun b => nonblank b && negb (mentions id_number b)) (blocks_of content).
Definition removed_blocks (id_number content : str) : nat :=
  length (List.filter (fun b => nonblank b && mentions id_number b) (blocks_of content)).

(** Blocks written out one after the other, each ending in a newline and
    followed by the delimiter. *)
Definition rejoined (blocks : list str) : str :=
  concat (map (fun b => (if endswith [newline] b then b else b ++ [newline])
                        ++ BLOCK_END) blocks).






(** Rows added one after the other to [base], none of them with a
    (timestamp, client_id) pair that was there when it was added. *)
Fixpoint added_fresh (base new : list Row) : Prop :=
  match new with
  | [] => True
  | r :: rest =>
      ~ In (pair_of r) (map pair_of base) /\ added_fresh (base ++ [r]) rest
  end.

(** The stored status equals "success" when case is ignored. *)
Definition is_success (r : Row) : bool :=
  match status r with
  | Some s => str_eqb (PyLib.lower s) (py "success")
  | None => false
  end.

(** The stored timestamp reads as a date and time of the year [y]. *)
Definition in_year (y : nat) (r : Row) : bool :=
  match PyLib.strptime_result dashboard_app.FORMAT (timestamp r) with
  | Ok t => PyLib.year t =? y
  | Raise _ => false
  end.

(** What the dashboard shows of a row: the record read from it, with the
    photo entries as URLs. *)
Definition shown (r : Row) : Verification :=
  dashboard_app.with_urls (fetched r).

(** The query string [?status=success]. *)
Definition status_success : gmap str str := {[ py "status" := py "success" ]}.

(** The text a reply of the service gives the polling loop to return, if
    any: the reply is a text, it is not empty, and "<NoResult>" does not
    occur in it. *)
Definition usable (r : xds_main.Reply) : option str :=
  match r with
  | xds_main.Returns (Some text) =>
      if xds_main.is_result (Some text) then Some text else None
  | _ => None
  end.

(** The service after [n] more calls, each followed by a sleep. *)
Definition waited (n : nat) (interval : Z) (s : xds_main.Service) : xds_main.Service :=
  {| xds_main.reply := xds_main.reply s;
     xds_main.calls := n + xds_main.calls s;
     xds_main.slept := xds_main.slept s ++ repeat interval n |}.

(** ** What the proofs speak of *)

Definition backslash : ascii := "\"%char.

(** What a normalized path looks like: it starts with ["uploads/"], has
    no backslash, and does not end in white space. *)
Record tidy (r : str) : Prop := {
  tidy_prefix : startswith (py "uploads/") r = true;
  tidy_slashes : Forall (fun c => c <> backslash) r;
  tidy_end : settled isspace (rev r) = true
}.

(** The table is untouched, files can only disappear, and the console
    only grows. *)
Record fades (w w' : World) : Prop := {
  fades_table : table w' = table w;
  fades_fs : forall q, fs w' !! q = fs w !! q \/ fs w' !! q = None;
  fades_out : exists more, stdout w' = stdout w ++ more
}.


(** A computation that leaves the state as it found it. *)
Definition reads {S A} (m : St S A) : Prop := forall s, snd (m s) = s.

(** The world after a linked file went, and after it would not go. *)
Definition after_remove (p : str) (w : World) : World :=
  {| table := table w; fs := delete p (fs w);
     stdout := stdout w ++ [RemovedFile p] |}.
Definition after_refusal (p : str) (e : exn) (w : World) : World :=
  {| table := table w; fs := fs w;
     stdout := stdout w ++ [FailedToRemove p e] |}.

(** The world after one more line on the console, and after the audit
    log was written anew. *)
Definition printed (m : Msg) (w : World) : World :=
  {| table := table w; fs := fs w; stdout := stdout w ++ [m] |}.

Definition rewritten (path new_content : str) (f : File) (w : World) : World :=
  with_fs (<[path := {| text := Some new_content; writable := true;
                        removable := removable f |}]> (fs w)) w.

(** The two linked files of a row, and the table without the rows of an
    ID number. *)
Definition photos (r : Row) : list (option str) := [id_photo r; selfie_photo r].

Definition without (id_number : str) (w : World) : Table :=
  {| rows := List.filter (fun r => negb (id_number_matches id_number r))
                         (rows (table w));
     seq := seq (table w) |}.

(** There is a file under the path. *)
Definition in_place (p : str) (w : World) : bool :=
  match fs w !! p with Some _ => true | None => false end.

(** The file under the path is there and [os.remove] takes it. *)
Definition removable_at (p : str) (w : World) : bool :=
  match fs w !! p with Some f => removable f | None => false end.

(** None of the rows names the path as a photo, a path naming a file by
    its text. *)
Definition unlinked (p : str) (l : list Row) : bool :=
  forallb (fun r => forallb (fun f => negb (opt_eqb f (Some p))) (photos r)) l.

(** The database is safe from the removal of the photos of the rows
    [l]: its file is in place, and that file cannot be removed or none
    of those rows names it as a photo. *)
Definition db_safe {site : Deployment} (w : World) (l : list Row) : bool :=
  in_place DB_FILE w
  && (negb (removable_at DB_FILE w) || unlinked DB_FILE l).


Definition lost (w : World) : World := with_table LOST w.


(** SQLite's keys end at [2^63 - 1], where an insert is refused; the
    table has room for [n] more rows when the keys they get are below
    that end. *)
Definition has_room (n : Z) (t : Table) : bool :=
  (next_rowid t + n - 1 <=? 2 ^ 63 - 1)%Z.

End Notions.

(* ===================================================================== *)
(** * Worked inputs *)
(* ===================================================================== *)

Module Inputs.

(** The order SQLite gives when the timestamps are valid and do not
    decrease with the key: the newest row first. *)
Definition newest_first : SqlEngine :=
  {| order_by_datetime_desc_id_desc := @rev Row;
     order_permutes := fun l => Permutation_sym (Permutation_rev l) |}.

Definition installed_in_srv : Deployment :=
  {| BASE_DIR := py "/srv/xds_dovs"; can_create := fun _ => true |}.

Definition blank_row (key : Z) : Row :=
  {| id := key; timestamp := None; client_id := None; status := None;
     details := None; name := None; id_number := None; email := None;
     id_photo := None; selfie_photo := None |}.

(** A client with one verification on record, whose ID photo is a file
    the process may not remove. *)
Definition locked_photo : File :=
  {| text := None; writable := false; removable := false |}.

Definition client_row : Row :=
  {| id := 1;
     timestamp := Some (py "2024-03-01 09:00:00");
     client_id := Some (py "7");
     status := Some (py "Success");
     details := None;
     name := Some (py "A N Other");
     id_number := Some (py "8001015009087");
     email := None;
     id_photo := Some (py "uploads/ids/id_7.jpg");
     selfie_photo := None |}.

Definition one_client : World :=
  {| table := {| rows := [client_row]; seq := 1 |};
     fs := {[ py "uploads/ids/id_7.jpg" := locked_photo;
              py "/srv/xds_dovs/verifications.db"
              := {| text := None; writable := true; removable := true |} ]};
     stdout := [] |}.

(** Text files are written here line by line. *)
Definition lines (l : list string) : str :=
  concat (map (fun s => py s ++ [db_access.newline]) l).

Definition readable (content : str) : File :=
  {| text := Some content; writable := true; removable := true |}.

(** An older record without photos, and an audit log that has the ID
    photo of that session under the path it was captured at. *)
Definition bare_row : Row :=
  {| id := 1;
     timestamp := Some (py "2024-03-01 09:00:00");
     client_id := Some (py "7");
     status := Some (py "Success");
     details := None;
     name := Some (py "A N Other");
     id_number := Some (py "8001015009087");
     email := None;
     id_photo := None;
     selfie_photo := None |}.

Definition captured_path : str := py "C:\photos\id_7.jpg".

Definition legacy_log : str :=
  lines [ "Timestamp: 2024-03-01 09:00:00";
          "ClientID: 7";
          "ConsumerIDPhoto: C:\photos\id_7.jpg";
          "--- Verification Session ---" ].

Definition legacy_world : World :=
  {| table := {| rows := [bare_row]; seq := 1 |};
     fs := {[ log_to_db.LOG_FILE := readable legacy_log ]};
     stdout := [] |}.

(** Two records of one client made in the same second, the first with
    both photos and the second with none, and an audit log that has an
    ID photo for that session. *)
Definition full_row : Row :=
  {| id := 1;
     timestamp := Some (py "2024-03-01 09:00:00");
     client_id := Some (py "7");
     status := Some (py "Success");
     details := None;
     name := Some (py "A N Other");
     id_number := Some (py "8001015009087");
     email := None;
     id_photo := Some (py "uploads/ids/id_7.jpg");
     selfie_photo := Some (py "uploads/selfies/selfie_7.jpg") |}.

Definition twin_row : Row :=
  {| id := 2;
     timestamp := Some (py "2024-03-01 09:00:00");
     client_id := Some (py "7");
     status := Some (py "Success");
     details := None;
     name := Some (py "A N Other");
     id_number := Some (py "8001015009087");
     email := None;
     id_photo := None;
     selfie_photo := None |}.

Definition twin_log : str :=
  lines [ "Timestamp: 2024-03-01 09:00:00";
          "ClientID: 7";
          "ConsumerIDPhoto: uploads/ids/retake_7.jpg";
          "--- Verification Session ---" ].

Definition twin_world : World :=
  {| table := {| rows := [full_row; twin_row]; seq := 2 |};
     fs := {[ log_to_db.LOG_FILE := readable twin_log ]};
     stdout := [] |}.

(** Three records for the dashboard: a success of this year (2026), a
    failure of this year, and a success of last year. *)
Definition record (key : Z) (ts st : string) : Row :=
  {| id := key;
     timestamp := Some (py ts);
     client_id := Some (py "7");
     status := Some (py st);
     details := None;
     name := Some (py "A N Other");
     id_number := Some (py "8001015009087");
     email := None;
     id_photo := None;
     selfie_photo := None |}.

Definition success_2026 : Row := record 3 "2026-03-01 09:00:00" "Success".
Definition failed_2026 : Row := record 2 "2026-02-11 16:20:00" "Failed".
Definition success_2025 : Row := record 1 "2025-11-30 08:15:00" "SUCCESS".

Definition dashboard_world : World :=
  {| table := {| rows := [success_2025; failed_2026; success_2026]; seq := 3 |};
     fs := ∅;
     stdout := [] |}.

(** The dashboard with nothing but a success of an earlier year. *)
Definition last_year_world : World :=
  {| table := {| rows := [success_2025]; seq := 1 |};
     fs := ∅;
     stdout := [] |}.

(** A service that fails once, has no result once, and then has one. *)
Definition slow_service : xds_main.Service :=
  {| xds_main.reply := fun _ _ n =>
       match n with
       | 0 => xds_main.Fails OSError
       | 1 => xds_main.Returns (Some (py "<NoResult>pending</NoResult>"))
       | 2 => xds_main.Returns (Some (py "<DOV>match</DOV>"))
       | _ => xds_main.Returns None
       end;
     xds_main.calls := 0;
     xds_main.slept := [] |}.

End Inputs.

(* ===================================================================== *)
(** * More words, for the further properties *)
(* ===================================================================== *)

Module MoreNotions.

Import db_access log_to_db Notions.

(** The table already has a row with the (timestamp, client_id) pair of a
    block that reads as a session. *)
Definition covered (w : World) (block : str) : Prop :=
  is_session_block block = true ->
  exists r, In r (rows (table w))
            /\ pair_of r = (parse_session_block block k_timestamp,
                            parse_session_block block k_client_id).

(** The columns of a database's table [verifications]; none when there
    is no such table. *)
Definition columns_of (d : schema.Database) : list str :=
  match d with
  | schema.Tables (Some cols) => cols
  | _ => []
  end.

(** A database the checks can work on: it is no file of another kind,
    and no column of the table is a photo column in other letter case
    (which Python takes for missing and SQLite for present). *)
Definition workable (d : schema.Database) : bool :=
  match d with
  | schema.NotADatabase => false
  | _ =>
      forallb (fun c =>
                 (negb (schema.same_name (py "id_photo") c)
                  || str_eqb (py "id_photo") c)
                 && (negb (schema.same_name (py "selfie_photo") c)
                     || str_eqb (py "selfie_photo") c))
              (columns_of d)
  end.

(** The first way an expression matches a text: the value it reads and
    the text that is left. *)
Definition first_match {A} (l : list (A * str)) (a : A) (rest : str) : Prop :=
  exists others, l = (a, rest) :: others.

(** Strictly before, field by field. *)
Fixpoint lex_ltb (a b : list nat) : bool :=
  match a, b with
  | x :: a', y :: b' => (x <? y) || ((x =? y) && lex_ltb a' b')
  | _, _ => false
  end.

(** A date and time that [strftime] writes in nineteen characters. *)
Definition four_digit_year (t : PyLib.datetime) : bool :=
  PyLib.valid t && (1000 <=? PyLib.year t).

(** The moment at the start of a second. *)
Definition on_the_second (t : PyLib.datetime) : xds_main_recent.moment :=
  {| xds_main_recent.upto_second := t; xds_main_recent.microsecond := 0 |}.

(** A timestamp none of the three formats reads. *)
Definition unreadable (ts : option str) : bool :=
  forallb (fun re => match fst (xds_main_recent.strptime_moment re ts tt) with
                     | Ok _ => false
                     | Raise _ => true
                     end)
          xds_main_recent.FORMATS.

(** A record of the ID number, as the query of the check selects it. *)
Definition has_number (id_number : str) (r : Row) : bool :=
  sql_eq (Store.id_number r) (Some id_number).

(** A file name: no slash in it. *)
Definition no_slash (name : str) : bool :=
  forallb (fun c => negb (ceq c "/"%char)) name.

(** The photo file under a name, as [os.path.exists] sees it. *)
Definition is_there (p : str) (w : World) : bool :=
  match fs w !! p with Some _ => true | None => false end.

(** The world with an empty, new audit log at [p]. *)
Definition with_empty_log (p : str) (w : World) : World :=
  with_fs (<[p := {| text := Some []; writable := true; removable := true |}]>
             (fs w)) w.

(** The texts an entry of the live audit log is made of, a key with the
    colon that follows it. *)
Definition entry_texts (timestamp enquiry_id enquiry_result_id : str)
    (summary_dict : option xds_main_log.Summary) (status : str) : list str :=
  [timestamp; enquiry_id; enquiry_result_id; status]
  ++ match summary_dict with
     | Some d => flat_map (fun kv => [fst kv ++ py ":"; snd kv]) d
     | None => []
     end.

(** None of the texts has "ClientID:" in it. *)
Definition no_client_id (texts : list str) : bool :=
  forallb (fun t => negb (contains (py "ClientID:") t)) texts.

(** The file [log_verification_result] writes: [logfile or LOG_FILE]. *)
Definition log_path_of {site : Deployment} (logfile : option str) : str :=
  match py_or logfile (Some xds_main_log.LOG_FILE) with
  | Some p => p
  | None => xds_main_log.LOG_FILE
  end.

(** What a file is after a text was added at its end. *)
Definition appended (s : str) (f : File) : File :=
  {| text := option_map (fun old => old ++ s) (text f);
     writable := true; removable := removable f |}.

End MoreNotions.

(* ===================================================================== *)
(** * More worlds to run the code in *)
(* ===================================================================== *)

Module MoreInputs.

Import Inputs.

(** A table with one record and no audit log next to it. *)
Definition no_log_world : World :=
  {| table := {| rows := [bare_row]; seq := 1 |};
     fs := ∅;
     stdout := [] |}.

(** An audit log in the layout [xds_main.log_verification_result]
    writes: the delimiter ends an entry, and no line starts with
    "ClientID:". *)
Definition live_log : str :=
  lines [ "Timestamp: 2024-03-01 09:00:00";
          "Enquiry ID: 7";
          "Enquiry Result ID: 9";
          "Status: Success";
          "ID Number: 8001015009087";
          "  Name: A N Other";
          "  ID Number: 8001015009087";
          "--- Verification Session ---" ].

Definition live_world : World :=
  {| table := {| rows := [bare_row]; seq := 1 |};
     fs := {[ log_to_db.LOG_FILE := readable live_log ]};
     stdout := [] |}.

(** The same log next to the code, and an impatient caller's service
    that never has a result. *)
Definition deployed_live_world : World :=
  {| table := {| rows := [bare_row]; seq := 1 |};
     fs := {[ db_access.LOG_FILE (site := installed_in_srv) := readable live_log ]};
     stdout := [] |}.

Definition silent_service : xds_main.Service :=
  {| xds_main.reply := fun _ _ _ => xds_main.Returns None;
     xds_main.calls := 0;
     xds_main.slept := [] |}.

(** A record whose timestamp has the ISO "T" between date and time,
    which [xds_main.verified_within_last_3_months] reads and the
    dashboard's format does not. *)
Definition iso_world : World :=
  {| table := {| rows := [success_2025;
                          record 2 "2026-02-11T16:20:00" "Success"];
                 seq := 2 |};
     fs := ∅;
     stdout := [] |}.

(** The dashboard's page for [dashboard_world] in 2026 without a query
    string, and a query string with a date the form did not make. *)
Definition page_2026 : dashboard_app.Page :=
  Eval vm_compute in
    match fst (dashboard_app.index (engine := newest_first) ∅ 2026 dashboard_world) with
    | Ok page => page
    | Raise _ => {| dashboard_app.logs := []; dashboard_app.total := 0;
                    dashboard_app.success := 0; dashboard_app.failed := 0;
                    dashboard_app.last_date := None |}
    end.

Definition typed_date : gmap str str :=
  {[ py "date_from" := py "01/02/2026"; py "status" := py "failed" ]}.

(** The table as the first version of the program made it, without
    the photo columns. *)
Definition first_schema : schema.Database :=
  schema.Tables (Some (map py [ "id"; "timestamp"; "client_id"; "status";
                                "details"; "name"; "id_number"; "email" ]%string)).

(** The dashboard's records with the database file in its place, the
    stamp each of them was written from, and a day ninety days before
    the middle of April 2026. *)
Definition recent_world : World :=
  {| table := table dashboard_world;
     fs := {[ xds_main_recent.DB_FILE (site := installed_in_srv)
              := readable (py "SQLite format 3") ]};
     stdout := [] |}.

Definition stamp_of (r : Row) : PyLib.datetime :=
  match PyLib.strptime_result PyLib.re_datetime (timestamp r) with
  | Ok t => t
  | Raise _ => {| PyLib.year := 1; PyLib.month := 1; PyLib.day := 1;
                  PyLib.hour := 0; PyLib.minute := 0; PyLib.second := 0 |}
  end.

Definition mid_january : xds_main_recent.moment :=
  {| xds_main_recent.upto_second :=
       {| PyLib.year := 2026; PyLib.month := 1; PyLib.day := 15;
          PyLib.hour := 12; PyLib.minute := 30; PyLib.second := 0 |};
     xds_main_recent.microsecond := 250 * 1000 |}.

(** The same records and one more of the client, reconciled from a log
    line that had no time in it. *)
Definition unstamped_world : World :=
  {| table := {| rows := rows (table dashboard_world)
                         ++ [record 4 "pending" "Success"];
                 seq := 4 |};
     fs := fs recent_world;
     stdout := [] |}.

Definition first_of_march : PyLib.datetime :=
  {| PyLib.year := 2026; PyLib.month := 3; PyLib.day := 1;
     PyLib.hour := 9; PyLib.minute := 0; PyLib.second := 0 |}.

(** A selfie that lies directly in the upload folder. *)
Definition gallery_world : World :=
  {| table := {| rows := []; seq := 0 |};
     fs := {[ py "/srv/xds_dovs/uploads/selfie_7.jpg" := readable (py "JFIF") ]};
     stdout := [] |}.

(** What the live flow knows of a client after a match. *)
Definition client_summary : xds_main_log.Summary :=
  [ (py "Name", py "A N Other");
    (py "ID Number", py "8001015009087");
    (py "Email", py "N/A") ].

(** A record that gives the file of the database for its ID photo. *)
Definition misfiled_row : Row :=
  {| id := 2;
     timestamp := Some (py "2026-03-01 09:00:00");
     client_id := Some (py "9");
     status := Some (py "Success");
     details := None;
     name := None;
     id_number := Some (py "9002025009086");
     email := None;
     id_photo := Some (py "/srv/xds_dovs/verifications.db");
     selfie_photo := None |}.

Definition misfiled_world : World :=
  {| table := {| rows := [client_row; misfiled_row]; seq := 2 |};
     fs := {[ py "/srv/xds_dovs/verifications.db"
              := {| text := None; writable := true; removable := true |} ]};
     stdout := [] |}.

End MoreInputs.

(* ===================================================================== *)
(** * Facts about the string operations *)
(* ===================================================================== *)

Module PyStrFacts.

Lemma ceq_eq (a b : ascii) : ceq a b = true <-> a = b.
Proof. apply Ascii.eqb_eq. Qed.

Lemma ceq_refl (a : ascii) : ceq a a = true.
Proof. apply Ascii.eqb_refl. Qed.

Lemma str_eqb_eq (a b : str) : str_eqb a b = true <-> a = b.
Proof.
  revert b. induction a as [|x a IH]; intros [|y b]; simpl; split;
    try congruence; try reflexivity.
  - intros H. apply andb_true_iff in H as [Hc Hs].
    apply ceq_eq in Hc. apply IH in Hs. congruence.
  - intros H. injection H as -> ->. rewrite ceq_refl. simpl. now apply IH.
Qed.

Lemma str_eqb_refl (a : str) : str_eqb a a = true.
Proof. now apply str_eqb_eq. Qed.

Lemma opt_eqb_eq (a b : option str) : opt_eqb a b = true <-> a = b.
Proof.
  destruct a as [a|], b as [b|]; simpl; split; try congruence; try reflexivity.
  - intros H. apply str_eqb_eq in H. congruence.
  - intros H. injection H as ->. apply str_eqb_refl.
Qed.

Lemma startswith_app (p s : str) :
  startswith p s = true <-> exists rest, s = p ++ rest.
Proof.
  revert s. induction p as [|x p IH]; intros s; simpl.
  - split; [intros _; now exists s | reflexivity].
  - destruct s as [|y s].
    + split; [discriminate | intros [rest H]; discriminate].
    + rewrite andb_true_iff, ceq_eq, IH. split.
      * intros [-> [rest ->]]. now exists rest.
      * intros [rest H]. injection H as -> ->. split; [reflexivity | now exists rest].
Qed.

(** ** [drop_while] and the strips *)

Lemma drop_while_settled f s : settled f s = true -> drop_while f s = s.
Proof. destruct s as [|c s]; simpl; [reflexivity|]. now destruct (f c). Qed.

Lemma settled_drop_while f s : settled f (drop_while f s) = true.
Proof.
  induction s as [|c s IH]; simpl; [reflexivity|].
  destruct (f c) eqn:E; [exact IH|]. simpl. now rewrite E.
Qed.

Lemma drop_while_split f s :
  exists pre, s = pre ++ drop_while f s /\ forallb f pre = true.
Proof.
  induction s as [|c s [pre [H1 H2]]]; simpl.
  - now exists [].
  - destruct (f c) eqn:E.
    + exists (c :: pre). simpl. rewrite E, H2. split; [congruence | reflexivity].
    + now exists [].
Qed.

Lemma settled_app_swap f (a b c : str) :
  settled f (a ++ b) = true -> settled f c = true -> settled f (a ++ c) = true.
Proof. destruct a; simpl; auto. Qed.

Lemma settled_prefix f (a b : str) :
  settled f (a ++ b) = true -> settled f a = true.
Proof. destruct a; simpl; auto. Qed.

Lemma Forall_drop_while (P : ascii -> Prop) f s :
  Forall P s -> Forall P (drop_while f s).
Proof.
  induction 1 as [|c s Hc Hs IH]; simpl; [constructor|].
  destruct (f c); [exact IH | now constructor].
Qed.

Lemma Forall_strip (P : ascii -> Prop) s : Forall P s -> Forall P (strip s).
Proof.
  intros H. unfold strip, rstrip, lstrip.
  apply Forall_rev, Forall_drop_while, Forall_rev, Forall_drop_while, H.
Qed.

Lemma strip_front s : settled isspace (strip s) = true.
Proof.
  unfold strip, rstrip, lstrip.
  pose proof (settled_drop_while isspace s) as Hl.
  destruct (drop_while_split isspace (rev (drop_while isspace s))) as [pre [E _]].
  apply (f_equal (@rev ascii)) in E. rewrite rev_involutive, rev_app_distr in E.
  rewrite E in Hl. now apply settled_prefix in Hl.
Qed.

Lemma strip_back s : settled isspace (rev (strip s)) = true.
Proof.
  unfold strip, rstrip. rewrite rev_involutive. apply settled_drop_while.
Qed.

Lemma strip_fixed s :
  settled isspace s = true -> settled isspace (rev s) = true -> strip s = s.
Proof.
  intros Hf Hb. unfold strip, rstrip, lstrip.
  rewrite (drop_while_settled _ s Hf), (drop_while_settled _ _ Hb).
  apply rev_involutive.
Qed.

Lemma strip_idempotent s : strip (strip s) = strip s.
Proof. apply strip_fixed; [apply strip_front | apply strip_back]. Qed.

Lemma replace_char_fixed old new s :
  Forall (fun c => c <> old) s -> replace_char old new s = s.
Proof.
  induction 1 as [|c s Hc Hs IH]; simpl; [reflexivity|].
  destruct (ceq c old) eqn:E; [apply ceq_eq in E; contradiction|].
  f_equal. exact IH.
Qed.

Lemma replace_char_gone old new s :
  new <> old -> Forall (fun c => c <> old) (replace_char old new s).
Proof.
  intros Hn. induction s as [|c s IH]; simpl; constructor; [|exact IH].
  destruct (ceq c old) eqn:E; [exact Hn|].
  intros ->. now rewrite ceq_refl in E.
Qed.

Lemma Forall_until_slash (P : ascii -> Prop) r :
  Forall P r -> Forall P (until_slash r).
Proof.
  induction 1 as [|c s Hc Hs IH]; simpl; [constructor|].
  destruct (ceq c "/"%char); [constructor | now constructor].
Qed.

Lemma Forall_basename (P : ascii -> Prop) p : Forall P p -> Forall P (basename p).
Proof.
  intros H. unfold basename. now apply Forall_rev, Forall_until_slash, Forall_rev.
Qed.

Lemma settled_until_slash f r tail :
  settled f r = true -> settled f tail = true ->
  settled f (until_slash r ++ tail) = true.
Proof.
  destruct r as [|c r]; simpl; [auto|].
  intros Hc Ht. destruct (ceq c "/"%char); simpl; auto.
Qed.

End PyStrFacts.

(* ===================================================================== *)
(** * normalize_path *)
(* ===================================================================== *)

Module NormalizeFacts.

Import PyStrFacts db_access Notions.

Lemma tidy_fixed r : tidy r -> normalize_path (Some r) = Some r.
Proof.
  intros [Hp Hs He].
  destruct (proj1 (startswith_app _ _) Hp) as [rest ->].
  unfold normalize_path. cbn [truthy py list_ascii_of_string app negb].
  fold backslash. rewrite (replace_char_fixed backslash _ _ Hs).
  rewrite strip_fixed by (reflexivity || exact He).
  change (py "uploads/" ++ rest) with
    ("u"%char :: "p"%char :: "l"%char :: "o"%char :: "a"%char :: "d"%char
       :: "s"%char :: "/"%char :: rest) in *.
  reflexivity.
Qed.

Lemma normalize_path_tidy path r : normalize_path path = Some r -> tidy r.
Proof.
  unfold normalize_path.
  destruct path as [[|c s]|]; cbn [truthy negb]; try discriminate.
  fold backslash.
  set (q := replace_char backslash "/"%char (c :: s)).
  assert (Hq : Forall (fun c => c <> backslash) (strip q)).
  { apply Forall_strip, replace_char_gone. discriminate. }
  pose proof (strip_back q) as Hb.
  destruct (startswith (py "uploads/") (strip q)) eqn:E1; cbn [orb].
  - (* already relative *)
    intros H. injection H as <-.
    destruct (proj1 (startswith_app _ _) E1) as [rest Hr].
    rewrite Hr in *. split; [reflexivity | exact Hq | exact Hb].
  - destruct (startswith (py "/uploads/") (strip q)) eqn:E2.
    + (* one leading slash *)
      destruct (proj1 (startswith_app _ _) E2) as [rest Hr].
      rewrite Hr in *.
      change (lstrip_chars _ (py "/uploads/" ++ rest))
        with (py "uploads/" ++ rest).
      change (py "/uploads/" ++ rest)
        with ("/"%char :: (py "uploads/" ++ rest)) in Hq, Hb.
      remember (py "uploads/" ++ rest) as r' eqn:Er.
      intros H. injection H as <-. split.
      * subst r'. reflexivity.
      * now inversion Hq.
      * change (rev ("/"%char :: r')) with (rev r' ++ ["/"%char]) in Hb.
        subst r'. rewrite rev_app_distr in Hb |- *. rewrite <- app_assoc in Hb.
        eapply settled_app_swap; [exact Hb | reflexivity].
    + (* anything else: the base name under uploads/ *)
      remember (py "uploads/" ++ basename (strip q)) as r' eqn:Er.
      intros H. injection H as <-. subst r'. split.
      * reflexivity.
      * apply Forall_app. split; [|now apply Forall_basename].
        cbn. repeat constructor; discriminate.
      * unfold basename. rewrite rev_app_distr, rev_involutive.
        apply settled_until_slash; [exact Hb | reflexivity].
Qed.

(** C7. Normalizing a photo path a second time changes nothing: for every
    path, the empty string and [None] included,
    [normalize_path (normalize_path p) = normalize_path p]. *)
Theorem normalize_path_idempotent (path : option str) :
  normalize_path (normalize_path path) = normalize_path path.
Proof.
  destruct (normalize_path path) as [r|] eqn:E.
  - apply tidy_fixed. eapply normalize_path_tidy, E.
  - reflexivity.
Qed.

End NormalizeFacts.

(* ===================================================================== *)
(** * Reading and inserting: db_access.py *)
(* ===================================================================== *)

Module AccessFacts.

Import PyStrFacts NormalizeFacts db_access Notions.

Lemma normalize_path_uploads_form (path : option str) :
  uploads_form (normalize_path path).
Proof.
  destruct (normalize_path path) as [r|] eqn:E; simpl; [|exact I].
  pose proof (normalize_path_tidy _ _ E) as T.
  split; [apply T | now apply tidy_fixed].
Qed.

Lemma read_text_state (p : str) (w : World) : snd (read_text p w) = w.
Proof.
  unfold read_text, bind, get. cbn.
  destruct (fs w !! p) as [f|]; [destruct (text f)|]; reflexivity.
Qed.

Lemma fetch_all_run {engine : SqlEngine} (w : World) :
  fetch_all_verifications w
  = (Ok (map fetched (order_by_datetime_desc_id_desc (rows (table w)))), w).
Proof. reflexivity. Qed.

Lemma in_order_iff {engine : SqlEngine} (l : list Row) (r : Row) :
  In r (order_by_datetime_desc_id_desc l) <-> In r l.
Proof.
  split; apply Permutation_in;
    [apply order_permutes | apply Permutation_sym, order_permutes].
Qed.

(** C10. Every record [fetch_all_verifications] returns has its two photo
    entries normalized on the way out: each is the [normalize_path] of
    what the row stores, so when it is present it is in the relative
    "uploads/..." form, whatever the row stores. *)
Theorem fetch_all_verifications_renormalizes {engine : SqlEngine} (w : World) :
  exists logs,
    fetch_all_verifications w = (Ok logs, w)
    /\ Forall (fun v =>
                 (exists r, In r (rows (table w))
                            /\ id_photo (fields v) = normalize_path (id_photo r)
                            /\ selfie_photo (fields v) = normalize_path (selfie_photo r))
                 /\ uploads_form (id_photo (fields v))
                 /\ uploads_form (selfie_photo (fields v)))
              logs.
Proof.
  eexists. split; [apply fetch_all_run|].
  apply List.Forall_forall. intros v Hv.
  apply in_map_iff in Hv as [r [<- Hr]].
  apply (proj1 (in_order_iff _ _)) in Hr.
  split; [exists r; split; [exact Hr | split; reflexivity]|].
  split; apply normalize_path_uploads_form.
Qed.

Lemma insert_verification_run
    (ts cid st de na idn em idp sp : option str) (w : World) :
  insert_verification ts cid st de na idn em idp sp w
  = (Ok (next_rowid (table w)),
     with_table
       {| rows := rows (table w)
                  ++ [{| id := next_rowid (table w);
                         timestamp := ts; client_id := cid; status := st;
                         details := de; name := na; id_number := idn;
                         email := em;
                         id_photo := normalize_path idp;
                         selfie_photo := normalize_path sp |}];
          seq := next_rowid (table w) |} w).
Proof. reflexivity. Qed.

(** The insert path of the live flow and of the reconciliation: on a
    table with room for one more key, [insert_verification] puts one row
    after the rows that are there, which stay as they are.  The row has
    the key that is returned, which is above every key in the table and
    within SQLite's keys, the seven texts as they were given, and for
    its two photos [normalize_path] of the two that were given, so that
    each is absent or in the "uploads/..." form. *)
Theorem insert_verification_stores_uploads_form
    (ts cid st de na idn em idp sp : option str) (w : World) :
  has_room 1 (table w) = true ->
  exists key,
    insert_verification ts cid st de na idn em idp sp w
    = (Ok key,
       with_table
         {| rows := rows (table w)
                    ++ [{| id := key;
                           timestamp := ts; client_id := cid; status := st;
                           details := de; name := na; id_number := idn;
                           email := em;
                           id_photo := normalize_path idp;
                           selfie_photo := normalize_path sp |}];
            seq := key |} w)
    /\ (forall r, In r (rows (table w)) -> (id r < key)%Z)
    /\ (key <= 2 ^ 63 - 1)%Z
    /\ uploads_form (normalize_path idp) /\ uploads_form (normalize_path sp).
Proof.
  intros Hroom. exists (next_rowid (table w)).
  split; [apply insert_verification_run|]. split; [|split].
  - intros r Hr. unfold next_rowid.
    assert (B : (id r <= max_rowid (rows (table w)))%Z).
    { induction (rows (table w)) as [|x l IH]; [destruct Hr|].
      cbn [max_rowid]. destruct Hr as [->|Hr]; [lia | specialize (IH Hr); lia]. }
    lia.
  - unfold has_room in Hroom. apply Z.leb_le in Hroom. lia.
  - split; apply normalize_path_uploads_form.
Qed.

(** The theorem at work: a second verification of the client on record. *)
Lemma insert_verification_worked :
  exists key,
    insert_verification (Some (py "2026-03-01 09:00:00")) (Some (py "7"))
      (Some (py "Success")) None (Some (py "A N Other"))
      (Some (py "8001015009087")) None
      (Some Inputs.captured_path) (Some (py "/uploads/selfie_7.jpg"))
      Inputs.one_client
    = (Ok key,
       with_table
         {| rows := rows (table Inputs.one_client)
                    ++ [{| id := key;
                           timestamp := Some (py "2026-03-01 09:00:00");
                           client_id := Some (py "7");
                           status := Some (py "Success");
                           details := None; name := Some (py "A N Other");
                           id_number := Some (py "8001015009087");
                           email := None;
                           id_photo := normalize_path (Some Inputs.captured_path);
                           selfie_photo := normalize_path (Some (py "/uploads/selfie_7.jpg")) |}];
            seq := key |} Inputs.one_client)
    /\ (forall r, In r (rows (table Inputs.one_client)) -> (id r < key)%Z)
    /\ (key <= 2 ^ 63 - 1)%Z
    /\ uploads_form (normalize_path (Some Inputs.captured_path))
    /\ uploads_form (normalize_path (Some (py "/uploads/selfie_7.jpg"))).
Proof.
  apply (insert_verification_stores_uploads_form
           (Some (py "2026-03-01 09:00:00")) (Some (py "7"))
           (Some (py "Success")) None (Some (py "A N Other"))
           (Some (py "8001015009087")) None
           (Some Inputs.captured_path) (Some (py "/uploads/selfie_7.jpg"))
           Inputs.one_client).
  reflexivity.
Defined.

End AccessFacts.

(* ===================================================================== *)
(** * Reconciliation: log_to_db.process_log_file *)
(* ===================================================================== *)

Module ReconcileFacts.

Import PyStrFacts db_access log_to_db Notions AccessFacts.

Lemma added_fresh_split base new :
  added_fresh base new ->
  forall before r after, new = before ++ r :: after ->
    ~ In (pair_of r) (map pair_of (base ++ before)).
Proof.
  revert base. induction new as [|x new IH]; intros base Hf before r after E.
  - destruct before; discriminate.
  - destruct Hf as [Hx Hrest]. destruct before as [|b before]; simpl in E.
    + injection E as -> ->. now rewrite app_nil_r.
    + injection E as -> ->.
      replace (base ++ b :: before) with ((base ++ [b]) ++ before)
        by now rewrite <- app_assoc.
      eapply IH; [exact Hrest | reflexivity].
Qed.

Lemma same_session_fetched (r : Row) (session : Session) :
  same_session (fetched r) session = true
  <-> pair_of r = (session k_timestamp, session k_client_id).
Proof.
  unfold same_session, pair_of. simpl.
  rewrite andb_true_iff, !opt_eqb_eq. split.
  - intros [-> ->]. reflexivity.
  - intros E. injection E as -> ->. auto.
Qed.

Lemma reconcile_block_run {engine : SqlEngine} (block : str) (w : World) :
  reconcile_block block w
  = if is_session_block block
       && negb (existsb (fun log => same_session log (parse_session_block block))
                        (map fetched (order_by_datetime_desc_id_desc (rows (table w)))))
    then insert_into_db (parse_session_block block) w
    else (Ok tt, w).
Proof.
  unfold reconcile_block, when.
  destruct (is_session_block block); [|reflexivity].
  unfold bind. rewrite fetch_all_run. cbn [andb].
  now destruct (existsb _ _).
Qed.

Lemma insert_into_db_run (session : Session) (w : World) :
  exists r,
    insert_into_db session w
    = (Ok tt, with_table {| rows := rows (table w) ++ [r];
                            seq := next_rowid (table w) |} w)
    /\ pair_of r = (session k_timestamp, session k_client_id).
Proof.
  unfold insert_into_db, bind. rewrite insert_verification_run.
  eexists. split; reflexivity.
Qed.

Lemma round_adds_fresh {engine : SqlEngine} (block : str) (w : World) :
  exists new,
    fst (reconcile_block block w) = Ok tt
    /\ rows (table (snd (reconcile_block block w))) = rows (table w) ++ new
    /\ fs (snd (reconcile_block block w)) = fs w
    /\ added_fresh (rows (table w)) new.
Proof.
  rewrite reconcile_block_run.
  destruct (is_session_block block); cbn [andb];
    [|exists []; cbn; rewrite app_nil_r; auto].
  destruct (existsb _ _) eqn:Ex; cbn [negb].
  - exists []. cbn. rewrite app_nil_r. auto.
  - destruct (insert_into_db_run (parse_session_block block) w) as [r [-> Hp]].
    exists [r]. cbn. repeat split; try reflexivity.
    intros Hin. apply in_map_iff in Hin as [r0 [Hp0 Hr0]].
    assert (Hno : existsb (fun log => same_session log (parse_session_block block))
                    (map fetched (order_by_datetime_desc_id_desc (rows (table w))))
                  = true).
    { apply existsb_exists. exists (fetched r0). split.
      - apply in_map, in_order_iff, Hr0.
      - apply same_session_fetched. congruence. }
    congruence.
Qed.

Lemma for_each_rounds {engine : SqlEngine} (blocks : list str) (w : World) :
  exists new,
    fst (for_each blocks reconcile_block w) = Ok tt
    /\ rows (table (snd (for_each blocks reconcile_block w))) = rows (table w) ++ new
    /\ fs (snd (for_each blocks reconcile_block w)) = fs w
    /\ added_fresh (rows (table w)) new.
Proof.
  revert w. induction blocks as [|b blocks IH]; intros w.
  - exists []. simpl. now rewrite app_nil_r.
  - cbn [for_each]. unfold bind.
    destruct (round_adds_fresh b w) as [n1 [R1 [T1 [F1 A1]]]].
    destruct (reconcile_block b w) as [[[]|e] w1]; simpl in R1, T1, F1; [|discriminate].
    destruct (IH w1) as [n2 [R2 [T2 [F2 A2]]]].
    exists (n1 ++ n2). repeat split.
    + exact R2.
    + rewrite T2, T1. now rewrite app_assoc.
    + congruence.
    + rewrite T1 in A2. clear -A1 A2.
      revert A1 A2. generalize (rows (table w)) as base.
      induction n1 as [|x n1 IHn]; intros base A1 A2; simpl in *.
      * now rewrite app_nil_r in A2.
      * destruct A1 as [Hx Hr]. split; [exact Hx|].
        apply IHn; [exact Hr|]. now rewrite <- app_assoc.
Qed.

Lemma process_log_file_appends {engine : SqlEngine} (w : World) :
  exists new,
    rows (table (snd (process_log_file w))) = rows (table w) ++ new
    /\ added_fresh (rows (table w)) new.
Proof.
  unfold process_log_file, bind.
  pose proof (read_text_state LOG_FILE w) as Hs.
  destruct (read_text LOG_FILE w) as [[content|e] w0]; simpl in Hs; subst w0.
  - destruct (for_each_rounds (split SESSION_MARK content) w) as [new [_ [T [_ A]]]].
    now exists new.
  - exists []. split; [simpl; now rewrite app_nil_r | exact I].
Qed.

(** C4. Whatever the audit log and the table hold, every row
    [process_log_file] inserts carries a (timestamp, client_id) pair that
    no row of the table had when it was inserted: neither a row that was
    there before the run, nor one inserted earlier in the run. *)
Theorem process_log_file_never_duplicates {engine : SqlEngine} (w : World) :
  exists new,
    rows (table (snd (process_log_file w))) = rows (table w) ++ new
    /\ forall before r after,
         new = before ++ r :: after ->
         ~ In (pair_of r) (map pair_of (rows (table w) ++ before)).
Proof.
  destruct (process_log_file_appends w) as [new [T A]].
  exists new. split; [exact T|]. now apply added_fresh_split.
Qed.

End ReconcileFacts.

(* ===================================================================== *)
(** * Deleting: db_access.py *)
(* ===================================================================== *)

Module DeleteFacts.

Import PyStrFacts db_access Notions AccessFacts.

(** ** What a step may do to the world around the table *)

Lemma fades_refl w : fades w w.
Proof. split; [reflexivity | now left | exists []; now rewrite app_nil_r]. Qed.

Lemma fades_trans w1 w2 w3 : fades w1 w2 -> fades w2 w3 -> fades w1 w3.
Proof.
  intros [T1 F1 [m1 O1]] [T2 F2 [m2 O2]]. split.
  - congruence.
  - intros q. destruct (F2 q) as [E|E]; [rewrite E; apply F1 | now right].
  - exists (m1 ++ m2). rewrite O2, O1. now rewrite app_assoc.
Qed.

(** ** Removing one linked file *)

Lemma remove_linked_file_run (f : option str) (w : World) :
  remove_linked_file f w
  = match f with
    | Some (c :: s) =>
        match fs w !! (c :: s) with
        | Some file =>
            if removable file then (Ok tt, after_remove (c :: s) w)
            else (Ok tt, after_refusal (c :: s) OSError w)
        | None => (Ok tt, w)
        end
    | _ => (Ok tt, w)
    end.
Proof.
  destruct f as [[|c s]|]; try reflexivity.
  unfold remove_linked_file, os_path_exists, os_remove, when, try_except,
    bind, get, ret, print, modify, raise. cbn [truthy].
  destruct (fs w !! (c :: s)) as [file|] eqn:E; [|reflexivity].
  rewrite E. destruct (removable file); reflexivity.
Qed.

Lemma remove_linked_file_safe (f : option str) (w : World) :
  fst (remove_linked_file f w) = Ok tt
  /\ fades w (snd (remove_linked_file f w))
  /\ (forall q, f <> Some q ->
        fs (snd (remove_linked_file f w)) !! q = fs w !! q)
  /\ (forall p, f = Some p -> p <> [] ->
        (forall file, fs w !! p = Some file -> removable file = true) ->
        fs (snd (remove_linked_file f w)) !! p = None).
Proof.
  rewrite remove_linked_file_run.
  destruct f as [[|c s]|];
    try (split; [reflexivity | split; [apply fades_refl | split;
           [reflexivity | intros p [= <-] Hp; congruence || discriminate]]]).
  destruct (fs w !! (c :: s)) as [file|] eqn:E.
  - destruct (removable file) eqn:R; cbn.
    + split; [reflexivity|]. split; [|split].
      * split; cbn; [reflexivity | | now eexists].
        intros q. destruct (decide (c :: s = q)) as [<-|N].
        -- right. apply lookup_delete_eq.
        -- left. now apply lookup_delete_ne.
      * intros q N. apply lookup_delete_ne. congruence.
      * intros p [= <-] _ _. apply lookup_delete_eq.
    + split; [reflexivity|]. split; [|split].
      * split; cbn; [reflexivity | now left | now eexists].
      * reflexivity.
      * intros p [= <-] _ H. specialize (H _ E). congruence.
  - cbn. split; [reflexivity|]. split; [apply fades_refl|]. split; [reflexivity|].
    intros p [= <-] _ _. exact E.
Qed.

Lemma classic_in (x : option str) (l : list (option str)) : In x l \/ ~ In x l.
Proof.
  destruct (in_dec (fun a b : option str => decide (a = b)) x l); auto.
Qed.

Lemma for_each_app {X} (l1 l2 : list X) (body : X -> St World unit) (w : World) :
  for_each (l1 ++ l2) body w
  = bind (for_each l1 body) (fun _ => for_each l2 body) w.
Proof.
  revert w. induction l1 as [|x l1 IH]; intros w; [reflexivity|].
  cbn [for_each app]. unfold bind.
  destruct (body x w) as [[[]|e] w1]; [apply IH | reflexivity].
Qed.

Lemma for_each_flat_map {X Y} (g : X -> list Y) (l : list X)
    (body : Y -> St World unit) (w : World) :
  for_each l (fun x => for_each (g x) body) w = for_each (flat_map g l) body w.
Proof.
  revert w. induction l as [|x l IH]; intros w; [reflexivity|].
  cbn [for_each flat_map]. rewrite for_each_app. unfold bind.
  destruct (for_each (g x) body w) as [[[]|e] w1]; [apply IH | reflexivity].
Qed.

Lemma remove_each_safe (files : list (option str)) (w : World) :
  fst (for_each files remove_linked_file w) = Ok tt
  /\ fades w (snd (for_each files remove_linked_file w))
  /\ (forall q, ~ In (Some q) files ->
        fs (snd (for_each files remove_linked_file w)) !! q = fs w !! q)
  /\ (forall p, In (Some p) files -> p <> [] ->
        (forall file, fs w !! p = Some file -> removable file = true) ->
        fs (snd (for_each files remove_linked_file w)) !! p = None).
Proof.
  revert w. induction files as [|f files IH]; intros w.
  - cbn. split; [reflexivity|]. split; [apply fades_refl|].
    split; [reflexivity | intros p []].
  - cbn [for_each]. unfold bind.
    destruct (remove_linked_file_safe f w) as [R1 [F1 [K1 G1]]].
    destruct (remove_linked_file f w) as [[[]|e] w1]; cbn in R1, F1, K1, G1;
      [|discriminate].
    destruct (IH w1) as [R2 [F2 [K2 G2]]].
    split; [exact R2|]. split; [eapply fades_trans; eassumption|]. split.
    + intros q N. rewrite K2 by (intros H; apply N; now right).
      apply K1. intros ->. apply N. now left.
    + intros p Hin Hp Hrm.
      assert (Hrm1 : forall file, fs w1 !! p = Some file -> removable file = true).
      { intros file E. destruct (fades_fs _ _ F1 p) as [E1|E1];
          rewrite E1 in E; [now apply Hrm | discriminate]. }
      destruct (classic_in (Some p) files) as [Hin2|Hnot].
      * now apply G2.
      * rewrite K2 by exact Hnot.
        destruct Hin as [->|Hin]; [|contradiction]. now apply G1.
Qed.

(** ** Pruning the audit log *)

Lemma prune_fold (id_number : str) (blocks kept : list str) (removed : nat) :
  fold_left (prune_step (py "ID Number: " ++ id_number)) blocks (kept, removed)
  = (kept ++ List.filter (fun b => nonblank b && negb (mentions id_number b)) blocks,
     removed + length (List.filter (fun b => nonblank b && mentions id_number b) blocks)).
Proof.
  revert kept removed. induction blocks as [|b blocks IH]; intros kept removed.
  - cbn. now rewrite app_nil_r, Nat.add_0_r.
  - cbn [fold_left List.filter]. unfold prune_step at 2. fold (nonblank b).
    fold (mentions id_number b).
    destruct (nonblank b); cbn [negb andb]; [|apply IH].
    destruct (mentions id_number b); cbn [negb]; rewrite IH; cbn [length].
    + f_equal. lia.
    + now rewrite <- app_assoc.
Qed.

Lemma rejoin_fold (kept : list str) (acc : str) :
  fold_left rejoin_step kept acc = acc ++ rejoined kept.
Proof.
  revert acc. induction kept as [|b kept IH]; intros acc.
  - cbn. now rewrite app_nil_r.
  - cbn [fold_left]. rewrite IH. unfold rejoin_step, rejoined.
    cbn [map concat]. destruct (endswith [newline] b); cbn [negb];
      now rewrite <- !app_assoc.
Qed.

Lemma delete_audit_blocks_run {site : Deployment}
    (id_number : str) (log_path : option str) (w : World) :
  _delete_audit_blocks_by_id_number id_number log_path w
  = match fs w !! path_or_default log_path with
    | None => (Ok 0, w)
    | Some f =>
        match text f with
        | None => (Ok 0, printed (AuditLogCleanupFailed OSError) w)
        | Some content =>
            if writable f
            then (Ok (removed_blocks id_number content),
                  rewritten (path_or_default log_path)
                            (rejoined (kept_blocks id_number content)) f w)
            else (Ok 0, printed (AuditLogCleanupFailed OSError) w)
        end
    end.
Proof.
  unfold _delete_audit_blocks_by_id_number.
  set (path := path_or_default log_path).
  unfold os_path_exists, try_except, read_text, write_text, bind, get, ret,
    raise, print, modify.
  destruct (fs w !! path) as [f|] eqn:E; cbn [negb]; [|reflexivity].
  rewrite E.
  destruct (text f) as [content|]; [|reflexivity].
  rewrite prune_fold. cbn [app plus]. rewrite rejoin_fold. cbn [app].
  rewrite E.
  destruct (writable f); reflexivity.
Qed.

Lemma delete_audit_blocks_safe {site : Deployment}
    (id_number : str) (log_path : option str) (w : World) :
  (exists n, fst (_delete_audit_blocks_by_id_number id_number log_path w) = Ok n)
  /\ table (snd (_delete_audit_blocks_by_id_number id_number log_path w)) = table w
  /\ (forall q, q <> path_or_default log_path ->
        fs (snd (_delete_audit_blocks_by_id_number id_number log_path w)) !! q
        = fs w !! q)
  /\ (exists more,
        stdout (snd (_delete_audit_blocks_by_id_number id_number log_path w))
        = stdout w ++ more).
Proof.
  rewrite delete_audit_blocks_run.
  destruct (fs w !! path_or_default log_path) as [f|];
    [destruct (text f) as [content|]; [destruct (writable f)|]|]; cbn.
  all: split; [now eexists|]; split; [reflexivity|]; split;
    [|first [now exists [] ; rewrite app_nil_r | now eexists]].
  all: intros q N; try reflexivity.
  now apply lookup_insert_ne.
Qed.

(** ** The database file *)

Lemma connect_run {site : Deployment} (w : World) :
  in_place DB_FILE w = true -> connect_and_select w = (Ok tt, w).
Proof.
  unfold in_place, connect_and_select, os_path_exists, bind, get, ret.
  now destruct (fs w !! DB_FILE).
Qed.


Lemma sql_delete_run {site : Deployment} (goes : Row -> bool) (w : World) :
  in_place DB_FILE w = true ->
  sql_delete goes w
  = (Ok (length (List.filter goes (rows (table w)))),
     with_table {| rows := List.filter (fun r => negb (goes r)) (rows (table w));
                   seq := seq (table w) |} w).
Proof.
  unfold in_place, sql_delete, os_path_exists, bind, get, ret, modify.
  now destruct (fs w !! DB_FILE).
Qed.

Lemma sql_delete_fails {site : Deployment} (goes : Row -> bool) (w : World) :
  in_place DB_FILE w = false ->
  sql_delete goes w = (Raise OperationalError, lost w).
Proof.
  unfold in_place, sql_delete, os_path_exists, bind, get, ret, modify, raise.
  now destruct (fs w !! DB_FILE).
Qed.

Lemma bind_returns {S A B} (m : St S A) (k : A -> St S B) (s s' : S) (a : A) :
  m s = (Ok a, s') -> bind m k s = k a s'.
Proof. intros H. unfold bind. now rewrite H. Qed.

Lemma bind_throws {S A B} (m : St S A) (k : A -> St S B) (s s' : S) (e : exn) :
  m s = (Raise e, s') -> bind m k s = (Raise e, s').
Proof. intros H. unfold bind. now rewrite H. Qed.




(** ** [delete_by_id_number], step by step *)

Lemma delete_by_id_number_runs {site : Deployment} (id_number : str) (w : World) :
  in_place DB_FILE w = true ->
  exists w1,
    for_each (flat_map photos (List.filter (id_number_matches id_number)
                                           (rows (table w))))
             remove_linked_file (printed (AttemptingToDelete id_number) w)
    = (Ok tt, w1)
    /\ (in_place DB_FILE w1 = true ->
        exists k w3,
          _delete_audit_blocks_by_id_number id_number None
            (printed (RowsDeleted
                        (length (List.filter (id_number_matches id_number)
                                             (rows (table w)))))
                     (with_table (without id_number w) w1))
          = (Ok k, w3)
          /\ delete_by_id_number id_number w
             = (Ok ((0 <? length (List.filter (id_number_matches id_number)
                                              (rows (table w))))
                    || (0 <? k)),
                printed (RemovedBlocks k) w3))
    /\ (in_place DB_FILE w1 = false ->
        delete_by_id_number id_number w = (Raise OperationalError, lost w1)).
Proof.
  intros Hdb.
  set (matched := List.filter (id_number_matches id_number) (rows (table w))).
  set (w0 := printed (AttemptingToDelete id_number) w).
  destruct (remove_each_safe (flat_map photos matched) w0) as [R1 [F1 _]].
  destruct (for_each (flat_map photos matched) remove_linked_file w0)
    as [r1 w1] eqn:E1.
  cbn in R1, F1. subst r1.
  assert (T1 : table w1 = table w) by apply F1.
  exists w1. split; [reflexivity|].
  assert (Start : forall k' : unit -> St World bool,
            delete_by_id_number id_number w
            = bind (sql_delete (id_number_matches id_number))
                   (fun deleted_count =>
                      bind (print (RowsDeleted deleted_count)) (fun _ =>
                      bind (_delete_audit_blocks_by_id_number id_number None)
                           (fun removed_blocks =>
                      bind (print (RemovedBlocks removed_blocks)) (fun _ =>
                      ret ((0 <? deleted_count) || (0 <? removed_blocks))))))
                   w1).
  { intros _. unfold delete_by_id_number.
    rewrite (bind_returns (print (AttemptingToDelete id_number)) _ w w0 tt)
      by reflexivity.
    rewrite (bind_returns connect_and_select _ w0 w0 tt)
      by (apply connect_run; exact Hdb).
    rewrite (bind_returns get _ w0 w0 w0) by reflexivity.
    change (fun r : Row => for_each [id_photo r; selfie_photo r] remove_linked_file)
      with (fun r : Row => for_each (photos r) remove_linked_file).
    change (rows (table w0)) with (rows (table w)). fold matched.
    rewrite (bind_returns _ _ w0 w1 tt)
      by (rewrite for_each_flat_map; exact E1).
    reflexivity. }
  specialize (Start (fun _ => ret true)).
  split.
  - intros Hkeep.
    destruct (delete_audit_blocks_safe id_number None
                (printed (RowsDeleted (length matched))
                         (with_table (without id_number w) w1))) as [[k R3] _].
    destruct (_delete_audit_blocks_by_id_number id_number None
                (printed (RowsDeleted (length matched))
                         (with_table (without id_number w) w1))) as [r3 w3] eqn:E3.
    cbn in R3. subst r3.
    exists k, w3. split; [reflexivity|].
    rewrite Start.
    rewrite (bind_returns _ _ w1 _ _ (sql_delete_run _ w1 Hkeep)).
    rewrite T1. fold matched.
    rewrite (bind_returns (print (RowsDeleted (length matched))) _ _
               (printed (RowsDeleted (length matched))
                        (with_table (without id_number w) w1)) tt)
      by reflexivity.
    rewrite (bind_returns _ _ _ _ _ E3).
    reflexivity.
  - intros Hgone. rewrite Start.
    now rewrite (bind_throws _ _ w1 _ _ (sql_delete_fails _ w1 Hgone)).
Qed.





(** ** [delete_verification], step by step *)















(** ** A photo that is the database *)

Lemma db_file_named {site : Deployment} : DB_FILE <> [].
Proof.
  unfold DB_FILE, os_path_join.
  change (startswith (py "/") (py "verifications.db")) with false. cbv iota.
  destruct BASE_DIR as [|c d]; [discriminate|].
  destruct (endswith (py "/") (c :: d)); discriminate.
Qed.

Lemma linked_in (p : str) (l : list Row) :
  unlinked p l = false -> In (Some p) (flat_map photos l).
Proof.
  unfold unlinked. induction l as [|r l IH]; [discriminate|].
  cbn [forallb flat_map]. intros H. apply in_or_app.
  apply andb_false_iff in H as [H|H]; [left | right; now apply IH].
  unfold photos in *. cbn [forallb] in H. rewrite andb_true_r in H.
  apply andb_false_iff in H as [H|H]; apply negb_false_iff, opt_eqb_eq in H;
    rewrite H; cbn [In]; auto.
Qed.

(** The deletion takes the database with it when the database is in
    place and not safe: a row to delete gives the file of the database
    for a photo and that file can be removed.  The loop over the linked
    files removes it, the [DELETE] that follows ends in
    [OperationalError], and the file and all rows are gone, those of
    other clients too; nothing is reported and the audit log is not
    pruned. *)
Theorem delete_by_id_number_can_lose_the_database {site : Deployment}
    (id_number : str) (w : World) :
  in_place DB_FILE w = true ->
  db_safe w (List.filter (id_number_matches id_number) (rows (table w))) = false ->
  exists w1,
    for_each (flat_map photos (List.filter (id_number_matches id_number)
                                           (rows (table w))))
             remove_linked_file (printed (AttemptingToDelete id_number) w)
    = (Ok tt, w1)
    /\ delete_by_id_number id_number w = (Raise OperationalError, lost w1)
    /\ fs (lost w1) !! DB_FILE = None
    /\ rows (table (lost w1)) = [].
Proof.
  unfold db_safe. intros Hdb Hnot.
  rewrite Hdb in Hnot. cbn [andb] in Hnot.
  apply orb_false_iff in Hnot as [Hrm Hnot]. apply negb_false_iff in Hrm.
  unfold removable_at in Hrm. apply linked_in in Hnot.
  destruct (delete_by_id_number_runs id_number w Hdb) as (w1 & E1 & _ & Hbad).
  destruct (remove_each_safe
              (flat_map photos (List.filter (id_number_matches id_number)
                                            (rows (table w))))
              (printed (AttemptingToDelete id_number) w)) as [_ [_ [_ G1]]].
  rewrite E1 in G1. cbn [snd] in G1.
  assert (Hgone : fs w1 !! DB_FILE = None).
  { apply G1; [exact Hnot | apply db_file_named |].
    intros file Ef. change (fs (printed (AttemptingToDelete id_number) w))
      with (fs w) in Ef.
    now rewrite Ef in Hrm. }
  exists w1. split; [exact E1|]. split; [|split; [exact Hgone | reflexivity]].
  apply Hbad. unfold in_place. now rewrite Hgone.
Qed.

(** The theorem at work: deleting the client with the misfiled photo
    takes the record of the other client too. *)
Lemma delete_by_id_number_lost_worked :
  exists w1,
    for_each (flat_map photos
                (List.filter (id_number_matches (py "9002025009086"))
                             (rows (table MoreInputs.misfiled_world))))
             remove_linked_file
             (printed (AttemptingToDelete (py "9002025009086"))
                      MoreInputs.misfiled_world)
    = (Ok tt, w1)
    /\ delete_by_id_number (site := Inputs.installed_in_srv)
         (py "9002025009086") MoreInputs.misfiled_world
       = (Raise OperationalError, lost w1)
    /\ fs (lost w1) !! DB_FILE (site := Inputs.installed_in_srv) = None
    /\ rows (table (lost w1)) = [].
Proof.
  apply (delete_by_id_number_can_lose_the_database
           (site := Inputs.installed_in_srv)
           (py "9002025009086") MoreInputs.misfiled_world);
    reflexivity.
Defined.

End DeleteFacts.

(* ===================================================================== *)
(** * Polling: xds_main.poll_dov_result *)
(* ===================================================================== *)

Module PollFacts.

Import xds_main Notions.

Section Polling.

Variables ticket enquiry_id : str.
Variable interval : Z.
Hypothesis interval_ok : (0 <= interval)%Z.

Lemma waited_0 (s : Service) : waited 0 interval s = s.
Proof. destruct s. unfold waited. cbn. now rewrite app_nil_r. Qed.

Lemma waited_S (n : nat) (s : Service) :
  waited n interval (waited 1 interval s) = waited (S n) interval s.
Proof.
  unfold waited. cbn. f_equal; [lia|]. now rewrite <- app_assoc.
Qed.

(** A round whose reply is of no use: sleep and go on. *)
Lemma poll_loop_retry (attempts : nat) (s : Service) :
  usable (reply s ticket enquiry_id (calls s)) = None ->
  poll_loop (S attempts) ticket enquiry_id interval s
  = poll_loop attempts ticket enquiry_id interval (waited 1 interval s).
Proof using interval_ok.
  intros Hu. cbn [poll_loop].
  unfold bind, try_except, get_dov_result, ret, time_sleep, modify, raise.
  assert (Hs : (interval <? 0)%Z = false) by lia.
  destruct (reply s ticket enquiry_id (calls s)) as [e|[text|]]; cbn in Hu |- *.
  - now rewrite Hs.
  - destruct (truthy (Some text) && negb (contains (py "<NoResult>") text)) eqn:R;
      [unfold is_result in Hu; rewrite R in Hu; discriminate|].
    unfold is_result. rewrite R, Hs. reflexivity.
  - now rewrite Hs.
Qed.

(** A round whose reply is a result: return it. *)
Lemma poll_loop_hit (attempts : nat) (s : Service) (text : str) :
  usable (reply s ticket enquiry_id (calls s)) = Some text ->
  poll_loop (S attempts) ticket enquiry_id interval s
  = (Ok text, {| reply := reply s; calls := S (calls s); slept := slept s |}).
Proof.
  intros Hu. cbn [poll_loop].
  unfold bind, try_except, get_dov_result, ret.
  destruct (reply s ticket enquiry_id (calls s)) as [e|[t|]]; cbn in Hu |- *;
    try discriminate.
  destruct (is_result (Some t)); [now injection Hu as -> | discriminate].
Qed.

Lemma poll_loop_found (n attempts : nat) (s : Service) (text : str) :
  n < attempts ->
  usable (reply s ticket enquiry_id (calls s + n)) = Some text ->
  (forall j, j < n -> usable (reply s ticket enquiry_id (calls s + j)) = None) ->
  poll_loop attempts ticket enquiry_id interval s
  = (Ok text, {| reply := reply s; calls := S (n + calls s);
                 slept := slept s ++ repeat interval n |}).
Proof using interval_ok.
  revert attempts s. induction n as [|n IH]; intros [|attempts] s Hlt Hu Hbefore;
    try lia.
  - rewrite Nat.add_0_r in Hu. rewrite (poll_loop_hit _ _ _ Hu).
    cbn. now rewrite app_nil_r.
  - rewrite poll_loop_retry.
    + rewrite (IH attempts (waited 1 interval s) ltac:(lia)).
      * cbn. f_equal. f_equal; [lia|]. now rewrite <- app_assoc.
      * cbn. now replace (S (calls s + n)) with (calls s + S n) by lia.
      * intros j Hj. cbn.
        replace (S (calls s + j)) with (calls s + S j) by lia.
        apply Hbefore. lia.
    + specialize (Hbefore 0 ltac:(lia)). now rewrite Nat.add_0_r in Hbefore.
Qed.

Lemma poll_loop_exhausted (attempts : nat) (s : Service) :
  (forall j, j < attempts ->
             usable (reply s ticket enquiry_id (calls s + j)) = None) ->
  poll_loop attempts ticket enquiry_id interval s
  = (Ok TIMED_OUT, waited attempts interval s).
Proof using interval_ok.
  revert s. induction attempts as [|attempts IH]; intros s Hnone.
  - cbn [poll_loop]. unfold ret. now rewrite waited_0.
  - rewrite poll_loop_retry.
    + rewrite IH; [now rewrite waited_S|].
      intros j Hj. cbn.
      replace (S (calls s + j)) with (calls s + S j) by lia.
      apply Hnone. lia.
    + specialize (Hnone 0 ltac:(lia)). now rewrite Nat.add_0_r in Hnone.
Qed.

End Polling.

(** C3. With a sleep length that is not negative: if the [n]-th reply from
    now, [n] below [max_attempts], is the first that is a non-empty text
    without "<NoResult>", [poll_dov_result] returns that text after
    [n + 1] calls; if none of the next [max_attempts] replies is one, it
    returns the fixed timeout text after [max_attempts] calls. *)
Theorem poll_dov_result_first_result_or_timeout
    (ticket enquiry_id : str) (max_attempts interval : Z) (s : Service) :
  (0 <= interval)%Z ->
  (forall n text,
     (Z.of_nat n < max_attempts)%Z ->
     usable (reply s ticket enquiry_id (calls s + n)) = Some text ->
     (forall j, j < n -> usable (reply s ticket enquiry_id (calls s + j)) = None) ->
     fst (poll_dov_result ticket enquiry_id max_attempts interval s) = Ok text
     /\ calls (snd (poll_dov_result ticket enquiry_id max_attempts interval s))
        = calls s + n + 1)
  /\ ((forall j, (Z.of_nat j < max_attempts)%Z ->
                 usable (reply s ticket enquiry_id (calls s + j)) = None) ->
      fst (poll_dov_result ticket enquiry_id max_attempts interval s) = Ok TIMED_OUT
      /\ calls (snd (poll_dov_result ticket enquiry_id max_attempts interval s))
         = calls s + Z.to_nat max_attempts).
Proof.
  intros Hi. unfold poll_dov_result. split.
  - intros n text Hn Hu Hbefore.
    rewrite (poll_loop_found ticket enquiry_id interval Hi n _ s text);
      [cbn; split; [reflexivity | lia] | lia | exact Hu | exact Hbefore].
  - intros Hnone.
    rewrite (poll_loop_exhausted ticket enquiry_id interval Hi);
      [cbn; split; [reflexivity | lia]|].
    intros j Hj. apply Hnone. lia.
Qed.

(** The theorem at work: against a service that fails, then has no
    result, then has one, thirty attempts ten seconds apart return the
    result at the third call, and two attempts time out. *)
Lemma poll_dov_result_worked :
  (fst (poll_dov_result (py "ticket") (py "42") 30 10 Inputs.slow_service)
   = Ok (py "<DOV>match</DOV>")
   /\ calls (snd (poll_dov_result (py "ticket") (py "42") 30 10 Inputs.slow_service))
      = 3)
  /\ (fst (poll_dov_result (py "ticket") (py "42") 2 10 Inputs.slow_service)
      = Ok TIMED_OUT
      /\ calls (snd (poll_dov_result (py "ticket") (py "42") 2 10 Inputs.slow_service))
         = 2).
Proof.
  split.
  - apply (proj1 (poll_dov_result_first_result_or_timeout
                    (py "ticket") (py "42") 30 10 Inputs.slow_service
                    ltac:(lia)) 2 (py "<DOV>match</DOV>")).
    + lia.
    + reflexivity.
    + intros [|[|j]] Hj; [reflexivity | reflexivity | lia].
  - apply (proj2 (poll_dov_result_first_result_or_timeout
                    (py "ticket") (py "42") 2 10 Inputs.slow_service
                    ltac:(lia))).
    intros [|[|j]] Hj; [reflexivity | reflexivity | lia].
Defined.

End PollFacts.

(* ===================================================================== *)
(** * Retrofill: log_to_db.retrofill_photos *)
(* ===================================================================== *)

Module RetrofillFacts.

Import PyStrFacts db_access log_to_db Notions AccessFacts.














(** ** Two runs of [retrofill_photos] *)

Lemma order_of_one {engine : SqlEngine} (r : Row) :
  order_by_datetime_desc_id_desc [r] = [r].
Proof.
  apply Permutation_length_1_inv, Permutation_sym, order_permutes.
Qed.

Lemma order_of_two {engine : SqlEngine} (a b : Row) :
  order_by_datetime_desc_id_desc [a; b] = [a; b]
  \/ order_by_datetime_desc_id_desc [a; b] = [b; a].
Proof.
  apply Permutation_length_2_inv, Permutation_sym, order_permutes.
Qed.

(** C2 fails on the retrofill update.  An older row has no ID photo and
    the audit log has one for its session, under the path it was captured
    at: [retrofill_photos] stores that path as it stands in the log,
    although it does not start with "uploads/" and [normalize_path] would
    have made it "uploads/id_7.jpg". *)
Theorem retrofill_photos_stores_path_as_logged (engine : SqlEngine) :
  rows (table (snd (retrofill_photos Inputs.legacy_world)))
  = [with_photos (Some Inputs.captured_path) None Inputs.bare_row]
  /\ startswith (py "uploads/") Inputs.captured_path = false
  /\ normalize_path (Some Inputs.captured_path) = Some (py "uploads/id_7.jpg").
Proof.
  split; [|split; reflexivity].
  unfold retrofill_photos. unfold bind at 1. rewrite fetch_all_run.
  change (rows (table Inputs.legacy_world)) with [Inputs.bare_row].
  rewrite order_of_one. vm_compute. reflexivity.
Qed.

(** C5 fails when two rows share a (timestamp, client_id) pair.  The first
    row has both photos, its twin has none, and the audit log has an ID
    photo for their session: the update made for the twin is keyed by the
    pair, so it also replaces the first row's ID photo and sets its selfie
    to NULL.  The order the rows are read in makes no difference. *)
Theorem retrofill_photos_overwrites_twin (engine : SqlEngine) :
  rows (table (snd (retrofill_photos Inputs.twin_world)))
  = [with_photos (Some (py "uploads/ids/retake_7.jpg")) None Inputs.full_row;
     with_photos (Some (py "uploads/ids/retake_7.jpg")) None Inputs.twin_row]
  /\ id_photo Inputs.full_row = Some (py "uploads/ids/id_7.jpg")
  /\ selfie_photo Inputs.full_row = Some (py "uploads/selfies/selfie_7.jpg").
Proof.
  split; [|split; reflexivity].
  unfold retrofill_photos. unfold bind at 1. rewrite fetch_all_run.
  change (rows (table Inputs.twin_world)) with [Inputs.full_row; Inputs.twin_row].
  destruct (order_of_two Inputs.full_row Inputs.twin_row) as [-> | ->];
    vm_compute; reflexivity.
Qed.

End RetrofillFacts.

(* ===================================================================== *)
(** * The dashboard: dashboard_app.index *)
(* ===================================================================== *)

Module IndexFacts.

Import PyStrFacts db_access dashboard_app PyLib Notions AccessFacts.

(** ** [str] and [int] on a year *)

Lemma digits_of_uint (d : Decimal.uint) :
  forallb isdigit_char (list_ascii_of_string (NilEmpty.string_of_uint d)) = true.
Proof. induction d; cbn; auto. Qed.

Lemma to_uint_not_nil (n : nat) : Nat.to_uint n <> Decimal.Nil.
Proof.
  intros E. pose proof (DecimalNat.Unsigned.of_to n) as H. rewrite E in H.
  cbn in H. subst n. discriminate.
Qed.

Lemma isdigit_str_of_nat (n : nat) : isdigit (str_of_nat n) = true.
Proof.
  unfold isdigit, str_of_nat. pose proof (digits_of_uint (Nat.to_uint n)) as H.
  pose proof (to_uint_not_nil n) as N.
  destruct (Nat.to_uint n); try contradiction; exact H.
Qed.

Lemma int_of_digits_str_of_nat {S} (n : nat) :
  @int_of_digits S (str_of_nat n) = ret n.
Proof.
  unfold int_of_digits, str_of_nat.
  rewrite string_of_list_ascii_of_string, NilEmpty.usu.
  now rewrite DecimalNat.Unsigned.of_to.
Qed.

(** ** Filters that read and do not write *)

Lemma filter_st_reads {S X} (keep : X -> St S bool) (l l' : list X) (s s' : S) :
  (forall x, snd (keep x s) = s) ->
  filter_st keep l s = (Ok l', s') ->
  s' = s
  /\ l' = List.filter (fun x => match fst (keep x s) with
                                | Ok b => b
                                | Raise _ => false
                                end) l.
Proof.
  intros Hread. revert l' s'. induction l as [|x l IH]; intros l' s' H.
  - cbn in H. injection H as <- <-. auto.
  - cbn [filter_st] in H. unfold bind in H.
    pose proof (Hread x) as Hx.
    destruct (keep x s) as [[b|e] s1] eqn:Ek; cbn in Hx; subst s1; [|discriminate].
    destruct (filter_st keep l s) as [[t|e] s2]; [|discriminate].
    destruct (IH t s2 eq_refl) as [-> ->].
    cbn in H. injection H as <- <-. split; [reflexivity|].
    cbn [List.filter]. rewrite Ek. cbn. now destruct b.
Qed.

Lemma filter_map {A B} (f : A -> B) (p : B -> bool) (l : list A) :
  List.filter p (map f l) = map f (List.filter (fun a => p (f a)) l).
Proof.
  induction l as [|a l IH]; cbn; [reflexivity|].
  destruct (p (f a)); cbn; now rewrite IH.
Qed.

Lemma filter_filter {A} (p q : A -> bool) (l : list A) :
  List.filter q (List.filter p l) = List.filter (fun a => p a && q a) l.
Proof.
  induction l as [|a l IH]; cbn; [reflexivity|].
  destruct (p a); cbn; [destruct (q a); cbn|]; now rewrite IH.
Qed.

Lemma status_success_lookups :
  status_success !! py "status" = Some (py "success")
  /\ status_success !! py "name" = None
  /\ status_success !! py "id_number" = None
  /\ status_success !! py "month" = None
  /\ status_success !! py "year" = None
  /\ status_success !! py "date_from" = None
  /\ status_success !! py "date_to" = None.
Proof.
  unfold status_success.
  split; [apply lookup_singleton_eq|].
  repeat split; apply lookup_singleton_ne; cbv; discriminate.
Qed.

Lemma bind_ret {S A B} (a : A) (k : A -> St S B) : bind (ret a) k = k a.
Proof. reflexivity. Qed.

Lemma status_keep_reads (word : str) (v : Verification) (s : World) :
  bind (lower_of (status (fields v))) (fun l => ret (str_eqb l word)) s
  = (match status (fields v) with
     | Some t => Ok (str_eqb (lower t) word)
     | None => Raise AttributeError
     end, s).
Proof. unfold bind, lower_of. now destruct (status (fields v)). Qed.

Lemma year_keep_reads (y : nat) (v : Verification) (s : World) :
  bind (strptime FORMAT (timestamp (fields v))) (fun t => ret (year t =? y)) s
  = (match strptime_result FORMAT (timestamp (fields v)) with
     | Ok t => Ok (year t =? y)
     | Raise e => Raise e
     end, s).
Proof.
  unfold bind, strptime.
  now destruct (strptime_result FORMAT (timestamp (fields v))).
Qed.

(** [index] under [?status=success]: the two filters that are on, then
    the statistics. *)
Lemma index_status_success_run {engine : SqlEngine} (now_year : nat) (w : World) :
  1 <= now_year ->
  index status_success now_year w
  = bind (filter_st
            (fun v => bind (lower_of (status (fields v)))
                           (fun s => ret (str_eqb s (py "success"))))
            (map with_urls
                 (map fetched (order_by_datetime_desc_id_desc (rows (table w))))))
      (fun l1 =>
       bind (filter_st
               (fun v => bind (strptime FORMAT (timestamp (fields v)))
                              (fun t => ret (year t =? now_year)))
               l1)
         (fun l2 =>
          bind (count_status "success" l2) (fun n1 =>
          bind (count_status "failed" l2) (fun n2 =>
          bind (py_max (map (fun v => timestamp (fields v)) l2) (py "N/A"))
               (fun last =>
                ret {| logs := l2; total := length l2; success := n1;
                       failed := n2; last_date := last |})))))
      w.
Proof.
  intros Hy. unfold index, args_get.
  destruct status_success_lookups as [L1 [L2 [L3 [L4 [L5 [L6 L7]]]]]].
  rewrite L1, L2, L3, L4, L5, L6, L7.
  rewrite isdigit_str_of_nat, int_of_digits_str_of_nat.
  change (isdigit (py "0")) with true.
  change (@int_of_digits World (py "0")) with (@ret World nat 0).
  cbv iota. rewrite !bind_ret.
  change (negb (0 =? 0)) with false.
  replace (negb (now_year =? 0)) with true
    by (destruct now_year; [lia | reflexivity]).
  change (negb (str_eqb (lower (py "success")) (py "all"))) with true.
  change (truthy (Some (strip (py "")))) with false.
  change (truthy (Some (py ""))) with false.
  change (lower (py "success")) with (py "success").
  cbv iota.
  unfold bind at 1. rewrite fetch_all_run. reflexivity.
Qed.

Lemma filter_st_returns {S X} (keep : X -> St S bool) (k : X -> bool)
    (l : list X) (s : S) :
  (forall x, In x l -> keep x s = (Ok (k x), s)) ->
  filter_st keep l s = (Ok (List.filter k l), s).
Proof.
  induction l as [|x l IH]; intros Hk; [reflexivity|].
  cbn [filter_st List.filter]. unfold bind.
  rewrite (Hk x (or_introl eq_refl)).
  rewrite IH by (intros y Hy; apply Hk; now right).
  cbn. now destruct (k x).
Qed.

Lemma max_from_returns {S} (items : list (option str)) (best : str) (s : S) :
  (forall i, In i items -> i <> None) ->
  exists m, max_from (Some best) items s = (Ok (Some m), s).
Proof.
  revert best. induction items as [|[i|] items IH]; intros best Hall.
  - now exists best.
  - cbn [max_from].
    destruct (str_ltb best i); apply IH; intros j Hj; apply Hall; now right.
  - exfalso. now apply (Hall None (or_introl eq_refl)).
Qed.

Lemma py_max_returns {S} (items : list (option str)) (default : str) (s : S) :
  (forall i, In i items -> i <> None) ->
  exists m, py_max items default s = (Ok (Some m), s).
Proof.
  destruct items as [|[first|] rest]; intros Hall.
  - now exists default.
  - cbn [py_max]. apply max_from_returns. intros i Hi. apply Hall. now right.
  - exfalso. now apply (Hall None (or_introl eq_refl)).
Qed.

Lemma count_status_returns (word : string) (l : list Verification) (s : World) :
  (forall v, In v l -> status (fields v) <> None) ->
  exists n, count_status word l s = (Ok n, s).
Proof.
  intros Hall. unfold count_status, bind.
  rewrite (filter_st_returns _
             (fun v => match status (fields v) with
                       | Some t => str_eqb (lower t) (py word)
                       | None => false
                       end)).
  - now eexists.
  - intros v Hv. unfold lower_of. specialize (Hall v Hv).
    now destruct (status (fields v)).
Qed.

(** The filters of [index] under [?status=success]: what is left after
    line 103, if nothing was raised on the way. *)
Lemma index_status_success_logs {engine : SqlEngine}
    (now_year : nat) (w w' : World) (page : Page) :
  1 <= now_year ->
  index status_success now_year w = (Ok page, w') ->
  logs page
  = map shown (List.filter (fun r => is_success r && in_year now_year r)
                           (order_by_datetime_desc_id_desc (rows (table w)))).
Proof.
  intros Hy H. rewrite (index_status_success_run _ _ Hy) in H.
  set (all := order_by_datetime_desc_id_desc (rows (table w))) in *.
  unfold bind at 1 in H.
  destruct (filter_st _ (map with_urls (map fetched all)) w)
    as [[l1|e1] s1] eqn:F1; [|discriminate].
  apply filter_st_reads in F1 as [-> ->];
    [|intros v; now rewrite status_keep_reads].
  unfold bind at 1 in H.
  destruct (filter_st _ _ w) as [[l2|e2] s2] eqn:F2; [|discriminate].
  apply filter_st_reads in F2 as [-> ->];
    [|intros v; now rewrite year_keep_reads].
  unfold bind in H.
  destruct (count_status "success" _ w) as [[n1|] s3]; [|discriminate].
  destruct (count_status "failed" _ s3) as [[n2|] s4]; [|discriminate].
  destruct (py_max _ _ s4) as [[last|] s5]; [|discriminate].
  cbn in H. injection H as <- _. cbn [logs].
  rewrite filter_filter, map_map, filter_map. fold shown.
  change (map (fun x => with_urls (fetched x))) with (map shown).
  f_equal. apply List.filter_ext. intros r.
  unfold is_success, in_year, lower_of, ret.
  change (status (fields (with_urls (fetched r)))) with (status r).
  change (timestamp (fields (with_urls (fetched r)))) with (timestamp r).
  destruct (status r) as [t|]; cbn [fst andb]; [|reflexivity].
  now destruct (strptime_result FORMAT (timestamp r)).
Qed.

(** When [index] under [?status=success] returns: no stored status is
    NULL, and the timestamp of every success row reads as a date and
    time. *)
Lemma index_status_success_returns {engine : SqlEngine}
    (now_year : nat) (w : World) :
  1 <= now_year ->
  (forall r, In r (rows (table w)) -> status r <> None) ->
  (forall r, In r (rows (table w)) -> is_success r = true ->
             exists t, strptime_result FORMAT (timestamp r) = Ok t) ->
  exists page, index status_success now_year w = (Ok page, w).
Proof.
  intros Hy Hst Hts. rewrite (index_status_success_run _ _ Hy).
  set (all := order_by_datetime_desc_id_desc (rows (table w))).
  assert (Hall : forall r, In r all -> In r (rows (table w)))
    by (intros r; apply in_order_iff).
  unfold bind at 1.
  rewrite (filter_st_returns _ (fun v => is_success (fields v))).
  2:{ intros v Hv. cbv beta. rewrite status_keep_reads.
      apply in_map_iff in Hv as [v0 [<- Hv]]. apply in_map_iff in Hv as [r [<- Hr]].
      change (status (fields (with_urls (fetched r)))) with (status r).
      unfold is_success.
      change (status (fields (with_urls (fetched r)))) with (status r).
      pose proof (Hst r (Hall r Hr)). now destruct (status r). }
  set (l1 := List.filter _ _).
  assert (H1 : forall v, In v l1 ->
             exists r, In r (rows (table w)) /\ v = shown r /\ is_success r = true).
  { intros v Hv. apply filter_In in Hv as [Hv Hs].
    apply in_map_iff in Hv as [v0 [<- Hv]]. apply in_map_iff in Hv as [r [<- Hr]].
    exists r. split; [now apply Hall|]. split; [reflexivity | exact Hs]. }
  unfold bind at 1.
  rewrite (filter_st_returns _
             (fun v => match strptime_result FORMAT (timestamp (fields v)) with
                       | Ok t => year t =? now_year
                       | Raise _ => false
                       end)).
  2:{ intros v Hv. cbv beta. rewrite year_keep_reads.
      destruct (H1 v Hv) as [r [Hr [-> Hs]]].
      change (timestamp (fields (shown r))) with (timestamp r).
      destruct (Hts r Hr Hs) as [t ->]. reflexivity. }
  set (l2 := List.filter _ l1).
  assert (H2 : forall v, In v l2 ->
             status (fields v) <> None /\ timestamp (fields v) <> None).
  { intros v Hv. apply filter_In in Hv as [Hv Hyr].
    destruct (H1 v Hv) as [r [Hr [-> Hs]]]. split.
    - change (status (fields (shown r))) with (status r). now apply Hst.
    - change (timestamp (fields (shown r))) with (timestamp r).
      destruct (Hts r Hr Hs) as [t Ht].
      destruct (timestamp r); [discriminate | discriminate]. }
  destruct (count_status_returns "success" l2 w) as [n1 E1];
    [intros v Hv; now apply H2|].
  destruct (count_status_returns "failed" l2 w) as [n2 E2];
    [intros v Hv; now apply H2|].
  destruct (py_max_returns (map (fun v => timestamp (fields v)) l2) (py "N/A") w)
    as [m E3].
  { intros i Hi. apply in_map_iff in Hi as [v [<- Hv]]. now apply H2. }
  unfold bind. rewrite E1, E2, E3. now eexists.
Qed.

(** C8, as the code has it.  With [?status=success] and no other
    parameter the year filter is on and set to the current year.  When
    [index] returns, it shows exactly the rows whose stored status equals
    "success" when case is ignored and whose timestamp is of the current
    year, in the order they were read, and no others.  It does return
    when no stored status is NULL and the timestamp of every such success
    row reads as a date and time. *)
Theorem index_status_success_this_year {engine : SqlEngine}
    (now_year : nat) (w : World) :
  1 <= now_year ->
  (forall page w',
     index status_success now_year w = (Ok page, w') ->
     logs page
     = map shown (List.filter (fun r => is_success r && in_year now_year r)
                              (order_by_datetime_desc_id_desc (rows (table w))))
     /\ (forall v, In v (logs page) <->
                   exists r, In r (rows (table w)) /\ v = shown r
                             /\ is_success r = true /\ in_year now_year r = true))
  /\ ((forall r, In r (rows (table w)) -> status r <> None) ->
      (forall r, In r (rows (table w)) -> is_success r = true ->
                 exists t, strptime_result FORMAT (timestamp r) = Ok t) ->
      exists page, index status_success now_year w = (Ok page, w)).
Proof.
  intros Hy. split; [|now apply index_status_success_returns].
  intros page w' H.
  pose proof (index_status_success_logs _ _ _ _ Hy H) as E.
  split; [exact E|]. intros v. rewrite E, in_map_iff. split.
  - intros [r [<- Hr]]. apply filter_In in Hr as [Hr Hk].
    apply andb_true_iff in Hk as [Hs Hyr].
    apply (proj1 (in_order_iff _ _)) in Hr.
    exists r. auto.
  - intros [r [Hr [-> [Hs Hyr]]]]. exists r. split; [reflexivity|].
    apply filter_In. split; [now apply in_order_iff | now rewrite Hs, Hyr].
Qed.

(** The theorem at work in 2026, on a success of this year, a failure of
    this year and a success of last year: the request returns, and only
    the first of the three is shown. *)
Lemma index_status_success_worked :
  (exists page,
     index (engine := Inputs.newest_first) status_success 2026
           Inputs.dashboard_world
     = (Ok page, Inputs.dashboard_world))
  /\ map shown (List.filter (fun r => is_success r && in_year 2026 r)
                  (order_by_datetime_desc_id_desc (SqlEngine := Inputs.newest_first)
                     (rows (table Inputs.dashboard_world))))
     = [shown Inputs.success_2026].
Proof.
  destruct (index_status_success_this_year (engine := Inputs.newest_first)
              2026 Inputs.dashboard_world ltac:(lia)) as [Hshown Hreturns].
  destruct Hreturns as [page Hpage].
  - intros r [<-|[<-|[<-|[]]]]; discriminate.
  - intros r [<-|[<-|[<-|[]]]] _; eexists; vm_compute; reflexivity.
  - split; [now exists page|].
    destruct (Hshown page _ Hpage) as [<- _].
    vm_compute in Hpage. now injection Hpage as <-.
Defined.

(** C8 does not hold as stated: a row whose stored status is "SUCCESS" is
    not shown under [?status=success] when its timestamp is of an earlier
    year, because the year filter defaults to the current year. *)
Lemma index_status_success_hides_last_year :
  In Inputs.success_2025 (rows (table Inputs.last_year_world))
  /\ is_success Inputs.success_2025 = true
  /\ fst (index (engine := Inputs.newest_first) status_success 2026
                Inputs.last_year_world)
     = Ok {| logs := []; total := 0; success := 0; failed := 0;
             last_date := Some (py "N/A") |}.
Proof. vm_compute. repeat split. now left. Qed.

End IndexFacts.

(* ===================================================================== *)
(** * Who changes a row *)
(* ===================================================================== *)

Module FrameFacts.

Import db_access log_to_db dashboard_app PyLib Notions.
Import AccessFacts ReconcileFacts DeleteFacts RetrofillFacts IndexFacts.

Lemma reads_ret {S A} (a : A) : reads (@ret S A a).
Proof. intros s. reflexivity. Qed.

Lemma reads_raise {S A} (e : exn) : reads (@raise S A e).
Proof. intros s. reflexivity. Qed.




Lemma reads_strptime {S} re data : reads (@strptime S re data).
Proof. intros s. reflexivity. Qed.

Lemma reads_lower_of {S} value : reads (@lower_of S value).
Proof. destruct value; [apply reads_ret | apply reads_raise]. Qed.

Lemma reads_int_of_digits {S} s : reads (@int_of_digits S s).
Proof.
  unfold int_of_digits.
  destruct (NilEmpty.uint_of_string _); [apply reads_ret | apply reads_raise].
Qed.

Lemma reads_max_from {S} best items : reads (@max_from S best items).
Proof.
  revert best. induction items as [|[i|] items IH]; intros [b|]; cbn;
    try apply reads_ret; try apply reads_raise; apply IH.
Qed.

Lemma reads_py_max {S} items default : reads (@py_max S items default).
Proof. destruct items; [apply reads_ret | apply reads_max_from]. Qed.

Lemma reads_fetch_all {engine : SqlEngine} : reads fetch_all_verifications.
Proof. intros s. reflexivity. Qed.

Create HintDb reads.
#[local] Hint Resolve reads_ret reads_raise reads_strptime reads_lower_of
  reads_int_of_digits reads_py_max reads_fetch_all : reads.






End FrameFacts.

(* ===================================================================== *)
(** * The line parser: log_to_db.parse_session_block *)
(* ===================================================================== *)

Module ParseFacts.

Import PyStrFacts log_to_db.

Lemma split_go_not_nil (sep : str) (skip : nat) (cur s : str) :
  split_go sep skip cur s <> [].
Proof.
  revert skip cur. induction s as [|c s IH]; intros skip cur; cbn.
  - discriminate.
  - destruct skip; [|apply IH].
    destruct (startswith sep (c :: s)); [discriminate | apply IH].
Qed.

(** [line.split(prefix)[1]] is always there at lines 38-54: a line that
    starts with a prefix (none of them is empty) splits into at least two
    pieces, the first of them empty. *)
Theorem split_after_prefix (c : ascii) (prefix line : str) :
  startswith (c :: prefix) line = true ->
  exists second rest, split (c :: prefix) line = [] :: second :: rest.
Proof.
  intros Hs. destruct line as [|x line]; [discriminate|].
  unfold split. cbn [split_go]. rewrite Hs. cbn [rev].
  pose proof (split_go_not_nil (c :: prefix) (length (c :: prefix) - 1) [] line)
    as Hn.
  destruct (split_go (c :: prefix) (length (c :: prefix) - 1) [] line)
    as [|second rest]; [contradiction|].
  now exists second, rest.
Qed.

(** The theorem at work on a line of the audit log. *)
Lemma split_after_prefix_worked :
  exists second rest,
    split (py "Timestamp:") (py "Timestamp: 2024-03-01 09:00:00")
    = [] :: second :: rest.
Proof.
  apply (split_after_prefix "T"%char (py "imestamp:")
           (py "Timestamp: 2024-03-01 09:00:00")).
  reflexivity.
Defined.

(** ** [split] against [join] *)

Lemma split_go_skip (sep : str) (passed rest cur : str) :
  split_go sep (length passed) cur (passed ++ rest) = split_go sep 0 cur rest.
Proof.
  induction passed as [|x passed IH]; [reflexivity|]. cbn. exact IH.
Qed.

Lemma join_cons (sep x : str) (pieces : list str) :
  pieces <> [] -> join sep (x :: pieces) = x ++ sep ++ join sep pieces.
Proof. destruct pieces; [contradiction | reflexivity]. Qed.

Lemma join_split_go (c : ascii) (prefix : str) (n : nat) (s cur : str) :
  length s <= n ->
  join (c :: prefix) (split_go (c :: prefix) 0 cur s) = rev cur ++ s.
Proof.
  revert s cur. induction n as [|n IH]; intros s cur Hn.
  - destruct s; [|cbn in Hn; lia]. cbn. now rewrite app_nil_r.
  - destruct s as [|x s]; [cbn; now rewrite app_nil_r|].
    cbn [split_go].
    destruct (startswith (c :: prefix) (x :: s)) eqn:Hs.
    + apply startswith_app in Hs as [rest Hrest].
      cbn in Hrest. injection Hrest as -> ->.
      replace (length (c :: prefix) - 1) with (length prefix) by (cbn; lia).
      rewrite split_go_skip.
      rewrite join_cons by apply split_go_not_nil.
      rewrite IH by (cbn in Hn; rewrite length_app in Hn; lia).
      reflexivity.
    + rewrite IH by (cbn in Hn; lia). cbn [rev].
      now rewrite <- app_assoc.
Qed.

(** Splitting on a separator that is not empty and joining the pieces
    with it gives the text back, so [split] loses and invents nothing. *)
Lemma join_split (c : ascii) (prefix s : str) :
  join (c :: prefix) (split (c :: prefix) s) = s.
Proof. unfold split. now rewrite (join_split_go c prefix (length s)). Qed.

End ParseFacts.

(* ===================================================================== *)
(** * Facts about [in] and [split] *)
(* ===================================================================== *)

Module ContainsFacts.

Import PyStrFacts ParseFacts.

Lemma contains_cons (n : str) (c : ascii) (s : str) :
  contains n (c :: s) = startswith n (c :: s) || contains n s.
Proof. reflexivity. Qed.

Lemma contains_iff (n s : str) :
  contains n s = true <-> exists pre post, s = pre ++ n ++ post.
Proof.
  split.
  - induction s as [|c s IH].
    + cbn. rewrite orb_false_r. intros H.
      apply startswith_app in H as [rest H]. now exists [], rest.
    + rewrite contains_cons. intros H. apply orb_true_iff in H as [H|H].
      * apply startswith_app in H as [rest H]. now exists [], rest.
      * destruct (IH H) as [pre [post ->]]. now exists (c :: pre), post.
  - intros [pre [post ->]]. induction pre as [|c pre IH].
    + cbn [app].
      assert (H : startswith n (n ++ post) = true)
        by (apply startswith_app; now exists post).
      destruct (n ++ post); cbn; cbn in H; now rewrite H.
    + cbn [app]. rewrite contains_cons, IH. apply orb_true_r.
Qed.

Lemma contains_inside (n a p b : str) :
  contains n p = true -> contains n (a ++ p ++ b) = true.
Proof.
  intros H. apply contains_iff in H as [pre [post ->]].
  apply contains_iff. exists (a ++ pre), (post ++ b).
  now rewrite <- !app_assoc.
Qed.

Lemma in_join (sep : str) (pieces : list str) (p : str) :
  In p pieces -> exists a b, join sep pieces = a ++ p ++ b.
Proof.
  induction pieces as [|x pieces IH]; [intros []|].
  intros [->|Hin].
  - destruct pieces as [|y pieces].
    + exists [], []. cbn. now rewrite app_nil_r.
    + exists [], (sep ++ join sep (y :: pieces)). reflexivity.
  - destruct pieces as [|y pieces]; [destruct Hin|].
    destruct (IH Hin) as [a [b E]].
    exists (x ++ sep ++ a), b.
    rewrite join_cons by discriminate. rewrite E.
    now rewrite <- !app_assoc.
Qed.

(** What a piece of a split contains, the whole text contains. *)
Lemma contains_piece (c : ascii) (prefix n s p : str) :
  In p (split (c :: prefix) s) -> contains n p = true -> contains n s = true.
Proof.
  intros Hin Hc. destruct (in_join (c :: prefix) _ _ Hin) as [a [b E]].
  rewrite join_split in E. rewrite E. now apply contains_inside.
Qed.

Lemma absent_piece (c : ascii) (prefix n s p : str) :
  contains n s = false -> In p (split (c :: prefix) s) -> contains n p = false.
Proof.
  intros Hs Hin. destruct (contains n p) eqn:E; [|reflexivity].
  rewrite (contains_piece c prefix n s p Hin E) in Hs. discriminate.
Qed.

End ContainsFacts.

(* ===================================================================== *)
(** * Reconciliation, run again and run on other logs *)
(* ===================================================================== *)

Module ReconcileMore.

Import PyStrFacts db_access log_to_db Notions MoreNotions.
Import AccessFacts ReconcileFacts ParseFacts ContainsFacts.

(** ** A second run *)

Lemma round_noop {engine : SqlEngine} (block : str) (w : World) :
  covered w block -> reconcile_block block w = (Ok tt, w).
Proof.
  intros Hc. rewrite reconcile_block_run.
  destruct (is_session_block block) eqn:Hs; [|reflexivity]. cbn [andb].
  destruct (Hc Hs) as [r [Hr Hp]].
  assert (Hex : existsb (fun log => same_session log (parse_session_block block))
                  (map fetched (order_by_datetime_desc_id_desc (rows (table w))))
                = true).
  { apply existsb_exists. exists (fetched r). split.
    - apply in_map, in_order_iff, Hr.
    - now apply same_session_fetched. }
  now rewrite Hex.
Qed.

Lemma round_covers {engine : SqlEngine} (block : str) (w : World) :
  covered (snd (reconcile_block block w)) block.
Proof.
  intros Hs. rewrite reconcile_block_run, Hs. cbn [andb].
  destruct (existsb _ _) eqn:Hex; cbn [negb].
  - apply existsb_exists in Hex as [v [Hv Hsame]].
    apply in_map_iff in Hv as [r [<- Hr]].
    apply (proj1 (in_order_iff _ _)) in Hr.
    exists r. split; [exact Hr | now apply same_session_fetched].
  - destruct (insert_into_db_run (parse_session_block block) w) as [r [-> Hp]].
    exists r. split; [|exact Hp]. cbn. apply in_or_app. right. now left.
Qed.

Lemma covered_grows (w w' : World) (new : list Row) (block : str) :
  rows (table w') = rows (table w) ++ new -> covered w block -> covered w' block.
Proof.
  intros E Hc Hs. destruct (Hc Hs) as [r [Hr Hp]].
  exists r. split; [|exact Hp]. rewrite E. apply in_or_app. now left.
Qed.

Lemma rounds_cover {engine : SqlEngine} (blocks : list str) (w : World) :
  forall b, In b blocks -> covered (snd (for_each blocks reconcile_block w)) b.
Proof.
  revert w. induction blocks as [|b0 blocks IH]; intros w b Hb; [destruct Hb|].
  cbn [for_each]. unfold bind.
  pose proof (round_covers b0 w) as C0.
  destruct (round_adds_fresh b0 w) as [n1 [R1 _]].
  destruct (reconcile_block b0 w) as [[[]|e] w1]; cbn in R1, C0; [|discriminate].
  destruct Hb as [<-|Hb]; [|now apply IH].
  destruct (for_each_rounds blocks w1) as [n2 [_ [T2 _]]].
  eapply covered_grows; eassumption.
Qed.

Lemma rounds_noop {engine : SqlEngine} (blocks : list str) (w : World) :
  (forall b, In b blocks -> covered w b) ->
  for_each blocks reconcile_block w = (Ok tt, w).
Proof.
  induction blocks as [|b0 blocks IH]; intros Hall; [reflexivity|].
  cbn [for_each]. unfold bind.
  rewrite round_noop by (apply Hall; now left).
  apply IH. intros b Hb. apply Hall. now right.
Qed.

Lemma read_text_of_fs (p : str) (w w' : World) :
  fs w' = fs w -> fst (read_text p w') = fst (read_text p w).
Proof.
  intros E. unfold read_text, bind, get. rewrite E.
  destruct (fs w !! p) as [f|]; [destruct (text f)|]; reflexivity.
Qed.

(** Reconciling a second time changes nothing: after one run of
    [process_log_file], a run on the same audit log leaves the table, the
    files and the console exactly as the first run left them. *)
Theorem process_log_file_again {engine : SqlEngine} (w : World) :
  snd (process_log_file (snd (process_log_file w)))
  = snd (process_log_file w).
Proof.
  set (w1 := snd (process_log_file w)).
  assert (H1 : (exists content,
                  read_text LOG_FILE w = (Ok content, w)
                  /\ w1 = snd (for_each (split SESSION_MARK content) reconcile_block w))
               \/ (w1 = w /\ exists e, fst (read_text LOG_FILE w) = Raise e)).
  { subst w1. unfold process_log_file, bind.
    pose proof (read_text_state LOG_FILE w) as Hs.
    destruct (read_text LOG_FILE w) as [[content|e] w0]; cbn in Hs; subst w0.
    - left. now exists content.
    - right. split; [reflexivity | now exists e]. }
  destruct H1 as [[content [Hr Hw1]] | [Hw1 [e He]]].
  - assert (Hfs : fs w1 = fs w).
    { rewrite Hw1.
      now destruct (for_each_rounds (split SESSION_MARK content) w) as [_ [_ [_ [F _]]]]. }
    pose proof (read_text_of_fs LOG_FILE w w1 Hfs) as Hread.
    pose proof (read_text_state LOG_FILE w1) as Hs1.
    rewrite Hr in Hread. cbn [fst] in Hread.
    unfold process_log_file at 1. unfold bind.
    destruct (read_text LOG_FILE w1) as [r1 w0]. cbn [fst snd] in Hread, Hs1.
    subst r1 w0.
    rewrite rounds_noop; [reflexivity|].
    intros b Hb. rewrite Hw1. now apply rounds_cover.
  - rewrite Hw1. unfold process_log_file, bind.
    pose proof (read_text_state LOG_FILE w) as Hs.
    destruct (read_text LOG_FILE w) as [[content|e'] w0]; cbn in Hs, He; subst w0;
      [discriminate | reflexivity].
Qed.

(** ** No audit log *)

(** Without an audit log in the working directory neither pass does
    anything: [process_log_file] and [retrofill_photos] both end in
    [FileNotFoundError], with the table, the files and the console as
    they were (no "Retrofill complete" line is printed). *)
Theorem passes_need_the_log {engine : SqlEngine} (w : World) :
  fs w !! LOG_FILE = None ->
  process_log_file w = (Raise FileNotFoundError, w)
  /\ retrofill_photos w = (Raise FileNotFoundError, w).
Proof.
  intros Hno. split.
  - unfold process_log_file, read_text, bind, get. now rewrite Hno.
  - unfold retrofill_photos, bind. rewrite fetch_all_run.
    unfold read_text, bind, get. now rewrite Hno.
Qed.

(** The theorem at work on a table with no log beside it. *)
Lemma passes_need_the_log_worked :
  process_log_file (engine := Inputs.newest_first) MoreInputs.no_log_world
  = (Raise FileNotFoundError, MoreInputs.no_log_world)
  /\ retrofill_photos (engine := Inputs.newest_first) MoreInputs.no_log_world
     = (Raise FileNotFoundError, MoreInputs.no_log_world).
Proof.
  apply (passes_need_the_log (engine := Inputs.newest_first)
           MoreInputs.no_log_world).
  reflexivity.
Defined.

(** ** A log without sessions *)

Lemma no_session_blocks (content : str) :
  contains (py "Timestamp:") content = false
  \/ contains (py "ClientID:") content = false ->
  forall b, In b (split SESSION_MARK content) -> is_session_block b = false.
Proof.
  intros H b Hb. unfold is_session_block. apply andb_false_iff.
  destruct H as [H|H]; [left | right];
    exact (absent_piece "-"%char _ _ content b H Hb).
Qed.

Lemma rounds_skip {engine : SqlEngine} (blocks : list str) (w : World) :
  (forall b, In b blocks -> is_session_block b = false) ->
  for_each blocks reconcile_block w = (Ok tt, w).
Proof.
  intros H. apply rounds_noop. intros b Hb Hs.
  rewrite (H b Hb) in Hs. discriminate.
Qed.

Lemma sum_each_skip (logs : list Verification) (blocks : list str) (w : World) :
  (forall b, In b blocks -> is_session_block b = false) ->
  sum_each blocks (retrofill_block logs) w = (Ok 0, w).
Proof.
  induction blocks as [|b blocks IH]; intros H; [reflexivity|].
  cbn [sum_each]. unfold bind. unfold retrofill_block at 1.
  rewrite (H b) by now left. cbn.
  rewrite IH by (intros b' Hb'; apply H; now right). reflexivity.
Qed.

Lemma sessionless_run {engine : SqlEngine}
    (w : World) (f : File) (content : str) :
  fs w !! LOG_FILE = Some f -> text f = Some content ->
  contains (py "Timestamp:") content = false
  \/ contains (py "ClientID:") content = false ->
  process_log_file w = (Ok tt, w)
  /\ retrofill_photos w = (Ok tt, printed (RetrofillComplete 0) w).
Proof.
  intros Hf Ht Hno.
  assert (Hr : read_text LOG_FILE w = (Ok content, w))
    by (unfold read_text, bind, get; now rewrite Hf, Ht).
  pose proof (no_session_blocks content Hno) as Hskip.
  split.
  - unfold process_log_file, bind. rewrite Hr. now apply rounds_skip.
  - unfold retrofill_photos, bind. rewrite fetch_all_run, Hr.
    rewrite sum_each_skip by exact Hskip. reflexivity.
Qed.

(** A readable audit log in which the text "Timestamp:" or the text
    "ClientID:" occurs nowhere holds no session for either pass:
    [process_log_file] inserts nothing and [retrofill_photos] updates
    nothing and reports 0 records. *)
Theorem log_without_sessions {engine : SqlEngine}
    (w : World) (f : File) (content : str) :
  fs w !! LOG_FILE = Some f -> text f = Some content ->
  contains (py "Timestamp:") content = false
  \/ contains (py "ClientID:") content = false ->
  process_log_file w = (Ok tt, w)
  /\ retrofill_photos w = (Ok tt, printed (RetrofillComplete 0) w).
Proof.
  intros Hf Ht Hno.
  assert (Hr : read_text LOG_FILE w = (Ok content, w))
    by (unfold read_text, bind, get; now rewrite Hf, Ht).
  split.
  - unfold process_log_file, bind. rewrite Hr.
    apply rounds_skip. now apply no_session_blocks.
  - unfold retrofill_photos, bind. rewrite fetch_all_run, Hr.
    rewrite sum_each_skip by now apply no_session_blocks.
    reflexivity.
Qed.

(** The theorem at work on a log in the layout the live verification
    writes, which never has a "ClientID:" line. *)
Lemma log_without_sessions_worked :
  process_log_file (engine := Inputs.newest_first) MoreInputs.live_world
  = (Ok tt, MoreInputs.live_world)
  /\ retrofill_photos (engine := Inputs.newest_first) MoreInputs.live_world
     = (Ok tt, printed (RetrofillComplete 0) MoreInputs.live_world).
Proof.
  apply (log_without_sessions (engine := Inputs.newest_first)
           MoreInputs.live_world (Inputs.readable MoreInputs.live_log)
           MoreInputs.live_log).
  - reflexivity.
  - reflexivity.
  - right. reflexivity.
Defined.

End ReconcileMore.

(* ===================================================================== *)
(** * Pruning the audit log, on logs it was not written for *)
(* ===================================================================== *)

Module PruneFacts.

Import PyStrFacts db_access Notions DeleteFacts ContainsFacts.

Lemma split_go_whole (sep cur s : str) :
  contains sep s = false -> split_go sep 0 cur s = [rev cur ++ s].
Proof.
  revert cur. induction s as [|c s IH]; intros cur H.
  - cbn. now rewrite app_nil_r.
  - rewrite contains_cons in H. apply orb_false_iff in H as [H1 H2].
    cbn [split_go]. rewrite H1, IH by exact H2. cbn [rev].
    now rewrite <- app_assoc.
Qed.

(** A text without the separator is one piece. *)
Lemma split_whole (sep s : str) : contains sep s = false -> split sep s = [s].
Proof. intros H. unfold split. now rewrite split_go_whole. Qed.

Lemma in_drop_while (f : ascii -> bool) (c : ascii) (s : str) :
  In c s -> f c = false -> In c (drop_while f s).
Proof.
  induction s as [|x s IH]; [intros []|]. intros Hin Hf. cbn.
  destruct (f x) eqn:E; [|exact Hin].
  destruct Hin as [->|Hin]; [congruence | now apply IH].
Qed.

Lemma in_strip (c : ascii) (s : str) :
  In c s -> isspace c = false -> In c (strip s).
Proof.
  intros Hin Hc. unfold strip, rstrip, lstrip.
  apply (proj1 (in_rev _ _)). apply in_drop_while; [|exact Hc].
  apply (proj1 (in_rev _ _)). now apply in_drop_while.
Qed.

Lemma mentions_nonblank (id_number block : str) :
  mentions id_number block = true -> nonblank block = true.
Proof.
  intros H. apply contains_iff in H as [pre [post ->]].
  assert (Hin : In "I"%char (pre ++ (py "ID Number: " ++ id_number) ++ post)).
  { apply in_or_app. right. now left. }
  apply in_strip in Hin; [|reflexivity].
  unfold nonblank.
  destruct (strip (pre ++ (py "ID Number: " ++ id_number) ++ post));
    [destruct Hin | reflexivity].
Qed.

(** In an audit log that has no line of fifty "=" followed by an empty
    line, which is the layout [xds_main] writes, the whole log is one
    block to the pruning: removing the blocks of an ID number that occurs
    anywhere in it empties the log, every other entry included, and
    reports one block removed. *)
Theorem pruning_undelimited_log_empties_it {site : Deployment}
    (id_number : str) (w : World) (f : File) (content : str) :
  fs w !! LOG_FILE = Some f -> text f = Some content -> writable f = true ->
  contains BLOCK_END content = false ->
  contains (py "ID Number: " ++ id_number) content = true ->
  _delete_audit_blocks_by_id_number id_number None w
  = (Ok 1, rewritten LOG_FILE [] f w).
Proof.
  intros Hf Ht Hw Hno Hm.
  rewrite delete_audit_blocks_run.
  change (path_or_default None) with LOG_FILE.
  rewrite Hf, Ht, Hw.
  unfold removed_blocks, kept_blocks, blocks_of.
  rewrite (split_whole _ _ Hno). cbn [List.filter].
  fold (mentions id_number content) in Hm.
  rewrite Hm, (mentions_nonblank _ _ Hm). reflexivity.
Qed.

(** The theorem at work: one client's number is removed from a log of
    the live layout, and the log is empty afterwards. *)
Lemma pruning_undelimited_log_worked :
  _delete_audit_blocks_by_id_number (site := Inputs.installed_in_srv)
    (py "8001015009087") None MoreInputs.deployed_live_world
  = (Ok 1, rewritten (LOG_FILE (site := Inputs.installed_in_srv)) []
             (Inputs.readable MoreInputs.live_log)
             MoreInputs.deployed_live_world).
Proof.
  apply (pruning_undelimited_log_empties_it (site := Inputs.installed_in_srv)
           (py "8001015009087") MoreInputs.deployed_live_world
           (Inputs.readable MoreInputs.live_log) MoreInputs.live_log);
    reflexivity.
Defined.

Lemma mentions_shorter (id_number more block : str) :
  mentions (id_number ++ more) block = true -> mentions id_number block = true.
Proof.
  unfold mentions. intros H. apply contains_iff in H as [pre [post ->]].
  apply contains_iff. exists pre, (more ++ post).
  now rewrite <- !app_assoc.
Qed.

(** The pruning matches by containment, so it takes more than the
    number asked for: when it rewrites the log, the new text is made of
    blocks of the old one, and none of them mentions any ID number that
    begins with the given one. *)
Theorem pruning_takes_longer_numbers {site : Deployment}
    (id_number : str) (log_path : option str)
    (w : World) (f : File) (content : str) :
  fs w !! path_or_default log_path = Some f ->
  text f = Some content -> writable f = true ->
  exists kept,
    snd (_delete_audit_blocks_by_id_number id_number log_path w)
    = rewritten (path_or_default log_path) (rejoined kept) f w
    /\ (forall b, In b kept -> In b (blocks_of content))
    /\ (forall b more, In b kept -> mentions (id_number ++ more) b = false).
Proof.
  intros Hf Ht Hw. rewrite delete_audit_blocks_run, Hf, Ht, Hw.
  exists (kept_blocks id_number content). split; [reflexivity|].
  split.
  - intros b Hb. unfold kept_blocks in Hb. now apply filter_In in Hb.
  - intros b more Hb. unfold kept_blocks in Hb.
    apply filter_In in Hb as [_ Hb]. apply andb_true_iff in Hb as [_ Hb].
    destruct (mentions (id_number ++ more) b) eqn:E; [|reflexivity].
    rewrite (mentions_shorter _ _ _ E) in Hb. discriminate.
Qed.

(** The theorem at work on the deployed log of the live layout. *)
Lemma pruning_takes_longer_numbers_worked :
  exists kept,
    snd (_delete_audit_blocks_by_id_number (site := Inputs.installed_in_srv)
           (py "800101") None MoreInputs.deployed_live_world)
    = rewritten (path_or_default (site := Inputs.installed_in_srv) None)
                (rejoined kept) (Inputs.readable MoreInputs.live_log)
                MoreInputs.deployed_live_world
    /\ (forall b, In b kept -> In b (blocks_of MoreInputs.live_log))
    /\ (forall b more, In b kept -> mentions (py "800101" ++ more) b = false).
Proof.
  apply (pruning_takes_longer_numbers (site := Inputs.installed_in_srv)
           (py "800101") None MoreInputs.deployed_live_world
           (Inputs.readable MoreInputs.live_log) MoreInputs.live_log);
    reflexivity.
Defined.

End PruneFacts.

(* ===================================================================== *)
(** * Polling: the time it takes and the sleep it cannot take *)
(* ===================================================================== *)

Module PollMore.

Import xds_main Notions PollFacts.

(** Polling that times out has slept after every attempt, the last one
    included: with a sleep length that is not negative and no usable
    reply among the next [max_attempts], it returns only after
    [max_attempts] sleeps of [interval] seconds each. *)
Theorem poll_dov_result_sleeps_every_round
    (ticket enquiry_id : str) (max_attempts interval : Z) (s : Service) :
  (0 <= interval)%Z ->
  (forall j, (Z.of_nat j < max_attempts)%Z ->
             usable (reply s ticket enquiry_id (calls s + j)) = None) ->
  slept (snd (poll_dov_result ticket enquiry_id max_attempts interval s))
  = slept s ++ repeat interval (Z.to_nat max_attempts).
Proof.
  intros Hi Hnone. unfold poll_dov_result.
  rewrite (poll_loop_exhausted ticket enquiry_id interval Hi); [reflexivity|].
  intros j Hj. apply Hnone. lia.
Qed.

(** The theorem at work: three attempts ten seconds apart against a
    service that never answers sleep three times. *)
Lemma poll_dov_result_sleeps_worked :
  slept (snd (poll_dov_result (py "ticket") (py "42") 3 10
                MoreInputs.silent_service))
  = slept MoreInputs.silent_service ++ repeat 10%Z (Z.to_nat 3).
Proof.
  apply (poll_dov_result_sleeps_every_round (py "ticket") (py "42") 3 10
           MoreInputs.silent_service).
  - lia.
  - intros j _. reflexivity.
Defined.

(** A negative [interval] is only met when a sleep is due: if at least
    one attempt is allowed and the first reply is no usable result,
    [poll_dov_result] ends in the [ValueError] of [time.sleep] after that
    one call, instead of polling on or returning the timeout text. *)
Theorem poll_dov_result_negative_interval
    (ticket enquiry_id : str) (max_attempts interval : Z) (s : Service) :
  (interval < 0)%Z -> (0 < max_attempts)%Z ->
  usable (reply s ticket enquiry_id (calls s)) = None ->
  poll_dov_result ticket enquiry_id max_attempts interval s
  = (Raise ValueError,
     {| reply := reply s; calls := S (calls s); slept := slept s |}).
Proof.
  intros Hi Hm Hu. unfold poll_dov_result.
  destruct (Z.to_nat max_attempts) as [|attempts] eqn:E; [lia|].
  cbn [poll_loop].
  unfold bind, try_except, get_dov_result, ret, time_sleep, raise.
  assert (Hs : (interval <? 0)%Z = true) by lia.
  destruct (reply s ticket enquiry_id (calls s)) as [e|[text|]]; cbn in Hu |- *.
  - now rewrite Hs.
  - destruct (truthy (Some text) && negb (contains (py "<NoResult>") text)) eqn:R;
      [unfold is_result in Hu; rewrite R in Hu; discriminate|].
    unfold is_result. rewrite R, Hs. reflexivity.
  - now rewrite Hs.
Qed.

(** The theorem at work against the service that never answers. *)
Lemma poll_dov_result_negative_interval_worked :
  poll_dov_result (py "ticket") (py "42") 30 (-1) MoreInputs.silent_service
  = (Raise ValueError,
     {| reply := reply MoreInputs.silent_service;
        calls := S (calls MoreInputs.silent_service);
        slept := slept MoreInputs.silent_service |}).
Proof.
  apply (poll_dov_result_negative_interval (py "ticket") (py "42") 30 (-1)
           MoreInputs.silent_service).
  - lia.
  - lia.
  - reflexivity.
Defined.

End PollMore.

(* ===================================================================== *)
(** * The dashboard, for any query string *)
(* ===================================================================== *)

Module IndexMore.

Import PyStrFacts db_access PyLib dashboard_app Notions.
Import AccessFacts IndexFacts FrameFacts.

Lemma bind_ok {S A B} (m : St S A) (k : A -> St S B) (s s' : S) (b : B) :
  bind m k s = (Ok b, s') ->
  exists a s1, m s = (Ok a, s1) /\ k a s1 = (Ok b, s').
Proof. unfold bind. destruct (m s) as [[a|e] s1]; [eauto | discriminate]. Qed.

Lemma filter_st_incl {S X} (keep : X -> St S bool) (l l' : list X) (s s' : S) :
  filter_st keep l s = (Ok l', s') -> incl l' l.
Proof.
  revert l' s s'. induction l as [|x l IH]; intros l' s s' H.
  - cbn in H. injection H as <- _. apply incl_refl.
  - cbn [filter_st] in H.
    apply bind_ok in H as (k & s1 & _ & H).
    apply bind_ok in H as (t & s2 & Ht & H).
    injection H as <- _. apply IH in Ht.
    destruct k; [|now apply incl_tl].
    intros y [->|Hy]; [now left | right; now apply Ht].
Qed.

(** The stages of lines 82-103, each of which only takes records away. *)
Lemma stage_incl {S X} (c : bool) (keep : X -> St S bool)
    (l l' : list X) (s s' : S) :
  (if c then filter_st keep l else ret l) s = (Ok l', s') -> incl l' l.
Proof.
  destruct c; [apply filter_st_incl|].
  intros H. injection H as <- _. apply incl_refl.
Qed.

Lemma dated_stage_incl {S X} (c : bool) (date : option str)
    (keep : datetime -> X -> St S bool) (l l' : list X) (s s' : S) :
  (if c
   then try_except
          (bind (strptime re_date date) (fun d => filter_st (keep d) l))
          (fun _ => ret l)
   else ret l) s = (Ok l', s') ->
  incl l' l.
Proof.
  destruct c; [|intros H; injection H as <- _; apply incl_refl].
  unfold try_except, bind, strptime.
  destruct (strptime_result re_date date) as [d|e].
  - destruct (filter_st (keep d) l s) as [[t|e] s1] eqn:E.
    + intros H. injection H as <- _. now apply filter_st_incl in E.
    + intros H. injection H as <- _. apply incl_refl.
  - intros H. injection H as <- _. apply incl_refl.
Qed.

Lemma count_status_run (word : string) (l : list Verification) (n : nat)
    (s s' : World) :
  count_status word l s = (Ok n, s') ->
  s' = s
  /\ n = length (List.filter
                   (fun v => match status (fields v) with
                             | Some t => str_eqb (lower t) (py word)
                             | None => false
                             end) l).
Proof.
  unfold count_status. intros H.
  apply bind_ok in H as (hits & s1 & Hf & H). injection H as <- <-.
  apply filter_st_reads in Hf as [-> ->].
  - split; [reflexivity|]. f_equal. apply filter_ext. intros v.
    rewrite status_keep_reads. now destruct (status (fields v)).
  - intros v. now rewrite status_keep_reads.
Qed.

Lemma disjoint_counts {X} (p q : X -> bool) (l : list X) :
  (forall x, p x = true -> q x = false) ->
  length (List.filter p l) + length (List.filter q l) <= length l.
Proof.
  intros D. induction l as [|x l IH]; [cbn; lia|].
  cbn [List.filter]. destruct (p x) eqn:P.
  - rewrite (D x P). cbn. lia.
  - destruct (q x); cbn; lia.
Qed.

Lemma digits_stage_reads {S} (c : bool) (t : str) (d : nat) (s : S) :
  snd ((if c then int_of_digits t else ret d) s) = s.
Proof. destruct c; [apply reads_int_of_digits | reflexivity]. Qed.

(** Whatever the query string, a page that [index] returns is consistent
    with the table: every record shown is a row of the table as
    [fetch_all_verifications] and [_to_uploads_url] render it, [total] is
    the number of records shown, and the successes and failures counted
    together are no more than that. *)
Theorem index_page_consistent {engine : SqlEngine}
    (args : gmap str str) (now_year : nat) (w w' : World) (page : Page) :
  index args now_year w = (Ok page, w') ->
  (forall v, In v (logs page) ->
     exists r, In r (rows (table w)) /\ v = with_urls (fetched r))
  /\ total page = length (logs page)
  /\ success page + failed page <= total page.
Proof.
  unfold index. intros H.
  apply bind_ok in H as (fm & s1 & Hm & H).
  apply bind_ok in H as (fy & s2 & Hy & H).
  apply bind_ok in H as (l0 & s3 & H0 & H).
  assert (E1 : s1 = w).
  { erewrite <- (digits_stage_reads _ _ _ w). now rewrite Hm. }
  assert (E2 : s2 = s1).
  { erewrite <- (digits_stage_reads _ _ _ s1). now rewrite Hy. }
  subst s2 s1.
  apply bind_ok in H as (l1 & s4 & H1 & H).
  apply bind_ok in H as (l2 & s5 & H2 & H).
  apply bind_ok in H as (l3 & s6 & H3 & H).
  apply bind_ok in H as (l4 & s7 & H4 & H).
  apply bind_ok in H as (l5 & s8 & H5 & H).
  apply bind_ok in H as (l6 & s9 & H6 & H).
  apply bind_ok in H as (l7 & s10 & H7 & H).
  apply bind_ok in H as (n1 & s11 & Hn1 & H).
  apply bind_ok in H as (n2 & s12 & Hn2 & H).
  apply bind_ok in H as (last & s13 & _ & H).
  injection H as <- _. cbn [logs total success failed].
  apply stage_incl in H1, H2, H4, H5.
  apply dated_stage_incl in H6, H7.
  assert (I3 : incl l3 l2).
  { destruct (truthy (Some (strip (args_get args "id_number" ""))));
      injection H3 as <- _; [|apply incl_refl].
    intros v Hv. now apply filter_In in Hv. }
  split; [|split; [reflexivity|]].
  - intros v Hv.
    assert (Hin : In v (map with_urls l0)) by auto 10.
    apply in_map_iff in Hin as [v0 [<- Hv0]].
    pose proof (fetch_all_run w) as R. rewrite H0 in R.
    injection R as -> ->.
    apply in_map_iff in Hv0 as [r [<- Hr]].
    apply (proj1 (in_order_iff _ _)) in Hr.
    exists r. split; [exact Hr | reflexivity].
  - apply count_status_run in Hn1 as [-> ->].
    apply count_status_run in Hn2 as [-> ->].
    apply disjoint_counts. intros v.
    destruct (status (fields v)) as [t|]; [|discriminate].
    intros E. apply str_eqb_eq in E. rewrite E. reflexivity.
Qed.

(** The theorem at work on the dashboard of 2026 with no query string. *)
Lemma index_page_consistent_worked :
  (forall v, In v (logs MoreInputs.page_2026) ->
     exists r, In r (rows (table Inputs.dashboard_world))
               /\ v = with_urls (fetched r))
  /\ total MoreInputs.page_2026 = length (logs MoreInputs.page_2026)
  /\ success MoreInputs.page_2026 + failed MoreInputs.page_2026
     <= total MoreInputs.page_2026.
Proof.
  apply (index_page_consistent (engine := Inputs.newest_first)
           ∅ 2026 Inputs.dashboard_world Inputs.dashboard_world
           MoreInputs.page_2026).
  vm_compute. reflexivity.
Defined.

(** ** A timestamp the dashboard cannot read *)

Lemma filter_st_raises {S X} (keep : X -> St S bool) (l : list X) (s : S)
    (x : X) (e : exn) :
  (forall y, snd (keep y s) = s) ->
  In x l -> fst (keep x s) = Raise e ->
  exists e', filter_st keep l s = (Raise e', s).
Proof.
  intros Hread Hin Hx. induction l as [|y l IH]; [destruct Hin|].
  cbn [filter_st]. unfold bind.
  pose proof (Hread y) as Hy.
  destruct (keep y s) as [[b|e1] s1] eqn:Ek; cbn in Hy; subst s1.
  - destruct Hin as [->|Hin]; [rewrite Ek in Hx; discriminate|].
    destruct (IH Hin) as [e' ->]. now exists e'.
  - now exists e1.
Qed.

Lemma bind_raises {S A B} (m : St S A) (k : A -> St S B) (s s' : S) (e : exn) :
  m s = (Raise e, s') -> bind m k s = (Raise e, s').
Proof. intros H. unfold bind. now rewrite H. Qed.

Lemma index_default_run {engine : SqlEngine} (now_year : nat) (w : World) :
  1 <= now_year ->
  index ∅ now_year w
  = bind (filter_st
            (fun v => bind (strptime FORMAT (timestamp (fields v)))
                           (fun t => ret (year t =? now_year)))
            (map with_urls
                 (map fetched (order_by_datetime_desc_id_desc (rows (table w))))))
         (fun l2 =>
          bind (count_status "success" l2) (fun n1 =>
          bind (count_status "failed" l2) (fun n2 =>
          bind (py_max (map (fun v => timestamp (fields v)) l2) (py "N/A"))
               (fun last =>
                ret {| logs := l2; total := length l2; success := n1;
                       failed := n2; last_date := last |}))))
         w.
Proof.
  intros Hy. unfold index, args_get.
  rewrite !lookup_empty.
  rewrite isdigit_str_of_nat, int_of_digits_str_of_nat.
  change (isdigit (py "0")) with true.
  change (@int_of_digits World (py "0")) with (@ret World nat 0).
  cbv iota. rewrite !bind_ret.
  change (negb (0 =? 0)) with false.
  replace (negb (now_year =? 0)) with true
    by (destruct now_year; [lia | reflexivity]).
  change (negb (str_eqb (lower (py "all")) (py "all"))) with false.
  change (truthy (Some (strip (py "")))) with false.
  change (truthy (Some (py ""))) with false.
  cbv iota.
  unfold bind at 1. rewrite fetch_all_run. rewrite !bind_ret. reflexivity.
Qed.

(** Opened without a query string, the dashboard filters by the current
    year and so parses the timestamp of every row: one row whose
    timestamp is NULL or is not of the form "%Y-%m-%d %H:%M:%S" makes
    [index] end in an exception instead of a page. *)
Theorem index_needs_parsable_timestamps {engine : SqlEngine}
    (now_year : nat) (w : World) (r : Row) (e : exn) :
  1 <= now_year ->
  In r (rows (table w)) ->
  strptime_result FORMAT (timestamp r) = Raise e ->
  exists e', index ∅ now_year w = (Raise e', w).
Proof.
  intros Hy Hr He. rewrite (index_default_run now_year w Hy).
  destruct (filter_st_raises
              (fun v => bind (strptime FORMAT (timestamp (fields v)))
                             (fun t => ret (year t =? now_year)))
              (map with_urls
                   (map fetched (order_by_datetime_desc_id_desc (rows (table w)))))
              w (with_urls (fetched r)) e) as [e' E].
  - intros v. now rewrite year_keep_reads.
  - apply in_map, in_map. now apply in_order_iff.
  - rewrite year_keep_reads. cbn [fst].
    change (timestamp (fields (with_urls (fetched r)))) with (timestamp r).
    now rewrite He.
  - exists e'. now apply bind_raises.
Qed.

(** The theorem at work: a record stamped with the ISO "T" layout, which
    the live check of the last three months accepts, stops the page. *)
Lemma index_needs_parsable_timestamps_worked :
  exists e', index (engine := Inputs.newest_first) ∅ 2026 MoreInputs.iso_world
             = (Raise e', MoreInputs.iso_world).
Proof.
  apply (index_needs_parsable_timestamps (engine := Inputs.newest_first)
           2026 MoreInputs.iso_world
           (Inputs.record 2 "2026-02-11T16:20:00" "Success") ValueError).
  - lia.
  - right. left. reflexivity.
  - vm_compute. reflexivity.
Defined.

(** ** Dates the form did not make *)

Lemma bind_ext {S A B} (m : St S A) (k k' : A -> St S B) (s : S) :
  (forall a s1, k a s1 = k' a s1) -> bind m k s = bind m k' s.
Proof. intros H. unfold bind. destruct (m s) as [[a|e] s1]; [apply H | reflexivity]. Qed.

Lemma bind_same {S A B} (m m' : St S A) (k : A -> St S B) (s : S) :
  m s = m' s -> bind m k s = bind m' k s.
Proof. intros H. unfold bind. now rewrite H. Qed.

Lemma dated_stage_off {S X} (date : str) (e : exn)
    (keep : datetime -> X -> St S bool) (l : list X) (s : S) :
  strptime_result re_date (Some date) = Raise e ->
  (if truthy (Some date)
   then try_except
          (bind (strptime re_date (Some date)) (fun d => filter_st (keep d) l))
          (fun _ => ret l)
   else ret l) s
  = ret l s.
Proof.
  intros H. destruct (truthy (Some date)); [|reflexivity].
  unfold try_except, bind, strptime. now rewrite H.
Qed.

(** A [date_from] that is no date of the form "%Y-%m-%d" is passed over
    in silence: [index] answers as if the query string had no
    [date_from] at all, with every other filter still applied. *)
Theorem index_ignores_malformed_date_from {engine : SqlEngine}
    (args : gmap str str) (now_year : nat) (w : World) (e : exn) :
  strptime_result re_date (Some (args_get args "date_from" "")) = Raise e ->
  index args now_year w = index (delete (py "date_from") args) now_year w.
Proof.
  intros He. unfold index.
  assert (L : forall key : string,
            py key <> py "date_from" ->
            delete (py "date_from") args !! py key = args !! py key).
  { intros key N. apply lookup_delete_ne. congruence. }
  unfold args_get in *.
  rewrite lookup_delete_eq.
  rewrite !L by (cbv; discriminate).
  do 8 (apply bind_ext; intros ? ?).
  apply bind_same.
  rewrite (dated_stage_off _ e) by exact He.
  reflexivity.
Qed.

(** The theorem at work on a date typed day first. *)
Lemma index_ignores_malformed_date_from_worked :
  index (engine := Inputs.newest_first) MoreInputs.typed_date 2026
        Inputs.dashboard_world
  = index (engine := Inputs.newest_first)
          (delete (py "date_from") MoreInputs.typed_date) 2026
          Inputs.dashboard_world.
Proof.
  apply (index_ignores_malformed_date_from (engine := Inputs.newest_first)
           MoreInputs.typed_date 2026 Inputs.dashboard_world ValueError).
  vm_compute. reflexivity.
Defined.

End IndexMore.

(* ===================================================================== *)
(** * The audit log as the live flow writes it *)
(* ===================================================================== *)

Module LiveLogFacts.

Import PyStrFacts db_access xds_main_log Notions MoreNotions.
Import ContainsFacts ReconcileMore.

(** ** Writing an entry *)

Lemma append_text_run {site : Deployment} (p s : str) (w : World) :
  append_text p s w
  = match fs w !! p with
    | None =>
        if can_create p
        then (Ok tt, with_fs (<[p := {| text := Some (universal_newlines s);
                                        writable := true;
                                        removable := true |}]> (fs w)) w)
        else (Raise OSError, w)
    | Some f =>
        if writable f
        then (Ok tt, with_fs (<[p := appended (universal_newlines s) f]> (fs w)) w)
        else (Raise OSError, w)
    end.
Proof.
  unfold append_text, bind, get.
  destruct (fs w !! p) as [f|]; [destruct (writable f)|destruct (can_create p)];
    reflexivity.
Qed.

(** [log_verification_result] never raises and only ever adds to the one
    file it writes ([logfile], or [LOG_FILE] when that is [None] or
    empty): the table, the console and every other file stay as they
    are.  A log that is not there is made, holding the entry, when the
    place lets a file be made, and otherwise there is still no log and
    the entry is lost; a log that can be written keeps what it holds and
    has the entry after it; a log that cannot be written stays
    untouched.  The entry is in the log as it reads back: the lines
    written, a carriage return in them read as a line end. *)
Theorem log_verification_result_only_appends {site : Deployment}
    (timestamp enquiry_id enquiry_result_id : str)
    (summary_dict : option Summary) (status : str) (logfile : option str)
    (w : World) :
  let w' := snd (log_verification_result timestamp enquiry_id enquiry_result_id
                   summary_dict status logfile w) in
  let e := entry timestamp enquiry_id enquiry_result_id summary_dict status in
  fst (log_verification_result timestamp enquiry_id enquiry_result_id
         summary_dict status logfile w) = Ok tt
  /\ table w' = table w /\ stdout w' = stdout w
  /\ (forall q, q <> log_path_of logfile -> fs w' !! q = fs w !! q)
  /\ fs w' !! log_path_of logfile
     = match fs w !! log_path_of logfile with
       | None =>
           if can_create (log_path_of logfile)
           then Some {| text := Some e; writable := true; removable := true |}
           else None
       | Some f => if writable f then Some (appended e f) else Some f
       end.
Proof.
  cbv zeta. unfold log_verification_result, try_except.
  fold (log_path_of logfile). rewrite append_text_run.
  destruct (fs w !! log_path_of logfile) as [f|] eqn:E;
    [destruct (writable f) eqn:W|destruct (can_create (log_path_of logfile))];
    cbn [fst snd with_fs table stdout fs ret].
  - repeat split; [|apply lookup_insert_eq].
    intros q N. now apply lookup_insert_ne.
  - repeat split. exact E.
  - repeat split; [|apply lookup_insert_eq].
    intros q N. now apply lookup_insert_ne.
  - repeat split. exact E.
Qed.

(** ** Line ends and the text "ClientID:" *)

Lemma startswith_read_back (n s : str) :
  existsb (ceq "013"%char) n = false -> existsb (ceq newline) n = false ->
  n <> [] ->
  startswith n (universal_newlines s) = startswith n s.
Proof.
  revert s. induction n as [|y n IH]; intros s Hcr Hlf Hne; [congruence|].
  cbn [existsb] in Hcr, Hlf.
  apply orb_false_iff in Hcr as [Ycr Ncr]. apply orb_false_iff in Hlf as [Ylf Nlf].
  destruct s as [|c s]; [reflexivity|].
  cbn [universal_newlines]. destruct (ceq c "013"%char) eqn:C.
  - apply Ascii.eqb_eq in C. subst c. cbn [startswith].
    unfold ceq in *. rewrite Ascii.eqb_sym in Ycr, Ylf.
    rewrite Ascii.eqb_sym in Ycr, Ylf.
    rewrite (Ascii.eqb_sym y "013"%char), Ycr.
    change newline with "010"%char in *.
    now rewrite (Ascii.eqb_sym y "010"%char), Ylf.
  - cbn [startswith]. destruct n as [|z n]; [reflexivity|].
    rewrite IH; [reflexivity | exact Ncr | exact Nlf | discriminate].
Qed.

Lemma contains_read_back_upto (n : str) (k : nat) (s : str) :
  existsb (ceq "013"%char) n = false -> existsb (ceq newline) n = false ->
  n <> [] -> length s <= k ->
  contains n (universal_newlines s) = contains n s.
Proof.
  intros Hcr Hlf Hne. revert s.
  induction k as [|k IH]; intros s Hk.
  - destruct s; [reflexivity | cbn in Hk; lia].
  - destruct s as [|c s]; [reflexivity|].
    cbn [length] in Hk.
    pose proof (startswith_read_back n (c :: s) Hcr Hlf Hne) as Hs.
    destruct n as [|y n]; [congruence|].
    cbn [existsb] in Hcr, Hlf.
    apply orb_false_iff in Hcr as [Ycr Ncr]. apply orb_false_iff in Hlf as [Ylf Nlf].
    assert (Fcr : forall t, startswith (y :: n) ("013"%char :: t) = false).
    { intros t. cbn [startswith]. unfold ceq in *.
      now rewrite Ascii.eqb_sym, Ycr. }
    assert (Flf : forall t, startswith (y :: n) (newline :: t) = false).
    { intros t. cbn [startswith]. unfold ceq in *.
      now rewrite Ascii.eqb_sym, Ylf. }
    assert (Hcr' : existsb (ceq "013"%char) (y :: n) = false)
      by (cbn [existsb]; now rewrite Ycr, Ncr).
    assert (Hlf' : existsb (ceq newline) (y :: n) = false)
      by (cbn [existsb]; now rewrite Ylf, Nlf).
    cbn [universal_newlines] in *. destruct (ceq c "013"%char) eqn:C.
    + apply Ascii.eqb_eq in C. subst c.
      rewrite !contains_cons, Flf, Fcr. cbn [orb].
      destruct s as [|d s]; [reflexivity|].
      destruct (ceq d newline) eqn:D.
      * apply Ascii.eqb_eq in D. subst d.
        rewrite contains_cons, Flf. cbn [orb].
        apply IH. cbn [length] in Hk. lia.
      * apply IH. lia.
    + rewrite !contains_cons. rewrite Hs. f_equal. apply IH. lia.
Qed.

Lemma contains_read_back (n s : str) :
  existsb (ceq "013"%char) n = false -> existsb (ceq newline) n = false ->
  n <> [] ->
  contains n (universal_newlines s) = contains n s.
Proof.
  intros Hcr Hlf Hne.
  now apply (contains_read_back_upto n (length s) s).
Qed.

(** ** An entry and the text "ClientID:" *)

Lemma startswith_sep (c : ascii) (n a b : str) :
  existsb (ceq c) n = false -> startswith n (a ++ c :: b) = startswith n a.
Proof.
  revert a. induction n as [|y n IH]; intros a H; [reflexivity|].
  cbn [existsb] in H. apply orb_false_iff in H as [Hy Hn].
  destruct a as [|x a]; cbn.
  - unfold ceq in *. rewrite Ascii.eqb_sym, Hy. reflexivity.
  - now rewrite IH.
Qed.

(** A character that is not in the needle cuts the search in two. *)
Lemma contains_sep (c y : ascii) (n a b : str) :
  existsb (ceq c) (y :: n) = false ->
  contains (y :: n) (a ++ c :: b) = contains (y :: n) a || contains (y :: n) b.
Proof.
  intros H. induction a as [|x a IH].
  - cbn [app]. rewrite contains_cons.
    cbn [existsb] in H. apply orb_false_iff in H as [Hy _].
    cbn [startswith contains]. unfold ceq in *.
    rewrite Ascii.eqb_sym, Hy. reflexivity.
  - change ((x :: a) ++ c :: b) with (x :: (a ++ c :: b)).
    rewrite !contains_cons, IH.
    change (x :: (a ++ c :: b)) with ((x :: a) ++ c :: b).
    rewrite (startswith_sep c (y :: n) (x :: a) b H).
    now rewrite orb_assoc.
Qed.

(** Fixed text without the needle's first character is passed over. *)
Lemma contains_past (y : ascii) (n lit s : str) :
  forallb (fun x => negb (ceq y x)) lit = true ->
  contains (y :: n) (lit ++ s) = contains (y :: n) s.
Proof.
  induction lit as [|x lit IH]; intros H; [reflexivity|].
  cbn [forallb] in H. apply andb_true_iff in H as [Hx Hl].
  cbn [app]. rewrite contains_cons. cbn [startswith].
  apply negb_true_iff in Hx. rewrite Hx. cbn [andb orb]. now apply IH.
Qed.

Lemma past_line (lit d rest : str) :
  forallb (fun x => negb (ceq "C"%char x)) lit = true ->
  contains (py "ClientID:") d = false ->
  contains (py "ClientID:") (lit ++ d ++ [newline] ++ rest) = contains (py "ClientID:") rest.
Proof.
  intros Hl Hd.
  change (py "ClientID:") with ("C"%char :: py "lientID:") in *.
  rewrite contains_past by exact Hl.
  change ([newline] ++ rest) with (newline :: rest).
  rewrite contains_sep by reflexivity. now rewrite Hd.
Qed.

Lemma past_item (kv : str * str) (rest : str) :
  contains (py "ClientID:") (fst kv ++ py ":") = false -> contains (py "ClientID:") (snd kv) = false ->
  contains (py "ClientID:") (item_line kv ++ rest) = contains (py "ClientID:") rest.
Proof.
  intros Hk Hv. unfold item_line. rewrite <- !app_assoc.
  replace (fst kv ++ py ": " ++ snd kv ++ [newline] ++ rest)
    with ((fst kv ++ py ":") ++ " "%char :: (snd kv ++ newline :: rest))
    by (rewrite <- app_assoc; reflexivity).
  change (py "ClientID:") with ("C"%char :: py "lientID:") in *.
  rewrite contains_past by reflexivity.
  rewrite contains_sep by reflexivity. rewrite Hk. cbn [orb].
  rewrite contains_sep by reflexivity. now rewrite Hv.
Qed.

Lemma past_items (d : Summary) (rest : str) :
  Forall (fun kv => contains (py "ClientID:") (fst kv ++ py ":") = false
                    /\ contains (py "ClientID:") (snd kv) = false) d ->
  contains (py "ClientID:") (concat (map item_line d) ++ rest) = contains (py "ClientID:") rest.
Proof.
  induction 1 as [|kv d [Hk Hv] _ IH]; [reflexivity|].
  cbn [map concat]. rewrite <- app_assoc.
  now rewrite past_item.
Qed.

Lemma items_free (d : Summary) :
  no_client_id (flat_map (fun kv => [fst kv ++ py ":"; snd kv]) d) = true ->
  Forall (fun kv => contains (py "ClientID:") (fst kv ++ py ":") = false
                    /\ contains (py "ClientID:") (snd kv) = false) d.
Proof.
  induction d as [|kv d IH]; intros H; [constructor|].
  cbn [flat_map app] in H. unfold no_client_id in H. cbn [forallb] in H.
  apply andb_true_iff in H as [Hk H]. apply andb_true_iff in H as [Hv H].
  apply negb_true_iff in Hk, Hv.
  constructor; [now split | now apply IH].
Qed.

Lemma dict_get_in (d : Summary) (key : string) (t : str) :
  dict_get d key = Some t -> exists k, In (k, t) d.
Proof.
  unfold dict_get. destruct (find _ d) as [[k v]|] eqn:E; [|discriminate].
  intros H. injection H as <-. apply find_some in E as [E _]. now exists k.
Qed.

Lemma past_summary (summary_dict : option Summary) (rest : str) :
  no_client_id (match summary_dict with
                | Some d => flat_map (fun kv => [fst kv ++ py ":"; snd kv]) d
                | None => []
                end) = true ->
  contains (py "ClientID:") (summary_lines summary_dict ++ rest) = contains (py "ClientID:") rest.
Proof.
  destruct summary_dict as [d|]; [|reflexivity].
  intros H. apply items_free in H. unfold summary_lines.
  set (id_no := py_or (py_or (dict_get d "ID Number") (dict_get d "id_number"))
                      (Some [])).
  rewrite <- app_assoc.
  assert (Hid : truthy id_no = true ->
                exists t, id_no = Some t /\ contains (py "ClientID:") t = false).
  { intros Ht.
    assert (Hfrom : exists key, dict_get d key = id_no).
    { subst id_no. unfold py_or at 2 in Ht. unfold py_or at 2.
      destruct (truthy (dict_get d "ID Number")) eqn:T1.
      - unfold py_or. rewrite T1. now exists "ID Number"%string.
      - unfold py_or in *.
        destruct (truthy (dict_get d "id_number")) eqn:T2.
        + now exists "id_number"%string.
        + discriminate. }
    destruct Hfrom as [key Hkey].
    destruct id_no as [t|]; [|discriminate]. exists t. split; [reflexivity|].
    apply dict_get_in in Hkey as [k Hin].
    rewrite List.Forall_forall in H. now destruct (H _ Hin). }
  destruct (truthy id_no) eqn:T.
  - destruct (Hid eq_refl) as [t [-> Ht]].
    rewrite <- !app_assoc. rewrite past_line by (reflexivity || exact Ht).
    now apply past_items.
  - cbn [app]. now apply past_items.
Qed.

Lemma entry_free (timestamp enquiry_id enquiry_result_id : str)
    (summary_dict : option Summary) (status : str) :
  no_client_id (entry_texts timestamp enquiry_id enquiry_result_id
                            summary_dict status) = true ->
  contains (py "ClientID:")
           (entry_written timestamp enquiry_id enquiry_result_id summary_dict status)
  = false.
Proof.
  unfold entry_texts, no_client_id. rewrite forallb_app. cbn [forallb].
  intros H. apply andb_true_iff in H as [H Hs].
  rewrite !andb_true_iff, !negb_true_iff in H.
  destruct H as (H1 & H2 & H3 & H4 & _).
  unfold entry_written.
  rewrite past_line by (reflexivity || assumption).
  rewrite past_line by (reflexivity || assumption).
  rewrite past_line by (reflexivity || assumption).
  rewrite past_line by (reflexivity || assumption).
  rewrite past_summary by exact Hs.
  reflexivity.
Qed.

Lemma entry_after (old e : str) :
  contains (py "ClientID:") old = false ->
  contains (py "ClientID:") (py "Timestamp: " ++ e) = false ->
  contains (py "ClientID:") (old ++ universal_newlines (py "Timestamp: " ++ e))
  = false.
Proof.
  intros Ho He.
  change (universal_newlines (py "Timestamp: " ++ e))
    with ("T"%char :: universal_newlines (py "imestamp: " ++ e)).
  change (py "Timestamp: " ++ e) with ("T"%char :: py "imestamp: " ++ e) in He.
  rewrite contains_cons in He. apply orb_false_iff in He as [_ He].
  rewrite <- (contains_read_back (py "ClientID:")) in He
    by (reflexivity || discriminate).
  change (py "ClientID:") with ("C"%char :: py "lientID:") in *.
  rewrite contains_sep by reflexivity. now rewrite Ho, He.
Qed.


(** The live flow's entries are no sessions to [log_to_db]: when the
    text "ClientID:" is neither in the log so far nor in any text the
    entry is made of (a key counted with its colon), the log with the
    entry added still has no "ClientID:", and on it [process_log_file]
    inserts nothing and [retrofill_photos] updates nothing. *)
Theorem live_entries_are_no_sessions {engine : SqlEngine} {site : Deployment}
    (timestamp enquiry_id enquiry_result_id : str)
    (summary_dict : option Summary) (status : str)
    (w : World) (f : File) (old : str) :
  fs w !! log_to_db.LOG_FILE = Some f -> text f = Some old ->
  writable f = true ->
  contains (py "ClientID:") old = false ->
  no_client_id (entry_texts timestamp enquiry_id enquiry_result_id
                            summary_dict status) = true ->
  let e := entry timestamp enquiry_id enquiry_result_id summary_dict status in
  let w' := snd (log_verification_result timestamp enquiry_id enquiry_result_id
                   summary_dict status (Some log_to_db.LOG_FILE) w) in
  fs w' !! log_to_db.LOG_FILE = Some (appended e f)
  /\ text (appended e f) = Some (old ++ e)
  /\ contains (py "ClientID:") (old ++ e) = false
  /\ log_to_db.process_log_file w' = (Ok tt, w')
  /\ log_to_db.retrofill_photos w'
     = (Ok tt, printed (RetrofillComplete 0) w').
Proof.
  intros Hf Ht Hw Hold Hfree. cbv zeta.
  set (e := entry timestamp enquiry_id enquiry_result_id summary_dict status).
  assert (Hrun : snd (log_verification_result timestamp enquiry_id
                        enquiry_result_id summary_dict status
                        (Some log_to_db.LOG_FILE) w)
                 = with_fs (<[log_to_db.LOG_FILE := appended e f]> (fs w)) w).
  { unfold log_verification_result, try_except.
    change (match py_or (Some log_to_db.LOG_FILE) (Some LOG_FILE) with
            | Some p => p
            | None => LOG_FILE
            end) with log_to_db.LOG_FILE.
    rewrite append_text_run, Hf, Hw. reflexivity. }
  rewrite Hrun.
  assert (Hlook : fs (with_fs (<[log_to_db.LOG_FILE := appended e f]> (fs w)) w)
                  !! log_to_db.LOG_FILE = Some (appended e f))
    by apply lookup_insert_eq.
  assert (Htext : text (appended e f) = Some (old ++ e))
    by (unfold appended; cbn; now rewrite Ht).
  assert (Hnew : contains (py "ClientID:") (old ++ e) = false).
  { pose proof (entry_free _ _ _ _ _ Hfree) as He. fold e in He.
    subst e. unfold entry, entry_written in *. now apply entry_after. }
  split; [exact Hlook|]. split; [exact Htext|]. split; [exact Hnew|].
  apply (sessionless_run _ (appended e f) (old ++ e) Hlook Htext).
  now right.
Qed.

(** The theorem at work: one more entry in a log of the live layout. *)
Lemma live_entries_worked :
  let e := entry (py "2026-03-01 09:00:00") (py "8") (py "11")
                 (Some MoreInputs.client_summary) (py "Success") in
  let w' := snd (log_verification_result (site := Inputs.installed_in_srv)
                   (py "2026-03-01 09:00:00") (py "8") (py "11")
                   (Some MoreInputs.client_summary) (py "Success")
                   (Some log_to_db.LOG_FILE) MoreInputs.live_world) in
  fs w' !! log_to_db.LOG_FILE
  = Some (appended e (Inputs.readable MoreInputs.live_log))
  /\ text (appended e (Inputs.readable MoreInputs.live_log))
     = Some (MoreInputs.live_log ++ e)
  /\ contains (py "ClientID:") (MoreInputs.live_log ++ e) = false
  /\ log_to_db.process_log_file (engine := Inputs.newest_first) w' = (Ok tt, w')
  /\ log_to_db.retrofill_photos (engine := Inputs.newest_first) w'
     = (Ok tt, printed (RetrofillComplete 0) w').
Proof.
  apply (live_entries_are_no_sessions (engine := Inputs.newest_first)
           (site := Inputs.installed_in_srv)
           (py "2026-03-01 09:00:00") (py "8") (py "11")
           (Some MoreInputs.client_summary) (py "Success")
           MoreInputs.live_world (Inputs.readable MoreInputs.live_log)
           MoreInputs.live_log);
    reflexivity.
Defined.

(** ** Making sure the log is there *)

Lemma appended_nothing (f : File) : writable f = true -> appended [] f = f.
Proof.
  destruct f as [[t|] wr rm]; unfold appended; cbn; intros ->;
    [now rewrite app_nil_r | reflexivity].
Qed.

Lemma with_fs_same (w : World) (p : str) (f : File) :
  fs w !! p = Some f -> with_fs (<[p := f]> (fs w)) w = w.
Proof.
  intros H. destruct w as [t m o]. unfold with_fs. cbn in *.
  now rewrite insert_id.
Qed.

(** [ensure_audit_log] never raises and never touches an audit log that
    is there, whether or not it can be written: the state stays exactly
    as it was.  When there is no log it makes one, empty, if the place
    lets a file be made; if not, the failure is passed over and there is
    still no log. *)
Theorem ensure_audit_log_keeps_the_log {site : Deployment} (w : World) :
  ensure_audit_log w
  = (Ok tt, match fs w !! LOG_FILE with
            | Some _ => w
            | None => if can_create LOG_FILE then with_empty_log LOG_FILE w
                      else w
            end).
Proof.
  unfold ensure_audit_log, try_except. unfold bind at 1.
  unfold os_path_exists, bind, get, ret.
  destruct (fs w !! LOG_FILE) as [f|] eqn:E; cbn [negb].
  - rewrite append_text_run, E.
    destruct (writable f) eqn:W; [|reflexivity].
    change (universal_newlines []) with (@nil ascii).
    rewrite appended_nothing by exact W. now rewrite with_fs_same.
  - unfold write_text, bind, get. rewrite E.
    now destruct (can_create LOG_FILE).
Qed.

End LiveLogFacts.

(* ===================================================================== *)
(** * Keys, photo addresses and the lines of a session *)
(* ===================================================================== *)

Module AccessMore.

Import PyStrFacts db_access log_to_db dashboard_app dashboard_uploads.
Import Notions MoreNotions NormalizeFacts AccessFacts DeleteFacts.
Import ParseFacts ContainsFacts PruneFacts.

(** ** Keys *)









(** ** The address of a photo *)

(** Every photo address the dashboard shows lies under "/uploads/": for
    a stored path, whatever its form, the path [fetch_all_verifications]
    makes of it is given a leading slash by [_to_uploads_url] and nothing
    else is changed; a path that is absent or empty gives the empty
    address. *)
Theorem photo_urls_under_uploads (path : option str) :
  match normalize_path path with
  | Some r =>
      _to_uploads_url (Some r) = py "/" ++ r
      /\ startswith (py "/uploads/") (_to_uploads_url (Some r)) = true
  | None => _to_uploads_url None = []
  end.
Proof.
  destruct (normalize_path path) as [r|] eqn:E; [|reflexivity].
  apply normalize_path_tidy in E. destruct E as [Hp Hs He].
  assert (Hurl : _to_uploads_url (Some r) = py "/" ++ r).
  { apply startswith_app in Hp as [rest ->].
    change (py "uploads/" ++ rest) with ("u"%char :: py "ploads/" ++ rest) in *.
    unfold _to_uploads_url.
    rewrite strip_fixed by (reflexivity || exact He).
    rewrite replace_char_fixed by exact Hs.
    reflexivity. }
  split; [exact Hurl|]. rewrite Hurl.
  change (py "/" ++ r) with ("/"%char :: r).
  change (py "/uploads/") with ("/"%char :: py "uploads/").
  cbn [startswith]. now rewrite Hp.
Qed.

(** ** The file of a photo *)

Lemma until_slash_stop (a b : str) :
  no_slash a = true -> until_slash (a ++ "/"%char :: b) = a.
Proof.
  induction a as [|c a IH]; intros H; [reflexivity|].
  cbn [no_slash forallb] in H. apply andb_true_iff in H as [Hc Ha].
  apply negb_true_iff in Hc. cbn [app until_slash]. rewrite Hc.
  f_equal. now apply IH.
Qed.

Lemma no_slash_rev (a : str) : no_slash (rev a) = no_slash a.
Proof.
  unfold no_slash. induction a as [|c a IH]; [reflexivity|].
  cbn [rev forallb]. rewrite forallb_app, IH. cbn [forallb].
  rewrite andb_true_r. apply andb_comm.
Qed.

(** The directories of a path do not count for [basename]. *)
Lemma basename_of_path (dir name : str) :
  no_slash name = true -> basename (dir ++ "/"%char :: name) = name.
Proof.
  intros H. unfold basename. rewrite rev_app_distr. cbn [rev].
  rewrite <- app_assoc. cbn [app].
  rewrite until_slash_stop by now rewrite no_slash_rev.
  apply rev_involutive.
Qed.

(** [get_full_upload_path] looks in the upload folder itself and nowhere
    else: of a stored path with directories only the file name counts,
    and the answer is the file of that name directly in [UPLOAD_FOLDER]
    when there is one and [None] when there is none, also when the photo
    lies in a folder below it. *)
Theorem get_full_upload_path_drops_directories {site : Deployment}
    (dir : str) (c : ascii) (name : str) (w : World) :
  no_slash (c :: name) = true ->
  get_full_upload_path (Some (dir ++ "/"%char :: c :: name)) w
  = (Ok (if is_there (os_path_join UPLOAD_FOLDER (c :: name)) w
         then Some (os_path_join UPLOAD_FOLDER (c :: name))
         else None), w).
Proof.
  intros H. unfold get_full_upload_path.
  assert (T : truthy (Some (dir ++ "/"%char :: c :: name)) = true)
    by (destruct dir; reflexivity).
  rewrite T. cbn [negb]. rewrite basename_of_path by exact H.
  unfold os_path_exists, bind, get, ret, is_there.
  now destruct (fs w !! os_path_join UPLOAD_FOLDER (c :: name)).
Qed.

(** The theorem at work: the selfie stored as "uploads/selfies/selfie_7.jpg"
    is looked for, and found, as "uploads/selfie_7.jpg". *)
Lemma get_full_upload_path_worked :
  get_full_upload_path (site := Inputs.installed_in_srv)
    (Some (py "uploads/selfies" ++ "/"%char :: "s"%char :: py "elfie_7.jpg"))
    MoreInputs.gallery_world
  = (Ok (if is_there (os_path_join (UPLOAD_FOLDER (site := Inputs.installed_in_srv))
                                   ("s"%char :: py "elfie_7.jpg"))
                     MoreInputs.gallery_world
         then Some (os_path_join (UPLOAD_FOLDER (site := Inputs.installed_in_srv))
                                 ("s"%char :: py "elfie_7.jpg"))
         else None), MoreInputs.gallery_world).
Proof.
  apply (get_full_upload_path_drops_directories (site := Inputs.installed_in_srv)
           (py "uploads/selfies") "s"%char (py "elfie_7.jpg")
           MoreInputs.gallery_world).
  reflexivity.
Defined.

(** ** The value of a line *)

Lemma value_after_rest (c : ascii) (prefix rest : str) :
  contains (c :: prefix) rest = false ->
  value_after (c :: prefix) ((c :: prefix) ++ rest) = strip rest.
Proof.
  intros H. unfold value_after, split. cbn [app split_go].
  assert (S : startswith (c :: prefix) (c :: prefix ++ rest) = true)
    by (apply (proj2 (startswith_app (c :: prefix) (c :: prefix ++ rest)));
        now exists rest).
  rewrite S.
  replace (length (c :: prefix) - 1) with (length prefix) by (cbn; lia).
  rewrite split_go_skip, split_go_whole by exact H. reflexivity.
Qed.

(** A line that begins with one of the nine prefixes sets the key of
    that prefix, and no other prefix takes the line first; the value is
    what follows the prefix, stripped, when the prefix does not occur in
    it again. *)
Theorem parse_line_reads_value (prefix : str) (k : Key) (rest : str)
    (s : Session) :
  In (prefix, k) PREFIXES ->
  contains prefix rest = false ->
  parse_line PREFIXES (prefix ++ rest) s k = Some (strip rest).
Proof.
  intros Hin Hfree. unfold PREFIXES in Hin. cbn [In] in Hin.
  repeat (destruct Hin as [Hin|Hin];
          [injection Hin as <- <-;
           match goal with
           | |- context [parse_line _ ((?c0 :: ?tl) ++ _)] =>
               rewrite <- (value_after_rest c0 tl rest Hfree)
           end;
           reflexivity|]).
  destruct Hin.
Qed.

(** The theorem at work on a line of a session. *)
Lemma parse_line_reads_value_worked :
  parse_line PREFIXES (py "ConsumerIDPhoto:" ++ py " uploads/ids/id_7.jpg ")
             empty_session k_id_photo
  = Some (strip (py " uploads/ids/id_7.jpg ")).
Proof.
  apply (parse_line_reads_value (py "ConsumerIDPhoto:") k_id_photo
           (py " uploads/ids/id_7.jpg ") empty_session).
  - do 7 right. left. reflexivity.
  - reflexivity.
Defined.

End AccessMore.

(* ===================================================================== *)
(** * The schema checks *)
(* ===================================================================== *)

Module SchemaFacts.

Import PyStrFacts schema MoreNotions.

Lemma py_in_false (col : str) (cols : list str) :
  py_in col cols = false ->
  forallb (fun c => negb (same_name col c) || str_eqb col c) cols = true ->
  existsb (same_name col) cols = false.
Proof.
  unfold py_in. induction cols as [|c cols IH]; [reflexivity|].
  cbn [existsb forallb]. intros Hin Hok.
  apply orb_false_iff in Hin as [Hc Hin].
  apply andb_true_iff in Hok as [Hok1 Hok].
  rewrite Hc, orb_false_r in Hok1. apply negb_true_iff in Hok1.
  rewrite Hok1. cbn [orb]. now apply IH.
Qed.

Lemma py_in_true (col : str) (cols : list str) :
  py_in col cols = true -> In col cols.
Proof.
  unfold py_in. intros H. apply existsb_exists in H as [c [Hc E]].
  apply str_eqb_eq in E. now subst c.
Qed.

Lemma py_in_app (col : str) (a b : list str) :
  py_in col (a ++ b) = py_in col a || py_in col b.
Proof. unfold py_in. apply existsb_app. Qed.

Lemma workable_split (cols : list str) :
  workable (Tables (Some cols)) = true ->
  forallb (fun c => negb (same_name (py "id_photo") c)
                    || str_eqb (py "id_photo") c) cols = true
  /\ forallb (fun c => negb (same_name (py "selfie_photo") c)
                       || str_eqb (py "selfie_photo") c) cols = true.
Proof.
  cbn [workable columns_of]. induction cols as [|c cols IH]; [now split|].
  cbn [forallb]. intros H. apply andb_true_iff in H as [H Hrest].
  apply andb_true_iff in H as [H1 H2]. destruct (IH Hrest) as [I1 I2].
  now rewrite H1, H2, I1, I2.
Qed.

(** On a table that is there and workable, [ensure_db_columns] adds the
    photo columns that are missing, after the columns that are there. *)
Lemma ensure_db_columns_run (cols : list str) :
  workable (Tables (Some cols)) = true ->
  ensure_db_columns (Tables (Some cols))
  = (Some tt,
     Tables (Some (cols
                   ++ (if py_in (py "id_photo") cols then [] else [py "id_photo"])
                   ++ (if py_in (py "selfie_photo") cols then []
                       else [py "selfie_photo"])))).
Proof.
  intros Hw. destruct (workable_split cols Hw) as [W1 W2].
  unfold ensure_db_columns, and_then, connect, table_info.
  destruct (py_in (py "id_photo") cols) eqn:P1; cbn [negb].
  - unfold sql_ret. destruct (py_in (py "selfie_photo") cols) eqn:P2; cbn [negb].
    + now rewrite app_nil_r.
    + unfold alter_table_add_column. now rewrite (py_in_false _ _ P2 W2).
  - unfold alter_table_add_column at 1. rewrite (py_in_false _ _ P1 W1).
    destruct (py_in (py "selfie_photo") cols) eqn:P2; cbn [negb].
    + unfold sql_ret. now rewrite app_nil_r.
    + unfold alter_table_add_column.
      rewrite existsb_app, (py_in_false _ _ P2 W2). cbn.
      now rewrite <- app_assoc.
Qed.

Lemma ensure_database_run (d : Database) :
  ensure_database d
  = match d with
    | NotADatabase => (None, NotADatabase)
    | Tables (Some cols) => (Some tt, d)
    | _ => (Some tt, Tables (Some COLUMNS))
    end.
Proof. destruct d as [| |[cols|]]; reflexivity. Qed.

(** The checks [db_access] runs when it is imported work on everything
    but a file that is no database, which they do not replace: they end
    in [DatabaseError] on it and leave it.  Otherwise they make the
    database and the table where missing, add the photo columns that are
    missing behind the columns that are there, and running them again
    changes nothing. *)
Theorem import_checks_establish_photo_columns (d : Database) :
  workable d = true ->
  import_checks NotADatabase = (None, NotADatabase)
  /\ exists added,
       import_checks d = (Some tt, Tables (Some (columns_of d ++ added)))
       /\ In (py "id_photo") (columns_of d ++ added)
       /\ In (py "selfie_photo") (columns_of d ++ added)
       /\ import_checks (Tables (Some (columns_of d ++ added)))
          = (Some tt, Tables (Some (columns_of d ++ added))).
Proof.
  intros Hw. split; [reflexivity|].
  assert (Fresh : import_checks (Tables (Some COLUMNS))
                  = (Some tt, Tables (Some COLUMNS))) by reflexivity.
  destruct d as [| |[cols|]]; [| discriminate | |].
  - exists COLUMNS. cbn [columns_of app].
    repeat split; try reflexivity; cbn; auto 12.
  - unfold import_checks, and_then. rewrite ensure_database_run.
    rewrite (ensure_db_columns_run cols Hw). cbn [columns_of].
    set (added := (if py_in (py "id_photo") cols then [] else [py "id_photo"])
                  ++ (if py_in (py "selfie_photo") cols then []
                      else [py "selfie_photo"])).
    exists added.
    assert (I1 : py_in (py "id_photo") (cols ++ added) = true).
    { rewrite py_in_app. subst added.
      destruct (py_in (py "id_photo") cols); [reflexivity|].
      apply orb_true_r. }
    assert (I2 : py_in (py "selfie_photo") (cols ++ added) = true).
    { rewrite py_in_app. subst added.
      destruct (py_in (py "selfie_photo") cols); [reflexivity|].
      cbn [orb]. rewrite py_in_app. apply orb_true_r. }
    split; [reflexivity|].
    split; [now apply py_in_true|]. split; [now apply py_in_true|].
    rewrite ensure_database_run.
    unfold ensure_db_columns, and_then, connect, table_info.
    rewrite I1, I2. reflexivity.
  - exists COLUMNS. cbn [columns_of app].
    repeat split; try reflexivity; cbn; auto 12.
Qed.

(** The theorem at work on a table of the first version. *)
Lemma import_checks_worked :
  import_checks NotADatabase = (None, NotADatabase)
  /\ exists added,
       import_checks MoreInputs.first_schema
       = (Some tt, Tables (Some (columns_of MoreInputs.first_schema ++ added)))
       /\ In (py "id_photo") (columns_of MoreInputs.first_schema ++ added)
       /\ In (py "selfie_photo") (columns_of MoreInputs.first_schema ++ added)
       /\ import_checks (Tables (Some (columns_of MoreInputs.first_schema ++ added)))
          = (Some tt, Tables (Some (columns_of MoreInputs.first_schema ++ added))).
Proof.
  apply (import_checks_establish_photo_columns MoreInputs.first_schema).
  reflexivity.
Defined.

(** The checks of db_access.py, xds_main.py and db_setup.py agree, and
    the check of log_to_db.py does not work.  The test-then-create of
    [ensure_database] does on every database file what the plain
    [CREATE TABLE IF NOT EXISTS] of [init_db] does, errors included;
    [migrate_database_schema] is the [ensure_db_columns] of db_access.py
    made quiet: it never raises, and it leaves the database as that one
    leaves it, whether that one returns or raises half way.  The
    [ensure_db_columns] of log_to_db.py reads its rows as dicts: on a
    table with a column it ends in [KeyError] and adds nothing, so also
    after the checks that the import of [db_access] has run; without a
    table, and on a file that is no database, it ends in a
    [DatabaseError]. *)
Theorem schema_checks_agree (d : Database) :
  ensure_database d = init_db d
  /\ migrate_database_schema d = (Some tt, snd (ensure_db_columns d))
  /\ (forall c cols,
        log_to_db_checks.ensure_db_columns (Tables (Some (c :: cols)))
        = (log_to_db_checks.KeyError, Tables (Some (c :: cols))))
  /\ (workable d = true ->
      log_to_db_checks.ensure_db_columns (snd (import_checks d))
      = (log_to_db_checks.KeyError, snd (import_checks d)))
  /\ log_to_db_checks.ensure_db_columns NoFile
     = (log_to_db_checks.DatabaseError, Tables None)
  /\ log_to_db_checks.ensure_db_columns (Tables None)
     = (log_to_db_checks.DatabaseError, Tables None)
  /\ log_to_db_checks.ensure_db_columns NotADatabase
     = (log_to_db_checks.DatabaseError, NotADatabase).
Proof.
  split; [destruct d as [| |[cols|]]; reflexivity|].
  split.
  { unfold migrate_database_schema, or_else. fold ensure_db_columns.
    now destruct (ensure_db_columns d) as [[[]|] d']. }
  split; [reflexivity|].
  split; [|repeat split].
  intros Hw.
  assert (Fresh : import_checks (Tables (Some COLUMNS))
                  = (Some tt, Tables (Some COLUMNS))) by reflexivity.
  destruct d as [| |[cols|]]; [| discriminate | |].
  - change (import_checks NoFile) with (import_checks (Tables (Some COLUMNS))).
    rewrite Fresh. reflexivity.
  - unfold import_checks, and_then. rewrite ensure_database_run.
    rewrite (ensure_db_columns_run cols Hw). cbn [snd].
    destruct cols as [|c cols]; [|reflexivity].
    reflexivity.
  - change (import_checks (Tables None))
      with (import_checks (Tables (Some COLUMNS))).
    rewrite Fresh. reflexivity.
Qed.

End SchemaFacts.

(* ===================================================================== *)
(** * Stamps: written by [strftime], read by [strptime], ordered as text *)
(* ===================================================================== *)

Module StampFacts.

Import PyStrFacts PyLib xds_main_recent MoreNotions.

(** ** Digits *)

Lemma digit_of_char (k : nat) : k < 10 -> digit (digit_char k) = Some k.
Proof. intros H. do 10 (destruct k as [|k]; [reflexivity|]). lia. Qed.

Lemma code_of_char (k : nat) : k < 10 -> nat_of_ascii (digit_char k) = 48 + k.
Proof. intros H. do 10 (destruct k as [|k]; [reflexivity|]). lia. Qed.

Lemma digit_char_no_space (k : nat) : k < 10 -> isspace (digit_char k) = false.
Proof. intros H. do 10 (destruct k as [|k]; [reflexivity|]). lia. Qed.

Lemma tens_and_ones (n : nat) :
  n < 100 -> n / 10 < 10 /\ n mod 10 < 10 /\ n = 10 * (n / 10) + n mod 10.
Proof.
  intros H. pose proof (Nat.div_mod_eq n 10).
  pose proof (Nat.mod_upper_bound n 10 ltac:(lia)). lia.
Qed.

(** ** Matching, first match first *)

Lemma seq_first {A B} (p : Matches A) (q : A -> Matches B)
    (s r r' : str) (a : A) (b : B) :
  first_match (p s) a r -> first_match (q a r) b r' ->
  first_match (seq_ p q s) b r'.
Proof.
  intros [o1 H1] [o2 H2]. unfold seq_. rewrite H1. cbn [flat_map].
  rewrite H2. now eexists.
Qed.

Lemma alt_first_l {A} (p q : Matches A) (s r : str) (a : A) :
  first_match (p s) a r -> first_match (alt p q s) a r.
Proof. intros [o H]. unfold alt. rewrite H. now eexists. Qed.

Lemma alt_first_r {A} (p q : Matches A) (s r : str) (a : A) :
  p s = [] -> first_match (q s) a r -> first_match (alt p q s) a r.
Proof. intros Hp [o H]. unfold alt. rewrite Hp, H. now eexists. Qed.

Lemma lit_first (c : ascii) (r : str) : first_match (lit c (c :: r)) tt r.
Proof. unfold lit. rewrite ceq_refl. now eexists. Qed.

Lemma yield_first {A} (a : A) (r : str) : first_match (yield a r) a r.
Proof. now eexists. Qed.

Lemma d2_run (ok1 ok2 : nat -> bool) (n : nat) (r : str) :
  n < 100 ->
  d2 ok1 ok2 (two_digits n ++ r)
  = if ok1 (n / 10) && ok2 (n mod 10) then [(n, r)] else [].
Proof.
  intros H. destruct (tens_and_ones n H) as (Ht & Ho & E).
  unfold d2, seq_, two_digits, d1, yield. cbn [app flat_map].
  rewrite (digit_of_char _ Ht).
  destruct (ok1 (n / 10)); [|reflexivity]. cbn [flat_map app].
  rewrite (digit_of_char _ Ho).
  destruct (ok2 (n mod 10)); [|reflexivity].
  cbn [flat_map app andb]. now rewrite <- E.
Qed.

Lemma d2_first (ok1 ok2 : nat -> bool) (n : nat) (r : str) :
  n < 100 -> ok1 (n / 10) = true -> ok2 (n mod 10) = true ->
  first_match (d2 ok1 ok2 (two_digits n ++ r)) n r.
Proof. intros H H1 H2. rewrite d2_run, H1, H2 by exact H. now eexists. Qed.

Lemma d2_none (ok1 ok2 : nat -> bool) (n : nat) (r : str) :
  n < 100 -> ok1 (n / 10) && ok2 (n mod 10) = false ->
  d2 ok1 ok2 (two_digits n ++ r) = [].
Proof. intros H H1. now rewrite d2_run, H1 by exact H. Qed.

Ltac by_digits n :=
  let Ht := fresh in let Ho := fresh in let E := fresh in
  destruct (tens_and_ones n ltac:(lia)) as (Ht & Ho & E);
  unfold between, any_digit;
  repeat match goal with
         | |- context [?x <=? ?y] => destruct (Nat.leb_spec x y)
         | |- context [?x =? ?y] => destruct (Nat.eqb_spec x y)
         end; cbn; try reflexivity; try lia.

Lemma re_Y_first (hi lo : nat) (r : str) :
  hi < 100 -> lo < 100 ->
  first_match (re_Y (two_digits hi ++ two_digits lo ++ r)) (100 * hi + lo) r.
Proof.
  intros Hh Hl. unfold re_Y.
  eapply seq_first; [now apply d2_first|].
  eapply seq_first; [now apply d2_first | apply yield_first].
Qed.

Lemma re_m_first (m : nat) (r : str) :
  1 <= m <= 12 -> first_match (re_m (two_digits m ++ r)) m r.
Proof.
  intros H. unfold re_m.
  destruct (Nat.leb_spec 10 m).
  - apply alt_first_l. apply d2_first; [lia | by_digits m | by_digits m].
  - apply alt_first_r; [apply d2_none; [lia | by_digits m]|].
    apply alt_first_l. apply d2_first; [lia | by_digits m | by_digits m].
Qed.

Lemma re_d_first (d : nat) (r : str) :
  1 <= d <= 31 -> first_match (re_d (two_digits d ++ r)) d r.
Proof.
  intros H. unfold re_d.
  destruct (Nat.leb_spec 30 d).
  - apply alt_first_l. apply d2_first; [lia | by_digits d | by_digits d].
  - apply alt_first_r; [apply d2_none; [lia | by_digits d]|].
    destruct (Nat.leb_spec 10 d).
    + apply alt_first_l. apply d2_first; [lia | by_digits d | by_digits d].
    + apply alt_first_r; [apply d2_none; [lia | by_digits d]|].
      apply alt_first_l. apply d2_first; [lia | by_digits d | by_digits d].
Qed.

Lemma re_H_first (h : nat) (r : str) :
  h <= 23 -> first_match (re_H (two_digits h ++ r)) h r.
Proof.
  intros H. unfold re_H.
  destruct (Nat.leb_spec 20 h).
  - apply alt_first_l. apply d2_first; [lia | by_digits h | by_digits h].
  - apply alt_first_r; [apply d2_none; [lia | by_digits h]|].
    apply alt_first_l. apply d2_first; [lia | by_digits h | by_digits h].
Qed.

Lemma re_M_first (m : nat) (r : str) :
  m <= 59 -> first_match (re_M (two_digits m ++ r)) m r.
Proof.
  intros H. unfold re_M.
  apply alt_first_l. apply d2_first; [lia | by_digits m | by_digits m].
Qed.

Lemma re_S_first (sec : nat) (r : str) :
  sec <= 59 -> first_match (re_S (two_digits sec ++ r)) sec r.
Proof.
  intros H. unfold re_S.
  apply alt_first_r; [apply d2_none; [lia | by_digits sec]|].
  apply alt_first_l. apply d2_first; [lia | by_digits sec | by_digits sec].
Qed.

Lemma spaces_first (n : nat) (r : str) :
  n < 100 ->
  first_match (spaces (" "%char :: two_digits n ++ r)) tt (two_digits n ++ r).
Proof.
  intros H. destruct (tens_and_ones n H) as (Ht & _ & _).
  unfold two_digits. cbn [app spaces].
  change (isspace " ") with true. cbv iota.
  rewrite (digit_char_no_space _ Ht). now eexists.
Qed.

(** ** What a valid date and time is made of *)

Lemma days_in_month_bound (y m : nat) : days_in_month y m <= 31.
Proof.
  unfold days_in_month.
  do 12 (destruct m as [|m]; [try destruct (is_leap y); lia|]). lia.
Qed.

Lemma valid_bounds (t : datetime) :
  valid t = true ->
  1 <= year t <= 99 * 101 /\ 1 <= month t <= 12 /\ 1 <= day t <= 31
  /\ hour t <= 23 /\ minute t <= 59 /\ second t <= 59.
Proof.
  unfold valid, between, MAXYEAR. intros H.
  rewrite !andb_true_iff, !Nat.leb_le in H.
  pose proof (days_in_month_bound (year t) (month t)).
  lia.
Qed.

Lemma four_digit_bounds (t : datetime) :
  four_digit_year t = true ->
  valid t = true
  /\ year t / 100 < 100 /\ year t mod 100 < 100
  /\ 100 * (year t / 100) + year t mod 100 = year t
  /\ 1 <= month t <= 12 /\ 1 <= day t <= 31
  /\ hour t <= 23 /\ minute t <= 59 /\ second t <= 59.
Proof.
  unfold four_digit_year. intros H. apply andb_true_iff in H as [V _].
  pose proof (valid_bounds t V).
  pose proof (Nat.div_mod_eq (year t) 100).
  pose proof (Nat.mod_upper_bound (year t) 100 ltac:(lia)).
  split; [exact V|]. lia.
Qed.

(** ** Written, then read *)

Lemma re_datetime_digits (hi lo m d h mi sec : nat) :
  hi < 100 -> lo < 100 -> 1 <= m <= 12 -> 1 <= d <= 31 ->
  h <= 23 -> mi <= 59 -> sec <= 59 ->
  first_match
    (re_datetime
       (two_digits hi ++ two_digits lo ++ py "-" ++ two_digits m ++ py "-"
        ++ two_digits d ++ py " " ++ two_digits h ++ py ":" ++ two_digits mi
        ++ py ":" ++ two_digits sec))
    {| year := 100 * hi + lo; month := m; day := d;
       hour := h; minute := mi; second := sec |} [].
Proof.
  intros. unfold re_datetime.
  eapply seq_first; [now apply re_Y_first|].
  eapply seq_first; [apply lit_first|].
  eapply seq_first; [now apply re_m_first|].
  eapply seq_first; [apply lit_first|].
  eapply seq_first; [now apply re_d_first|].
  eapply seq_first; [apply spaces_first; lia|].
  eapply seq_first; [now apply re_H_first|].
  eapply seq_first; [apply lit_first|].
  eapply seq_first; [now apply re_M_first|].
  eapply seq_first; [apply lit_first|].
  eapply seq_first; [apply (re_S_first sec []); lia|].
  apply yield_first.
Qed.

Lemma re_datetime_strftime (t : datetime) :
  four_digit_year t = true -> first_match (re_datetime (strftime t)) t [].
Proof.
  intros H. destruct (four_digit_bounds t H) as (_ & Hh & Hl & E & ? & ? & ? & ? & ?).
  pose proof (re_datetime_digits (year t / 100) (year t mod 100) (month t)
                (day t) (hour t) (minute t) (second t)) as P.
  rewrite E in P. destruct t. now apply P.
Qed.

(** What [strftime] writes, [strptime] reads back: the stamp of a valid
    date and time with a year of four digits is read by the dashboard's
    format "%Y-%m-%d %H:%M:%S" as that same date and time, so a record
    the live flow stamps never stops the dashboard. *)
Theorem stamps_read_back (t : datetime) :
  four_digit_year t = true ->
  strptime_result dashboard_app.FORMAT (Some (strftime t)) = Ok t.
Proof.
  intros H. destruct (re_datetime_strftime t H) as [others E].
  unfold strptime_result, dashboard_app.FORMAT. rewrite E.
  unfold four_digit_year in H. apply andb_true_iff in H as [V _].
  now rewrite V.
Qed.

(** The theorem at work on the last second of a leap day. *)
Lemma stamps_read_back_worked :
  strptime_result dashboard_app.FORMAT
    (Some (strftime {| year := 2024; month := 2; day := 29;
                       hour := 23; minute := 59; second := 59 |}))
  = Ok {| year := 2024; month := 2; day := 29;
          hour := 23; minute := 59; second := 59 |}.
Proof.
  apply (stamps_read_back {| year := 2024; month := 2; day := 29;
                             hour := 23; minute := 59; second := 59 |}).
  reflexivity.
Defined.

(** ** Ordered as text *)

Lemma split_compare (base a b : nat) (rest : bool) :
  0 < base ->
  (a / base <? b / base)
  || ((a / base =? b / base)
      && ((a mod base <? b mod base) || ((a mod base =? b mod base) && rest)))
  = (a <? b) || ((a =? b) && rest).
Proof.
  intros Hb.
  pose proof (Nat.div_mod_eq a base). pose proof (Nat.div_mod_eq b base).
  pose proof (Nat.mod_upper_bound a base ltac:(lia)).
  pose proof (Nat.mod_upper_bound b base ltac:(lia)).
  destruct (Nat.ltb_spec (a / base) (b / base));
    destruct (Nat.eqb_spec (a / base) (b / base));
    destruct (Nat.ltb_spec (a mod base) (b mod base));
    destruct (Nat.eqb_spec (a mod base) (b mod base));
    destruct (Nat.ltb_spec a b); destruct (Nat.eqb_spec a b);
    cbn; try reflexivity; try lia; try nia.
Qed.

Lemma two_digits_ltb (a b : nat) (ra rb : str) :
  a < 100 -> b < 100 ->
  str_ltb (two_digits a ++ ra) (two_digits b ++ rb)
  = (a <? b) || ((a =? b) && str_ltb ra rb).
Proof.
  intros Ha Hb.
  destruct (tens_and_ones a Ha) as (At & Ao & _).
  destruct (tens_and_ones b Hb) as (Bt & Bo & _).
  unfold two_digits. cbn [app str_ltb].
  rewrite !code_of_char by assumption.
  rewrite <- (split_compare 10 a b (str_ltb ra rb)) by lia.
  replace (48 + a / 10 <? 48 + b / 10) with (a / 10 <? b / 10)
    by (destruct (Nat.ltb_spec (a / 10) (b / 10));
        destruct (Nat.ltb_spec (48 + a / 10) (48 + b / 10)); lia).
  replace (48 + a / 10 =? 48 + b / 10) with (a / 10 =? b / 10)
    by (destruct (Nat.eqb_spec (a / 10) (b / 10));
        destruct (Nat.eqb_spec (48 + a / 10) (48 + b / 10)); lia).
  replace (48 + a mod 10 <? 48 + b mod 10) with (a mod 10 <? b mod 10)
    by (destruct (Nat.ltb_spec (a mod 10) (b mod 10));
        destruct (Nat.ltb_spec (48 + a mod 10) (48 + b mod 10)); lia).
  replace (48 + a mod 10 =? 48 + b mod 10) with (a mod 10 =? b mod 10)
    by (destruct (Nat.eqb_spec (a mod 10) (b mod 10));
        destruct (Nat.eqb_spec (48 + a mod 10) (48 + b mod 10)); lia).
  reflexivity.
Qed.

Lemma same_char_ltb (c : ascii) (ra rb : str) :
  str_ltb (c :: ra) (c :: rb) = str_ltb ra rb.
Proof. cbn [str_ltb]. now rewrite Nat.ltb_irrefl, Nat.eqb_refl. Qed.

(** Two stamps compare as texts the way their dates and times compare. *)
Lemma strftime_order (a b : datetime) :
  four_digit_year a = true -> four_digit_year b = true ->
  str_ltb (strftime a) (strftime b) = lex_ltb (dt_key a) (dt_key b).
Proof.
  intros Ha Hb.
  destruct (four_digit_bounds a Ha) as (_ & ? & ? & _ & ? & ? & ? & ? & ?).
  destruct (four_digit_bounds b Hb) as (_ & ? & ? & _ & ? & ? & ? & ? & ?).
  unfold strftime, dt_key.
  change (py "-") with ["-"%char]. change (py " ") with [" "%char].
  change (py ":") with [":"%char]. cbn [app lex_ltb].
  change (two_digits (second a)) with (two_digits (second a) ++ []).
  change (two_digits (second b)) with (two_digits (second b) ++ []).
  repeat first [rewrite two_digits_ltb by lia | rewrite same_char_ltb].
  cbn [str_ltb].
  rewrite (split_compare 100 (year a) (year b)) by lia.
  reflexivity.
Qed.

(** Stamps sort as texts the way their moments sort in time, which is
    what [ORDER BY timestamp] and [max] over timestamps rely on: one
    stamp is before another as a string exactly when its date and time
    is not at or after the other's. *)
Theorem stamps_sort_by_time (a b : datetime) :
  four_digit_year a = true -> four_digit_year b = true ->
  str_ltb (strftime a) (strftime b) = negb (dt_leb b a).
Proof.
  intros Ha Hb. rewrite (strftime_order a b Ha Hb). unfold dt_leb.
  generalize (dt_key a) (dt_key b) (eq_refl : length (dt_key a) = length (dt_key b)).
  induction l as [|x l IH]; intros [|y l'] E; try discriminate; [reflexivity|].
  cbn [lex_ltb lex_leb]. injection E as E. rewrite (IH l' E).
  destruct (Nat.ltb_spec x y); destruct (Nat.eqb_spec x y);
    destruct (Nat.ltb_spec y x); destruct (Nat.eqb_spec y x);
    cbn; try reflexivity; try lia.
Qed.

(** The theorem at work across a change of year. *)
Lemma stamps_sort_by_time_worked :
  str_ltb (strftime {| year := 2025; month := 12; day := 31;
                       hour := 23; minute := 59; second := 59 |})
          (strftime {| year := 2026; month := 1; day := 1;
                       hour := 0; minute := 0; second := 0 |})
  = negb (dt_leb {| year := 2026; month := 1; day := 1;
                    hour := 0; minute := 0; second := 0 |}
                 {| year := 2025; month := 12; day := 31;
                    hour := 23; minute := 59; second := 59 |}).
Proof.
  apply (stamps_sort_by_time
           {| year := 2025; month := 12; day := 31;
              hour := 23; minute := 59; second := 59 |}
           {| year := 2026; month := 1; day := 1;
              hour := 0; minute := 0; second := 0 |});
    reflexivity.
Defined.

End StampFacts.

(* ===================================================================== *)
(** * The check of the last three months *)
(* ===================================================================== *)

Module RecentFacts.

Import PyStrFacts PyLib xds_main_recent Notions MoreNotions StampFacts.

(** ** The order of dates and times *)

Lemma lex_ltb_negb (a b : list nat) :
  length a = length b -> lex_ltb a b = negb (lex_leb b a).
Proof.
  revert b. induction a as [|x a IH]; intros [|y b] E; try discriminate.
  - reflexivity.
  - cbn [lex_ltb lex_leb]. injection E as E. rewrite (IH b E).
    destruct (Nat.ltb_spec x y); destruct (Nat.eqb_spec x y);
      destruct (Nat.ltb_spec y x); destruct (Nat.eqb_spec y x);
      cbn; try reflexivity; try lia.
Qed.

Lemma lex_leb_trans (a b c : list nat) :
  length a = length b -> length b = length c ->
  lex_leb a b = true -> lex_leb b c = true -> lex_leb a c = true.
Proof.
  revert b c. induction a as [|x a IH]; intros [|y b] [|z c] E1 E2;
    try discriminate; [reflexivity|].
  cbn [lex_leb]. injection E1 as E1. injection E2 as E2.
  intros H1 H2.
  apply orb_true_iff in H1 as [H1|H1]; apply orb_true_iff in H2 as [H2|H2].
  - apply Nat.ltb_lt in H1, H2. apply orb_true_iff. left. apply Nat.ltb_lt. lia.
  - apply andb_true_iff in H2 as [H2 _]. apply Nat.eqb_eq in H2. subst z.
    now rewrite H1.
  - apply andb_true_iff in H1 as [H1 _]. apply Nat.eqb_eq in H1. subst y.
    now rewrite H2.
  - apply andb_true_iff in H1 as [H1 L1]. apply andb_true_iff in H2 as [H2 L2].
    apply Nat.eqb_eq in H1, H2. subst y z. rewrite Nat.eqb_refl.
    rewrite (IH b c E1 E2 L1 L2). apply orb_true_r.
Qed.

Lemma lex_leb_snoc (a b : list nat) (x : nat) :
  length a = length b -> lex_leb a b = true ->
  lex_leb (a ++ [x]) (b ++ [x]) = true.
Proof.
  revert b. induction a as [|y a IH]; intros [|z b] E; try discriminate.
  - intros _. cbn. rewrite Nat.eqb_refl. apply orb_true_r.
  - injection E as E. cbn [app lex_leb]. intros H.
    apply orb_true_iff in H as [H|H]; [now rewrite H|].
    apply andb_true_iff in H as [H L]. rewrite H, (IH b E L). apply orb_true_r.
Qed.

Lemma dt_leb_total (a b : datetime) :
  lex_ltb (dt_key a) (dt_key b) = false -> dt_leb b a = true.
Proof.
  intros H. rewrite lex_ltb_negb in H by reflexivity.
  now apply negb_false_iff in H.
Qed.

Lemma dt_ltb_leb (a b : datetime) :
  lex_ltb (dt_key a) (dt_key b) = true -> dt_leb a b = true.
Proof.
  unfold dt_leb. generalize (dt_key a) (dt_key b).
  induction l as [|x l IH]; intros [|y l']; cbn; try reflexivity; try discriminate.
  intros H. apply orb_true_iff in H as [H|H]; [now rewrite H|].
  apply andb_true_iff in H as [H L]. rewrite H, (IH _ L). apply orb_true_r.
Qed.

Lemma dt_leb_refl (a : datetime) : dt_leb a a = true.
Proof.
  unfold dt_leb. induction (dt_key a) as [|x l IH]; [reflexivity|].
  cbn. rewrite Nat.eqb_refl, IH. apply orb_true_r.
Qed.

Lemma dt_leb_trans (a b c : datetime) :
  dt_leb a b = true -> dt_leb b c = true -> dt_leb a c = true.
Proof. now apply lex_leb_trans. Qed.

Lemma moment_after (cutoff : moment) (a b : datetime) :
  dt_leb a b = true ->
  moment_leb cutoff (on_the_second a) = true ->
  moment_leb cutoff (on_the_second b) = true.
Proof.
  unfold moment_leb, on_the_second. cbn [upto_second microsecond].
  intros Hab Hc.
  apply (lex_leb_trans _ (dt_key a ++ [0]) _); try reflexivity; [exact Hc|].
  now apply lex_leb_snoc.
Qed.

(** ** The greatest stamp *)

Lemma greatest_stamp (ts : list datetime) (tb : datetime) :
  four_digit_year tb = true ->
  (forall t, In t ts -> four_digit_year t = true) ->
  exists tmax,
    greatest (Some (strftime tb)) (map (fun t => Some (strftime t)) ts)
    = Some (strftime tmax)
    /\ In tmax (tb :: ts)
    /\ four_digit_year tmax = true
    /\ forall t, In t (tb :: ts) -> dt_leb t tmax = true.
Proof.
  revert tb. induction ts as [|t1 ts IH]; intros tb Hb Hall.
  - exists tb. cbn. repeat split; auto.
    intros t [<-|[]]. apply dt_leb_refl.
  - assert (H1 : four_digit_year t1 = true) by (apply Hall; now left).
    assert (Hrest : forall t, In t ts -> four_digit_year t = true)
      by (intros t Ht; apply Hall; now right).
    cbn [map greatest sql_ltb]. rewrite (strftime_order tb t1 Hb H1).
    destruct (lex_ltb (dt_key tb) (dt_key t1)) eqn:C.
    + destruct (IH t1 H1 Hrest) as (tmax & G & Hin & Hv & Hmax).
      exists tmax. split; [exact G|]. split; [now right|]. split; [exact Hv|].
      intros t [<-|Ht]; [|now apply Hmax].
      apply (dt_leb_trans _ t1); [now apply dt_ltb_leb | apply Hmax; now left].
    + destruct (IH tb Hb Hrest) as (tmax & G & Hin & Hv & Hmax).
      exists tmax. split; [exact G|].
      split; [destruct Hin as [<-|Hin]; [now left | right; now right]|].
      split; [exact Hv|].
      intros t [<-|[<-|Ht]].
      * apply Hmax. now left.
      * apply (dt_leb_trans _ tb); [now apply dt_leb_total | apply Hmax; now left].
      * apply Hmax. now right.
Qed.

(** ** The formats *)

Lemma try_formats_reads_a_stamp (t : datetime) (cutoff : moment) (w : World) :
  four_digit_year t = true ->
  try_formats FORMATS (Some (strftime t)) cutoff w
  = (Ok (moment_leb cutoff (on_the_second t)), w).
Proof.
  intros H. destruct (re_datetime_strftime t H) as [others E].
  unfold FORMATS. cbn [try_formats].
  unfold try_except, bind, strptime_moment, re_seconds, seq_, yield.
  rewrite E. cbn [flat_map app upto_second].
  unfold four_digit_year in H. apply andb_true_iff in H as [V _].
  now rewrite V.
Qed.

Lemma existsb_matching {X} (p q : X -> bool) (l : list X) :
  existsb (fun x => p x && q x) l = existsb q (List.filter p l).
Proof.
  induction l as [|x l IH]; [reflexivity|]. cbn [existsb List.filter].
  destruct (p x); cbn [andb existsb orb]; now rewrite IH.
Qed.

Lemma verified_run {site : Deployment} (id_number : str) (cutoff : moment)
    (w : World) :
  is_there DB_FILE w = true ->
  verified_within_last_3_months id_number cutoff w
  = match select_latest_timestamp id_number (table w) with
    | Some ts => try_formats FORMATS ts cutoff w
    | None => (Ok false, w)
    end.
Proof.
  unfold is_there, verified_within_last_3_months.
  unfold os_path_exists, bind, get, ret.
  destruct (fs w !! DB_FILE); [|discriminate]. intros _. cbn [negb].
  now destruct (select_latest_timestamp id_number (table w)).
Qed.

(** On a table whose records of an ID number all carry a stamp that
    [strftime] wrote, as the records of the live flow do, the check is
    exact: with the database file in place,
    [verified_within_last_3_months] returns [True] when some record of
    that number is stamped at or after the cutoff and [False] when none
    is, and it changes nothing. *)
Theorem verified_within_is_exact_on_stamps {site : Deployment}
    (id_number : str) (cutoff : moment) (stamp : Row -> datetime) (w : World) :
  is_there DB_FILE w = true ->
  (forall r, In r (rows (table w)) ->
     sql_eq (Store.id_number r) (Some id_number) = true ->
     timestamp r = Some (strftime (stamp r))
     /\ four_digit_year (stamp r) = true) ->
  verified_within_last_3_months id_number cutoff w
  = (Ok (existsb (fun r => sql_eq (Store.id_number r) (Some id_number)
                           && moment_leb cutoff (on_the_second (stamp r)))
                 (rows (table w))), w).
Proof.
  intros Hdb Hrows. rewrite (verified_run _ _ _ Hdb).
  rewrite existsb_matching. unfold select_latest_timestamp.
  set (keep := fun r => sql_eq (Store.id_number r) (Some id_number)).
  assert (HL : forall r, In r (List.filter keep (rows (table w))) ->
                 timestamp r = Some (strftime (stamp r))
                 /\ four_digit_year (stamp r) = true).
  { intros r Hr. apply filter_In in Hr as [Hin Hk]. now apply Hrows. }
  destruct (List.filter keep (rows (table w))) as [|r0 L]; [reflexivity|].
  cbn [map].
  destruct (HL r0 (or_introl eq_refl)) as [T0 V0].
  assert (TL : map timestamp L = map (fun t => Some (strftime t)) (map stamp L)).
  { rewrite map_map. apply map_ext_in. intros r Hr.
    now destruct (HL r (or_intror Hr)). }
  rewrite T0, TL.
  destruct (greatest_stamp (map stamp L) (stamp r0) V0) as (tmax & G & Hin & Hv & Hmax).
  { intros t Ht. apply in_map_iff in Ht as [r [<- Hr]].
    now destruct (HL r (or_intror Hr)). }
  rewrite G, (try_formats_reads_a_stamp tmax cutoff w Hv).
  f_equal. f_equal.
  change (stamp r0 :: map stamp L) with (map stamp (r0 :: L)) in Hin, Hmax.
  destruct (existsb (fun r => moment_leb cutoff (on_the_second (stamp r)))
                    (r0 :: L)) eqn:Ex.
  - apply existsb_exists in Ex as [r [Hr Hc]].
    apply (moment_after cutoff (stamp r)); [|exact Hc].
    apply Hmax. now apply in_map.
  - apply in_map_iff in Hin as [r [<- Hr]].
    destruct (moment_leb cutoff (on_the_second (stamp r))) eqn:Hc; [|reflexivity].
    rewrite <- Ex. symmetry. apply existsb_exists. now exists r.
Qed.

(** The theorem at work on the three records of the dashboard: the
    success of March 2026 is after the middle of January. *)
Lemma verified_within_worked :
  verified_within_last_3_months (site := Inputs.installed_in_srv)
    (py "8001015009087") MoreInputs.mid_january MoreInputs.recent_world
  = (Ok (existsb (fun r => sql_eq (Store.id_number r) (Some (py "8001015009087"))
                           && moment_leb MoreInputs.mid_january
                                (on_the_second (MoreInputs.stamp_of r)))
                 (rows (table MoreInputs.recent_world))),
     MoreInputs.recent_world).
Proof.
  apply (verified_within_is_exact_on_stamps (site := Inputs.installed_in_srv)
           (py "8001015009087") MoreInputs.mid_january MoreInputs.stamp_of
           MoreInputs.recent_world).
  - reflexivity.
  - intros r [<-|[<-|[<-|[]]]] _; split; vm_compute; reflexivity.
Defined.

(** ** Any table *)

Lemma greatest_in (best : option str) (l : list (option str)) :
  In (greatest best l) (best :: l).
Proof.
  revert best. induction l as [|x l IH]; intros best; [now left|].
  cbn [greatest]. destruct (IH (if sql_ltb best x then x else best)) as [E|E].
  - rewrite <- E. destruct (sql_ltb best x); [right; now left | now left].
  - right. now right.
Qed.

Lemma try_formats_run (formats : list (Matches moment)) (data : option str)
    (cutoff : moment) (w : World) :
  exists b,
    try_formats formats data cutoff w = (Ok b, w)
    /\ (b = true ->
        exists re m, In re formats
                     /\ fst (strptime_moment re data w) = Ok m
                     /\ moment_leb cutoff m = true).
Proof.
  induction formats as [|re rest IH].
  - exists false. split; [reflexivity | discriminate].
  - cbn [try_formats]. unfold try_except, bind.
    destruct (strptime_moment re data w) as [[m|e] w1] eqn:E;
      assert (Hw : w1 = w)
        by (unfold strptime_moment in E; now injection E as _ <-);
      subst w1.
    + exists (moment_leb cutoff m). split; [reflexivity|].
      intros Hb. exists re, m. rewrite E. repeat split; [now left | exact Hb].
    + destruct IH as (b & R & Hb). exists b. split; [exact R|].
      intros Eb. destruct (Hb Eb) as (re' & m & Hin & P & L).
      exists re', m. split; [now right | now split].
Qed.

(** [verified_within_last_3_months] never raises and never writes, and
    it says [True] only for a reason: the database file is there, and a
    record with exactly that ID number has a timestamp that one of the
    three formats reads as a moment at or after the cutoff. *)
Theorem verified_within_needs_a_record {site : Deployment}
    (id_number : str) (cutoff : moment) (w : World) :
  (exists b, verified_within_last_3_months id_number cutoff w = (Ok b, w))
  /\ (fst (verified_within_last_3_months id_number cutoff w) = Ok true ->
      is_there DB_FILE w = true
      /\ exists r re m,
           In r (rows (table w))
           /\ sql_eq (Store.id_number r) (Some id_number) = true
           /\ In re FORMATS
           /\ fst (strptime_moment re (timestamp r) w) = Ok m
           /\ moment_leb cutoff m = true).
Proof.
  destruct (is_there DB_FILE w) eqn:Hdb.
  - rewrite (verified_run _ _ _ Hdb). unfold select_latest_timestamp.
    set (keep := fun r => sql_eq (Store.id_number r) (Some id_number)).
    destruct (List.filter keep (rows (table w))) as [|r0 L] eqn:EL.
    + split; [now exists false | discriminate].
    + cbn [map].
      destruct (try_formats_run FORMATS
                  (greatest (timestamp r0) (map timestamp L)) cutoff w)
        as (b & R & Hb).
      rewrite R. split; [now exists b|].
      cbn [fst]. intros Eb. injection Eb as ->. split; [reflexivity|].
      destruct (Hb eq_refl) as (re & m & Hre & P & Lm).
      pose proof (greatest_in (timestamp r0) (map timestamp L)) as Hin.
      change (timestamp r0 :: map timestamp L)
        with (map timestamp (r0 :: L)) in Hin.
      apply in_map_iff in Hin as [r [Er Hr]].
      rewrite <- EL in Hr. apply filter_In in Hr as [Hr Hk].
      exists r, re, m. rewrite Er. now repeat split.
  - assert (R : verified_within_last_3_months id_number cutoff w = (Ok false, w)).
    { unfold is_there in Hdb. unfold verified_within_last_3_months.
      unfold os_path_exists, bind, get, ret.
      now destruct (fs w !! DB_FILE). }
    rewrite R. split; [now exists false | discriminate].
Qed.

(** ** A timestamp that hides the others *)

Lemma code_eq (x y : ascii) : nat_of_ascii x = nat_of_ascii y -> x = y.
Proof.
  intros H. rewrite <- (ascii_nat_embedding x), <- (ascii_nat_embedding y).
  now rewrite H.
Qed.

Lemma str_ltb_irrefl (a : str) : str_ltb a a = false.
Proof.
  induction a as [|x a IH]; [reflexivity|]. cbn [str_ltb].
  now rewrite Nat.ltb_irrefl, Nat.eqb_refl, IH.
Qed.

Lemma str_ltb_trans (a b c : str) :
  str_ltb a b = true -> str_ltb b c = true -> str_ltb a c = true.
Proof.
  revert b c. induction a as [|x a IH]; intros [|y b] [|z c]; cbn [str_ltb];
    try discriminate; try reflexivity.
  intros H1 H2.
  apply orb_true_iff in H1 as [H1|H1]; apply orb_true_iff in H2 as [H2|H2].
  - apply Nat.ltb_lt in H1, H2. apply orb_true_iff. left. apply Nat.ltb_lt. lia.
  - apply andb_true_iff in H2 as [H2 _]. apply Nat.eqb_eq in H2.
    rewrite <- H2. now rewrite H1.
  - apply andb_true_iff in H1 as [H1 _]. apply Nat.eqb_eq in H1.
    rewrite H1. now rewrite H2.
  - apply andb_true_iff in H1 as [H1 L1]. apply andb_true_iff in H2 as [H2 L2].
    apply Nat.eqb_eq in H1, H2. rewrite H1, H2, Nat.eqb_refl.
    rewrite (IH b c L1 L2). apply orb_true_r.
Qed.

Lemma str_ltb_total (a b : str) :
  str_ltb a b = false -> str_ltb b a = false -> a = b.
Proof.
  revert b. induction a as [|x a IH]; intros [|y b]; cbn [str_ltb];
    try discriminate; [reflexivity|].
  intros H1 H2.
  apply orb_false_iff in H1 as [L1 E1]. apply orb_false_iff in H2 as [L2 E2].
  apply Nat.ltb_ge in L1, L2.
  assert (E : nat_of_ascii x = nat_of_ascii y) by lia.
  rewrite E, Nat.eqb_refl in E1, E2. cbn [andb] in E1, E2.
  f_equal; [now apply code_eq | now apply IH].
Qed.

Lemma sql_ltb_trans (a b c : option str) :
  sql_ltb a b = true -> sql_ltb b c = true -> sql_ltb a c = true.
Proof.
  destruct a as [a|], b as [b|], c as [c|]; cbn; try discriminate;
    try reflexivity.
  apply str_ltb_trans.
Qed.

Lemma sql_ltb_total (a b : option str) :
  sql_ltb a b = false -> sql_ltb b a = false -> a = b.
Proof.
  destruct a as [a|], b as [b|]; cbn; try discriminate; [|reflexivity].
  intros H1 H2. f_equal. now apply str_ltb_total.
Qed.

Lemma sql_ltb_irrefl (a : option str) : sql_ltb a a = false.
Proof. destruct a; [apply str_ltb_irrefl | reflexivity]. Qed.

Lemma greatest_max (l : list (option str)) (best : option str) :
  forall x, In x (best :: l) -> sql_ltb (greatest best l) x = false.
Proof.
  revert best. induction l as [|y l IH]; intros best x Hx.
  - destruct Hx as [<-|[]]. apply sql_ltb_irrefl.
  - cbn [greatest].
    set (b' := if sql_ltb best y then y else best).
    assert (Hb : sql_ltb b' best = false /\ sql_ltb b' y = false).
    { subst b'. destruct (sql_ltb best y) eqn:C.
      - split; [|apply sql_ltb_irrefl].
        destruct (sql_ltb y best) eqn:D; [|reflexivity].
        pose proof (sql_ltb_trans _ _ _ C D) as Loop.
        now rewrite sql_ltb_irrefl in Loop.
      - split; [apply sql_ltb_irrefl | exact C]. }
    destruct Hb as [Hb1 Hb2].
    assert (Hstep : forall z, sql_ltb b' z = false ->
                              sql_ltb (greatest b' l) z = false).
    { intros z Hz. destruct (sql_ltb (greatest b' l) z) eqn:G; [|reflexivity].
      pose proof (IH b' b' (or_introl eq_refl)) as Hg.
      destruct (sql_ltb b' (greatest b' l)) eqn:D.
      - now rewrite (sql_ltb_trans _ _ _ D G) in Hz.
      - rewrite (sql_ltb_total _ _ Hg D) in G. now rewrite G in Hz. }
    destruct Hx as [<-|[<-|Hx]].
    + now apply Hstep.
    + now apply Hstep.
    + apply IH. now right.
Qed.

Lemma try_formats_unreadable (ts : option str) (cutoff : moment) (w : World) :
  unreadable ts = true -> try_formats FORMATS ts cutoff w = (Ok false, w).
Proof.
  unfold unreadable. generalize FORMATS.
  induction l as [|re rest IH]; [reflexivity|].
  cbn [forallb try_formats]. intros H. apply andb_true_iff in H as [H Hrest].
  unfold try_except, bind, strptime_moment in *. cbn [fst] in H.
  destruct ts as [text|]; [|now apply IH].
  destruct (re text) as [|[m [|c r]] others]; try (now apply IH).
  destruct (valid (upto_second m)); [discriminate | now apply IH].
Qed.

(** Only the timestamp that sorts last counts.  When a record of the ID
    number has a timestamp that no record of that number sorts after and
    that none of the three formats reads, the check says [False],
    however recent the other records of the number are. *)
Theorem unreadable_latest_timestamp_hides_the_rest {site : Deployment}
    (id_number : str) (cutoff : moment) (w : World) (r : Row) :
  is_there DB_FILE w = true ->
  In r (rows (table w)) -> has_number id_number r = true ->
  (forall r', In r' (rows (table w)) -> has_number id_number r' = true ->
              sql_ltb (timestamp r) (timestamp r') = false) ->
  unreadable (timestamp r) = true ->
  verified_within_last_3_months id_number cutoff w = (Ok false, w).
Proof.
  intros Hdb Hr Hk Hlast Hno. rewrite (verified_run _ _ _ Hdb).
  unfold select_latest_timestamp. fold (has_number id_number).
  assert (HrL : In r (List.filter (has_number id_number) (rows (table w))))
    by (apply filter_In; now split).
  assert (HL : forall r', In r' (List.filter (has_number id_number) (rows (table w))) ->
                          sql_ltb (timestamp r) (timestamp r') = false).
  { intros r' Hr'. apply filter_In in Hr' as [Hin Hk']. now apply Hlast. }
  destruct (List.filter (has_number id_number) (rows (table w))) as [|r0 L];
    [destruct HrL|].
  cbn [map].
  pose proof (greatest_in (timestamp r0) (map timestamp L)) as Gin.
  pose proof (greatest_max (map timestamp L) (timestamp r0)) as Gmax.
  change (timestamp r0 :: map timestamp L)
    with (map timestamp (r0 :: L)) in Gin, Gmax.
  apply in_map_iff in Gin as [rg [Eg Hg]].
  assert (E : greatest (timestamp r0) (map timestamp L) = timestamp r).
  { apply sql_ltb_total.
    - apply Gmax. now apply in_map.
    - rewrite <- Eg. now apply HL. }
  rewrite E. now apply try_formats_unreadable.
Qed.

(** The theorem at work: beside the success of March 2026 the client has
    a record whose timestamp is the word "pending". *)
Lemma unreadable_latest_timestamp_worked :
  verified_within_last_3_months (site := Inputs.installed_in_srv)
    (py "8001015009087") MoreInputs.mid_january MoreInputs.unstamped_world
  = (Ok false, MoreInputs.unstamped_world).
Proof.
  apply (unreadable_latest_timestamp_hides_the_rest
           (site := Inputs.installed_in_srv)
           (py "8001015009087") MoreInputs.mid_january
           MoreInputs.unstamped_world (Inputs.record 4 "pending" "Success")).
  - reflexivity.
  - do 3 right. left. reflexivity.
  - reflexivity.
  - intros r' [<-|[<-|[<-|[<-|[]]]]] _; reflexivity.
  - reflexivity.
Defined.

(** ** Stamped, then checked *)

(** A record the live flow has just stamped is recognised at once: after
    [insert_verification] with the stamp of a moment that is not before
    the cutoff, [verified_within_last_3_months] says [True] for the ID
    number of the record, when the database file is in place and the
    other records of that number carry stamps too. *)
Theorem fresh_stamp_is_recognised {site : Deployment}
    (now : datetime) (cutoff : moment) (stamp : Row -> datetime)
    (id_number : str) (cid st de na em idp sp : option str) (w : World) :
  is_there DB_FILE w = true ->
  (forall r, In r (rows (table w)) -> has_number id_number r = true ->
     timestamp r = Some (strftime (stamp r))
     /\ four_digit_year (stamp r) = true) ->
  four_digit_year now = true ->
  moment_leb cutoff (on_the_second now) = true ->
  let w' := snd (db_access.insert_verification (Some (strftime now)) cid st de na
                   (Some id_number) em idp sp w) in
  verified_within_last_3_months id_number cutoff w' = (Ok true, w').
Proof.
  intros Hdb Hrows Hnow Hcut. cbv zeta.
  rewrite AccessFacts.insert_verification_run. cbn [snd].
  set (new := {| id := next_rowid (table w); timestamp := Some (strftime now);
                 client_id := cid; status := st; details := de; name := na;
                 Store.id_number := Some id_number; email := em;
                 id_photo := db_access.normalize_path idp;
                 selfie_photo := db_access.normalize_path sp |}).
  set (w' := with_table _ w).
  assert (Hdb' : is_there DB_FILE w' = true) by exact Hdb.
  rewrite (verified_run _ _ _ Hdb'). unfold select_latest_timestamp.
  fold (has_number id_number).
  assert (Hnew : has_number id_number new = true).
  { unfold has_number, sql_eq. cbn. apply str_eqb_refl. }
  change (rows (table w')) with (rows (table w) ++ [new]).
  rewrite List.filter_app. cbn [List.filter]. rewrite Hnew.
  set (stamp' := fun r => if Z.eqb (id r) (id new) && opt_eqb (timestamp r) (timestamp new)
                          then now else stamp r).
  assert (HL : forall r,
             In r (List.filter (has_number id_number) (rows (table w)) ++ [new]) ->
             timestamp r = Some (strftime (stamp' r))
             /\ four_digit_year (stamp' r) = true).
  { intros r Hr. unfold stamp'.
    destruct (Z.eqb (id r) (id new) && opt_eqb (timestamp r) (timestamp new)) eqn:C.
    - apply andb_true_iff in C as [_ C]. apply opt_eqb_eq in C.
      split; [exact C | exact Hnow].
    - apply in_app_or in Hr as [Hr|[<-|[]]].
      + apply filter_In in Hr as [Hin Hk]. now apply Hrows.
      + rewrite Z.eqb_refl in C. cbn [andb] in C.
        assert (T : opt_eqb (timestamp new) (timestamp new) = true)
          by now apply opt_eqb_eq.
        rewrite T in C. discriminate. }
  assert (Hstamp : stamp' new = now).
  { unfold stamp'. rewrite Z.eqb_refl.
    assert (T : opt_eqb (timestamp new) (timestamp new) = true)
      by now apply opt_eqb_eq.
    now rewrite T. }
  assert (Hin : In new (List.filter (has_number id_number) (rows (table w)) ++ [new]))
    by (apply in_or_app; right; now left).
  destruct (List.filter (has_number id_number) (rows (table w)) ++ [new])
    as [|r0 L]; [destruct Hin|].
  cbn [map].
  destruct (HL r0 (or_introl eq_refl)) as [T0 V0].
  assert (TL : map timestamp L = map (fun t => Some (strftime t)) (map stamp' L)).
  { rewrite map_map. apply map_ext_in. intros r Hr.
    now destruct (HL r (or_intror Hr)). }
  rewrite T0, TL.
  destruct (greatest_stamp (map stamp' L) (stamp' r0) V0)
    as (tmax & G & _ & Hv & Hmax).
  { intros t Ht. apply in_map_iff in Ht as [r [<- Hr]].
    now destruct (HL r (or_intror Hr)). }
  rewrite G, (try_formats_reads_a_stamp tmax cutoff w' Hv).
  f_equal. f_equal.
  apply (moment_after cutoff now); [|exact Hcut].
  apply Hmax. rewrite <- Hstamp.
  change (stamp' r0 :: map stamp' L) with (map stamp' (r0 :: L)).
  now apply in_map.
Qed.

(** The theorem at work: the client of the dashboard is verified again
    on the first of March 2026. *)
Lemma fresh_stamp_worked :
  let w' := snd (db_access.insert_verification
                   (Some (strftime MoreInputs.first_of_march))
                   (Some (py "7")) (Some (py "Success")) None None
                   (Some (py "8001015009087")) None None None
                   MoreInputs.recent_world) in
  verified_within_last_3_months (site := Inputs.installed_in_srv)
    (py "8001015009087") MoreInputs.mid_january w'
  = (Ok true, w').
Proof.
  apply (fresh_stamp_is_recognised (site := Inputs.installed_in_srv)
           MoreInputs.first_of_march MoreInputs.mid_january MoreInputs.stamp_of
           (py "8001015009087") (Some (py "7")) (Some (py "Success"))
           None None None None None MoreInputs.recent_world).
  - reflexivity.
  - intros r [<-|[<-|[<-|[]]]] _; split; vm_compute; reflexivity.
  - reflexivity.
  - reflexivity.
Defined.

End RecentFacts.
